(** * EduSmart AI tutor: a shallow embedding of the Python sources

    The development follows the layout of the repository:

    - [Py]                          the Python primitives the sources rely on
                                    (strings, slices, dynamically typed values,
                                    exceptions, the [json] module);
    - [DocumentProcessor]           [src/utils/document_processor.py];
    - [VectorStoreManager]          [src/utils/vector_store.py];
    - [LLMManager]                  [src/ai_tutor/llm_manager.py];
    - [ConversationMemoryManager]   [src/utils/conversation_memory.py];
    - [RAGPipeline]                 [src/ai_tutor/rag_pipeline.py];
    - [EduSmartAITutor]             [src/ai_tutor/tutor_system.py].

    Third-party objects (the FAISS index, the LangChain chain, the language
    model) are objects whose methods are functions stored in the record that
    stands for the object; a method that may raise returns a [result].
    A Python [float] is a binary64 number, held as the rational it denotes,
    and every operation on floats rounds to the nearest one.  A [str] is
    held as its UTF-8 bytes: lengths and slices count code points, while the
    case mapping and the white space are the ASCII ones.  The operating
    system is met through what its calls return: whether a path can be
    opened for writing, and what [os.makedirs] does. *)

From Stdlib Require Import ZArith List String Ascii Bool Lia.
From Stdlib Require Import QArith Qminmax Qround Qpower.
From Stdlib Require Import Numbers.DecimalString.
Import ListNotations.

Close Scope Q_scope.
Set Warnings "-register-all".
Open Scope string_scope.

(* ===================================================================== *)
(** * Part I: the embedding                                               *)
(* ===================================================================== *)

Module Py.

(** ** Exceptions *)

(** The outcome of a call that may raise; the payload of the exception is
    the text [str(e)] that the handlers log. *)
Inductive result (A : Type) : Type :=
| Ok (a : A)
| Raise (e : string).
Arguments Ok {A} a.
Arguments Raise {A} e.

Definition bind {A B} (r : result A) (k : A -> result B) : result B :=
  match r with
  | Ok a => k a
  | Raise e => Raise e
  end.

(** [try: body / except Exception as e: handler(e)] *)
Definition try_except {A} (body : result A) (handler : string -> result A)
  : result A :=
  match body with
  | Ok a => Ok a
  | Raise e => handler e
  end.

(** ** Strings *)

Definition is_upper (c : ascii) : bool :=
  let n := nat_of_ascii c in (65 <=? n)%nat && (n <=? 90)%nat.

Definition lower_ascii (c : ascii) : ascii :=
  if is_upper c then ascii_of_nat (nat_of_ascii c + 32) else c.

(** [s.lower()] *)
Fixpoint lower (s : string) : string :=
  match s with
  | EmptyString => EmptyString
  | String c r => String (lower_ascii c) (lower r)
  end.

(** [needle in hay] on two strings: [needle] occurs as a substring. *)
Fixpoint str_in (needle hay : string) : bool :=
  prefix needle hay ||
  match hay with
  | EmptyString => false
  | String _ r => str_in needle r
  end.

(** [str.isspace] on one ASCII character. *)
Definition is_space (c : ascii) : bool :=
  let n := nat_of_ascii c in
  ((9 <=? n)%nat && (n <=? 13)%nat) || ((28 <=? n)%nat && (n <=? 32)%nat).

Fixpoint lstrip (s : string) : string :=
  match s with
  | EmptyString => EmptyString
  | String c r => if is_space c then lstrip r else s
  end.

Fixpoint rstrip (s : string) : string :=
  match s with
  | EmptyString => EmptyString
  | String c r =>
      match rstrip r with
      | EmptyString => if is_space c then EmptyString else String c EmptyString
      | r' => String c r'
      end
  end.

(** [s.strip()] *)
Definition strip (s : string) : string := rstrip (lstrip s).

(** [s.replace(old, new)]: the occurrences of [old] are replaced from left
    to right without overlap, in one pass; for an empty [old], [new] is
    inserted before every character and at the end.  [skip] counts the
    characters of a matched occurrence still to be dropped. *)
Fixpoint replace_from (old new : string) (skip : nat) (s : string) : string :=
  match s with
  | EmptyString => EmptyString
  | String c r =>
      match skip with
      | S k => replace_from old new k r
      | O =>
          if prefix old s
          then new ++ replace_from old new (String.length old - 1) r
          else String c (replace_from old new 0 r)
      end
  end.

Fixpoint intersperse (new s : string) : string :=
  match s with
  | EmptyString => new
  | String c r => new ++ String c (intersperse new r)
  end.

Definition replace (old new s : string) : string :=
  match old with
  | EmptyString => intersperse new s
  | _ => replace_from old new 0 s
  end.

(** [s.split(sep)] for a non-empty separator: [cur] holds the characters of
    the piece under construction. *)
Fixpoint split_from (sep : string) (skip : nat) (cur : string) (s : string)
  : list string :=
  match s with
  | EmptyString => [cur]
  | String c r =>
      match skip with
      | S k => split_from sep k cur r
      | O =>
          if prefix sep s
          then cur :: split_from sep (String.length sep - 1) EmptyString r
          else split_from sep 0 (cur ++ String c EmptyString) r
      end
  end.

Definition split (sep s : string) : list string :=
  split_from sep 0 EmptyString s.

(** [sep.join(pieces)] *)
Definition join (sep : string) (pieces : list string) : string :=
  String.concat sep pieces.

(** A byte of the form [10xxxxxx] continues the code point that an earlier
    byte has begun. *)
Definition is_continuation (c : ascii) : bool :=
  let n := nat_of_ascii c in (128 <=? n)%nat && (n <=? 191)%nat.

(** [len(s)]: the number of code points. *)
Fixpoint len (s : string) : nat :=
  match s with
  | EmptyString => 0
  | String c r => (if is_continuation c then 0 else 1) + len r
  end.

(** [s[:n]] for [n >= 0]: the first [n] code points, each with the bytes
    that continue it. *)
Fixpoint str_take (n : nat) (s : string) : string :=
  match s with
  | EmptyString => EmptyString
  | String c r =>
      if is_continuation c then String c (str_take n r)
      else
        match n with
        | O => EmptyString
        | S k => String c (str_take k r)
        end
  end.

(** The strings that the [utf-8] codec writes: the well-formed sequences of
    bytes.  A [str] that holds a lone surrogate has no such form (its bytes
    here are those of the [surrogatepass] handler), and writing it to a file
    opened with [encoding='utf-8'] raises [UnicodeEncodeError].  [expected]
    lists the ranges of the bytes that must follow to end the code point
    that has begun. *)
Fixpoint utf8_from (expected : list (nat * nat)) (s : string) : bool :=
  match s with
  | EmptyString =>
      match expected with
      | [] => true
      | _ => false
      end
  | String c r =>
      let n := nat_of_ascii c in
      match expected with
      | (low, high) :: rest =>
          (low <=? n)%nat && (n <=? high)%nat && utf8_from rest r
      | [] =>
          if (n <=? 127)%nat then utf8_from [] r
          else if (194 <=? n)%nat && (n <=? 223)%nat
          then utf8_from [(128, 191)] r
          else if (n =? 224)%nat
          then utf8_from [(160, 191); (128, 191)] r
          else if (n =? 237)%nat
          then utf8_from [(128, 159); (128, 191)] r
          else if (225 <=? n)%nat && (n <=? 239)%nat
          then utf8_from [(128, 191); (128, 191)] r
          else if (n =? 240)%nat
          then utf8_from [(144, 191); (128, 191); (128, 191)] r
          else if (241 <=? n)%nat && (n <=? 243)%nat
          then utf8_from [(128, 191); (128, 191); (128, 191)] r
          else if (n =? 244)%nat
          then utf8_from [(128, 143); (128, 191); (128, 191)] r
          else false
      end
  end.

Definition encodable (s : string) : bool := utf8_from [] s.

(** The number of places of [s] at which [sep] occurs. *)
Fixpoint occurrences (sep s : string) : nat :=
  (if prefix sep s then 1 else 0) +
  match s with
  | EmptyString => 0
  | String _ r => occurrences sep r
  end.

(** [os.path.basename] (POSIX flavour): what follows the last slash. *)
Fixpoint basename (p : string) : string :=
  match p with
  | EmptyString => EmptyString
  | String c r =>
      if str_in "/" r then basename r
      else if Ascii.eqb c "/" then r
      else p
  end.

(** [os.path.splitext(p)[1]] on a base name: the suffix that starts at the
    last dot, provided a character other than a dot precedes it.
    [seen_name] tells whether such a character was met. *)
Fixpoint extension_from (seen_name : bool) (s : string) : string :=
  match s with
  | EmptyString => EmptyString
  | String c r =>
      let later := extension_from (seen_name || negb (Ascii.eqb c ".")) r in
      if Ascii.eqb c "." then
        if str_in "." r then later
        else if seen_name then s else EmptyString
      else later
  end.

(** [os.path.splitext(p)[1]] (POSIX flavour) *)
Definition splitext_extension (p : string) : string :=
  extension_from false (basename p).

(** [str(n)] for an integer. *)
Definition str_of_Z (z : Z) : string := NilZero.string_of_int (Z.to_int z).

(** ** Sequences *)

(** [l[i:]] for any integer [i]: a negative index counts from the end and
    is clamped at the start of the list. *)
Definition slice_from {A} (i : Z) (l : list A) : list A :=
  let n := Z.of_nat (List.length l) in
  let start := if (i <? 0)%Z then Z.max 0 (n + i) else Z.min i n in
  skipn (Z.to_nat start) l.

(** [l[:n]] for [n >= 0] *)
Definition take {A} (n : nat) (l : list A) : list A := firstn n l.

(** [l[:k]] for any integer [k]: a negative bound counts from the end. *)
Definition slice_to {A} (k : Z) (l : list A) : list A :=
  let n := Z.of_nat (List.length l) in
  let stop := if (k <? 0)%Z then Z.max 0 (n + k) else Z.min k n in
  firstn (Z.to_nat stop) l.

(** ** Floats *)

(** A [float] is an IEEE 754 binary64 number.  A finite one is held as the
    rational it denotes, in lowest terms, so that two floats are equal when
    their rationals are the same term.  An operation computes the exact
    result and rounds it to the nearest float, the even one of two that are
    equally near.  Small results are rounded on the grid of the subnormal
    numbers; the exponent is not bounded from above, since no operation of
    the sources comes near [2^1024]: the floats they compute are sums and
    products of a few literals below 1 and of the length of a list, and a
    list holds fewer than [2^63] items. *)
Definition pow2 (e : Z) : Q := (2 ^ e)%Q.

(** For [q > 0], the exponent [e] with [2^e <= q < 2^(e+1)]. *)
Definition ilog2 (q : Q) : Z :=
  let e := (Z.log2 (Qnum q) - Z.log2 (Zpos (Qden q)))%Z in
  if Qle_bool (pow2 e) q then e else (e - 1)%Z.

(** The nearest integer, the even one of two that are equally near. *)
Definition round_half_even (q : Q) : Z :=
  let f := Qfloor q in
  match (q - inject_Z f ?= 1 # 2)%Q with
  | Lt => f
  | Eq => if Z.even f then f else (f + 1)%Z
  | Gt => (f + 1)%Z
  end.

(** The nearest float of [q > 0]: a multiple of [2^e] with a factor of at
    most 53 bits. *)
Definition round_positive (q : Q) : Q :=
  let e := Z.max (ilog2 q - 52) (-1074) in
  Qred (inject_Z (round_half_even (q / pow2 e)) * pow2 e).

(** The float that a decimal literal, an integer or an exact result
    becomes. *)
Definition f64 (q : Q) : Q :=
  match (q ?= 0)%Q with
  | Eq => 0%Q
  | Gt => round_positive q
  | Lt => (- round_positive (- q))%Q
  end.

Arguments f64 : simpl never.

(** [x + y] and [x * y] on floats; [float(z)] on an integer, as in
    [len(l) * 0.1]. *)
Definition fadd (x y : Q) : Q := f64 (x + y).

Definition fmul (x y : Q) : Q := f64 (x * y).

Definition float_of_int (z : Z) : Q := f64 (inject_Z z).

(** [min(x, y)] on two floats: [y] when [y < x], and [x] otherwise. *)
Definition fmin (x y : Q) : Q :=
  match (y ?= x)%Q with
  | Lt => y
  | _ => x
  end.

(** The floats that travel as values: the finite ones, the two infinities
    and NaN.  The two zeros are not told apart. *)
Inductive float : Type :=
| Finite (q : Q)
| Infinity (negative : bool)
| NaN.

(** [x == y] on floats: NaN differs from every float, itself included. *)
Definition float_eq (x y : float) : bool :=
  match x, y with
  | Finite a, Finite b => Qeq_bool a b
  | Infinity s, Infinity s' => Bool.eqb s s'
  | _, _ => false
  end.

Definition is_nan (x : float) : bool :=
  match x with
  | NaN => true
  | _ => false
  end.

(** ** Dynamically typed values *)

(** The values that travel through the [Dict] and [Optional] parameters of
    the sources: the JSON-like builtins, tuples, and opaque objects (anything
    else: a [datetime], a [set], an instance of a class), which are compared
    by identity.  Dictionaries are keyed by strings and kept as the list of
    their items in insertion order. *)
Inductive pyval : Type :=
| PyNone
| PyBool (b : bool)
| PyInt (z : Z)
| PyFloat (x : float)
| PyStr (s : string)
| PyList (l : list pyval)
| PyTuple (l : list pyval)
| PyDict (d : list (string * pyval))
| PyObj (id : nat).

Definition pydict : Type := list (string * pyval).

(** The lookup behind [key in d], [d[key]] and [d.get(key)]. *)
Fixpoint dict_lookup {V} (d : list (string * V)) (key : string) : option V :=
  match d with
  | [] => None
  | (k, v) :: r => if String.eqb k key then Some v else dict_lookup r key
  end.

(** [d.get(key, default)] *)
Definition dict_get_default (d : pydict) (key : string) (default : pyval)
  : pyval :=
  match dict_lookup d key with
  | Some v => v
  | None => default
  end.

(** [d.get(key)] *)
Definition dict_get (d : pydict) (key : string) : pyval :=
  dict_get_default d key PyNone.

(** [d[key] = value]: the value of a key that is present is replaced in
    place, a new key comes last. *)
Fixpoint dict_set (d : pydict) (key : string) (value : pyval) : pydict :=
  match d with
  | [] => [(key, value)]
  | (k, v) :: r =>
      if String.eqb k key then (k, value) :: r
      else (k, v) :: dict_set r key value
  end.

(** [d.update(items)] *)
Definition dict_update (d items : pydict) : pydict :=
  fold_left (fun d '(key, value) => dict_set d key value) items d.

(** [a == b]: booleans compare as the integers 0 and 1, integers and
    floats by their values, sequences element by element, dictionaries as
    maps, objects by identity. *)
Fixpoint py_eq (a b : pyval) {struct a} : bool :=
  match a, b with
  | PyNone, PyNone => true
  | PyBool x, PyBool y => Bool.eqb x y
  | PyBool x, PyInt y => (Z.b2z x =? y)%Z
  | PyInt x, PyBool y => (x =? Z.b2z y)%Z
  | PyInt x, PyInt y => (x =? y)%Z
  | PyFloat x, PyFloat y => float_eq x y
  | PyFloat x, PyInt y | PyInt y, PyFloat x =>
      float_eq x (Finite (inject_Z y))
  | PyFloat x, PyBool y | PyBool y, PyFloat x =>
      float_eq x (Finite (inject_Z (Z.b2z y)))
  | PyStr x, PyStr y => String.eqb x y
  | PyList l, PyList l' | PyTuple l, PyTuple l' =>
      (fix go (l l' : list pyval) {struct l} : bool :=
         match l, l' with
         | [], [] => true
         | x :: r, y :: r' => py_eq x y && go r r'
         | _, _ => false
         end) l l'
  | PyDict d, PyDict d' =>
      (List.length d =? List.length d')%nat &&
      (fix go (d : list (string * pyval)) : bool :=
         match d with
         | [] => true
         | (k, v) :: r =>
             match dict_lookup d' k with
             | Some v' => py_eq v v'
             | None => false
             end && go r
         end) d
  | PyObj i, PyObj j => (i =? j)%nat
  | _, _ => false
  end.

(** ** The [json] module *)

Inductive json : Type :=
| JNull
| JBool (b : bool)
| JNum (z : Z)
| JFloat (x : float)
| JStr (s : string)
| JArr (l : list json)
| JObj (d : list (string * json)).

(** A function that may raise, applied to the elements of a list from left
    to right: the first exception ends the traversal. *)
Definition map_result {A B} (f : A -> result B) : list A -> result (list B) :=
  fix go (l : list A) : result (list B) :=
    match l with
    | [] => Ok []
    | x :: r => bind (f x) (fun y => bind (go r) (fun ys => Ok (y :: ys)))
    end.

(** [sys.get_int_max_str_digits()]: the longest integer that [str] and
    [json] convert to text, and the integers within that limit. *)
Definition int_max_str_digits : Z := 4300.

Definition printable (z : Z) : bool :=
  (Z.abs z <? 10 ^ int_max_str_digits)%Z.

(** What [json.dump(_, f, ensure_ascii=False)] writes for a string on a
    file opened with [encoding='utf-8']: the string itself, provided the
    codec can write it. *)
Definition dump_str (s : string) : result string :=
  if encodable s then Ok s
  else Raise "'utf-8' codec can't encode character: surrogates not allowed".

(** What [json.dump] writes for a value: tuples are written as arrays.  It
    raises [TypeError] on an object that is not serializable, [ValueError]
    on an integer beyond the limit of the conversion to text, and
    [UnicodeEncodeError] on a string that holds a lone surrogate. *)
Fixpoint to_json (v : pyval) : result json :=
  match v with
  | PyNone => Ok JNull
  | PyBool b => Ok (JBool b)
  | PyInt z =>
      if printable z then Ok (JNum z)
      else Raise "Exceeds the limit (4300 digits) for integer string conversion"
  | PyFloat x => Ok (JFloat x)
  | PyStr s => bind (dump_str s) (fun s => Ok (JStr s))
  | PyList l | PyTuple l =>
      bind (map_result to_json l) (fun items => Ok (JArr items))
  | PyDict d =>
      bind (map_result
              (fun '(key, x) =>
                 bind (dump_str key) (fun key =>
                 bind (to_json x) (fun j => Ok (key, j)))) d)
           (fun items => Ok (JObj items))
  | PyObj _ => Raise "Object is not JSON serializable"
  end.

(** What [json.load] builds from a document: arrays become lists. *)
Fixpoint of_json (j : json) : pyval :=
  match j with
  | JNull => PyNone
  | JBool b => PyBool b
  | JNum z => PyInt z
  | JFloat x => PyFloat x
  | JStr s => PyStr s
  | JArr l => PyList (map of_json l)
  | JObj d => PyDict (map (fun '(key, x) => (key, of_json x)) d)
  end.

(** The values that [json] writes and reads back as a value that is equal
    to them: NaN is read back as NaN, which is not equal to itself. *)
Fixpoint json_faithful (v : pyval) : bool :=
  match v with
  | PyNone | PyBool _ => true
  | PyInt z => printable z
  | PyFloat x => negb (is_nan x)
  | PyStr s => encodable s
  | PyList l => forallb json_faithful l
  | PyDict d => forallb (fun '(key, x) => encodable key && json_faithful x) d
  | PyTuple _ | PyObj _ => false
  end.

(** The values that [json.dump] can write. *)
Fixpoint serializable (v : pyval) : bool :=
  match v with
  | PyNone | PyBool _ | PyFloat _ => true
  | PyInt z => printable z
  | PyStr s => encodable s
  | PyList l | PyTuple l => forallb serializable l
  | PyDict d => forallb (fun '(key, x) => encodable key && serializable x) d
  | PyObj _ => false
  end.

(** Induction on values, with the property at hand for the elements of a
    sequence and for the values of a dictionary. *)
Section PyvalInduction.

Variable P : pyval -> Prop.
Hypothesis HNone : P PyNone.
Hypothesis HBool : forall b, P (PyBool b).
Hypothesis HInt : forall z, P (PyInt z).
Hypothesis HFloat : forall x, P (PyFloat x).
Hypothesis HStr : forall s, P (PyStr s).
Hypothesis HList : forall l, Forall P l -> P (PyList l).
Hypothesis HTuple : forall l, Forall P l -> P (PyTuple l).
Hypothesis HDict : forall d, Forall (fun item => P (snd item)) d -> P (PyDict d).
Hypothesis HObj : forall i, P (PyObj i).

Fixpoint pyval_induction (v : pyval) : P v :=
  match v with
  | PyNone => HNone
  | PyBool b => HBool b
  | PyInt z => HInt z
  | PyFloat x => HFloat x
  | PyStr s => HStr s
  | PyList l =>
      HList l ((fix all (l : list pyval) : Forall P l :=
                  match l with
                  | [] => Forall_nil P
                  | x :: r => Forall_cons x (pyval_induction x) (all r)
                  end) l)
  | PyTuple l =>
      HTuple l ((fix all (l : list pyval) : Forall P l :=
                   match l with
                   | [] => Forall_nil P
                   | x :: r => Forall_cons x (pyval_induction x) (all r)
                   end) l)
  | PyDict d =>
      HDict d ((fix all (d : list (string * pyval))
                  : Forall (fun item => P (snd item)) d :=
                  match d with
                  | [] => Forall_nil _
                  | item :: r =>
                      Forall_cons item (pyval_induction (snd item)) (all r)
                  end) d)
  | PyObj i => HObj i
  end.

End PyvalInduction.

(** ** Files *)

(** What a path holds for [json.load]: a document, or a text that
    [json.load] rejects, such as the unfinished text left behind when the
    encoder raised half-way. *)
Inductive file : Type :=
| FileJson (doc : json)
| FilePartial.

(** The file system as the sources meet it.  [files] gives what
    [open(path)] reads, [None] when it raises (no such file, a directory).
    [writable] tells whether [open(path, 'w')] succeeds: it raises on an
    empty path, in a directory that does not exist, on a directory and on a
    file that may not be written. *)
Record filesystem : Type := mkFilesystem {
  files : string -> option file;
  writable : string -> bool
}.

(** What [open(path, 'w')] and the writes that follow leave behind, on a
    path that can be opened. *)
Definition write_file (fs : filesystem) (path : string) (f : file)
  : filesystem :=
  mkFilesystem
    (fun p => if String.eqb p path then Some f else files fs p)
    (writable fs).

(** [os.makedirs(name, exist_ok=True)], as the operating system performs
    it: it returns once the directory exists, with the file system that
    holds it, and raises when it cannot be created (a file bears the name,
    the parent may not be written). *)
Definition makedirs_call : Type := filesystem -> string -> result filesystem.

(** ** State and exceptions together *)

(** A method of an object with state [S]: it returns or raises, and leaves
    the object in a new state either way. *)
Definition M (S A : Type) : Type := S -> result A * S.

Definition ret {S A} (a : A) : M S A := fun s => (Ok a, s).

Definition raise {S A} (e : string) : M S A := fun s => (Raise e, s).

Definition mbind {S A B} (m : M S A) (k : A -> M S B) : M S B :=
  fun s =>
    match m s with
    | (Ok a, s') => k a s'
    | (Raise e, s') => (Raise e, s')
    end.

Definition try_catch {S A} (body : M S A) (handler : string -> M S A)
  : M S A :=
  fun s =>
    match body s with
    | (Ok a, s') => (Ok a, s')
    | (Raise e, s') => handler e s'
    end.

Definition get {S} : M S S := fun s => (Ok s, s).

Definition modify {S} (f : S -> S) : M S unit := fun s => (Ok tt, f s).

(** A call that may raise and touches no state. *)
Definition lift {S A} (r : result A) : M S A := fun s => (r, s).

End Py.

Declare Scope py_scope.
Delimit Scope py_scope with py.
Notation "x <- m ;; k" := (Py.mbind m (fun x => k))
  (at level 61, m at next level, right associativity) : py_scope.
Notation "m ;;; k" := (Py.mbind m (fun _ => k))
  (at level 61, right associativity) : py_scope.

Import Py.

(** ** The LangChain objects the sources handle *)

Module LangChain.

(** [langchain.schema.Document] *)
Record Document : Type := mkDocument {
  page_content : string;
  metadata : pydict
}.

Inductive BaseMessage : Type :=
| HumanMessage (content : string)
| AIMessage (content : string).

(** [ConversationBufferWindowMemory]: the window size [k] and the messages
    of its [chat_memory]. *)
Record ConversationBufferWindowMemory : Type := mkMemory {
  k : Z;
  messages : list BaseMessage
}.

Definition add_user_message (text : string)
  (m : ConversationBufferWindowMemory) : ConversationBufferWindowMemory :=
  mkMemory (k m) (messages m ++ [HumanMessage text]).

Definition add_ai_message (text : string)
  (m : ConversationBufferWindowMemory) : ConversationBufferWindowMemory :=
  mkMemory (k m) (messages m ++ [AIMessage text]).

Definition clear (m : ConversationBufferWindowMemory)
  : ConversationBufferWindowMemory :=
  mkMemory (k m) [].

(** [load_memory_variables({})["chat_history"]]: the last [k] exchanges. *)
Definition load_memory_variables (m : ConversationBufferWindowMemory)
  : list BaseMessage :=
  if (0 <? k m)%Z then slice_from (- k m * 2) (messages m) else [].

End LangChain.

(** ** [src/utils/document_processor.py] *)

Module DocumentProcessor.

(** The keyword table of [_extract_subject_from_filename], in the order in
    which the dictionary literal lists it. *)
Definition subjects : list (string * list string) :=
  [ ("math", ["math"; "mathematics"; "algebra"; "geometry"; "calculus"]);
    ("science", ["science"; "physics"; "chemistry"; "biology"]);
    ("history", ["history"; "social"; "studies"]);
    ("english", ["english"; "literature"; "language"; "writing"]);
    ("computer", ["computer"; "programming"; "coding"; "cs"]) ].

(** [any(keyword in filename for keyword in keywords)] *)
Definition any_keyword_in (keywords : list string) (filename : string)
  : bool :=
  existsb (fun keyword => str_in keyword filename) keywords.

(** The loop [for subject, keywords in subjects.items(): ... return subject],
    [None] when it runs to its end. *)
Fixpoint first_matching_subject (table : list (string * list string))
  (filename : string) : option string :=
  match table with
  | [] => None
  | (subject, keywords) :: rest =>
      if any_keyword_in keywords filename then Some subject
      else first_matching_subject rest filename
  end.

Definition _extract_subject_from_filename (file_path : string) : string :=
  let filename := lower (basename file_path) in
  match first_matching_subject subjects filename with
  | Some subject => subject
  | None => "general"
  end.

(** The files and the loaders that [load_documents] meets: whether a path
    exists, and what [PyPDFLoader(path).load()] and
    [TextLoader(path, encoding='utf-8').load()] return or raise. *)
Record files : Type := mkFiles {
  path_exists : string -> bool;
  PyPDFLoader_load : string -> result (list LangChain.Document);
  TextLoader_load : string -> result (list LangChain.Document)
}.

(** The metadata that [load_documents] adds to a document. *)
Definition add_metadata (file_path file_extension : string)
  (doc : LangChain.Document) : LangChain.Document :=
  LangChain.mkDocument (LangChain.page_content doc)
    (dict_update (LangChain.metadata doc)
       [ ("source_file", PyStr (basename file_path));
         ("file_type", PyStr file_extension);
         ("subject", PyStr (_extract_subject_from_filename file_path)) ]).

(** The loader that [load_documents] builds for an extension, with what
    its [load()] returns or raises; [None] for an extension that is not
    supported. *)
Definition loader_load (env : files) (file_path file_extension : string)
  : option (result (list LangChain.Document)) :=
  if String.eqb file_extension ".pdf"
  then Some (PyPDFLoader_load env file_path)
  else if String.eqb file_extension ".txt"
  then Some (TextLoader_load env file_path)
  else None.

(** One round of the loop of [load_documents]: the documents that the file
    adds to [documents], none when the file is skipped or when its loader
    raises (the handler logs the error and the loop goes on). *)
Definition load_file (env : files) (file_path : string)
  : list LangChain.Document :=
  if negb (path_exists env file_path) then []
  else
    let file_extension := lower (splitext_extension file_path) in
    match loader_load env file_path file_extension with
    | Some (Ok docs) => map (add_metadata file_path file_extension) docs
    | Some (Raise _) => []
    | None => []
    end.

Definition load_documents (env : files) (file_paths : list string)
  : list LangChain.Document :=
  flat_map (load_file env) file_paths.

(** Where a loaded document comes from: a path that exists, whose
    lowercased extension is [.pdf] or [.txt], and whose loader (the one of
    that extension) has returned a list that holds the document as it was
    before the metadata of [load_documents] were added. *)
Definition loaded_from (env : files) (file_path : string)
  (doc : LangChain.Document)
  : Prop :=
  let file_extension := lower (splitext_extension file_path) in
  path_exists env file_path = true
  /\ exists docs original,
       ((file_extension = ".pdf"
         /\ PyPDFLoader_load env file_path = Ok docs)
        \/ (file_extension = ".txt"
            /\ TextLoader_load env file_path = Ok docs))
       /\ In original docs
       /\ doc = add_metadata file_path file_extension original.

(** The files that add nothing: a path that does not exist, an extension
    that is not supported, a loader that raises. *)
Definition skipped (env : files) (file_path : string) : Prop :=
  let file_extension := lower (splitext_extension file_path) in
  path_exists env file_path = false
  \/ (file_extension <> ".pdf" /\ file_extension <> ".txt")
  \/ (file_extension = ".pdf"
      /\ exists e, PyPDFLoader_load env file_path = Raise e)
  \/ (file_extension = ".txt"
      /\ exists e, TextLoader_load env file_path = Raise e).

(** No keyword of one subject occurs in the file name. *)
Definition no_keyword_in (keywords : list string) (filename : string) : Prop :=
  forall keyword, In keyword keywords -> str_in keyword filename = false.

End DocumentProcessor.

(** ** [src/utils/vector_store.py] *)

Module VectorStoreManager.

Import LangChain.

(** The FAISS index: [similarity_search(query, k=n)] returns the [n] most
    similar documents, most similar first, or raises. *)
Record FAISS : Type := mkFAISS {
  faiss_similarity_search : string -> Z -> result (list Document)
}.

Record t : Type := mk {
  embedding_model : string;
  vector_store : option FAISS
}.

(** [all(doc.metadata.get(key) == value
         for key, value in filter_dict.items())] *)
Definition matches_filter (filter_dict : pydict) (doc : Document) : bool :=
  forallb (fun '(key, value) => py_eq (dict_get (metadata doc) key) value)
          filter_dict.

(** The post-filtering loop: [filtered_results] accumulates the matching
    documents, and the loop is left once it holds [k] of them. *)
Fixpoint filter_loop (k : Z) (filter_dict : pydict)
  (results filtered_results : list Document) : list Document :=
  match results with
  | [] => filtered_results
  | doc :: rest =>
      if matches_filter filter_dict doc then
        let filtered_results := (filtered_results ++ [doc])%list in
        if (k <=? Z.of_nat (List.length filtered_results))%Z
        then filtered_results
        else filter_loop k filter_dict rest filtered_results
      else filter_loop k filter_dict rest filtered_results
  end.

(** The body of the [try] block of [similarity_search]. *)
Definition similarity_search_body (self : t) (query : string) (k : Z)
  (filter_dict : option pydict) : result (list Document) :=
  match vector_store self with
  | None => Raise "Vector store not initialized"
  | Some store =>
      match filter_dict with
      | Some (item :: items) =>
          let filter_dict := item :: items in
          bind (faiss_similarity_search store query (k * 2)) (fun results =>
          Ok (slice_to k (filter_loop k filter_dict results [])))
      | _ => faiss_similarity_search store query k
      end
  end.

Definition similarity_search (self : t) (query : string) (k : Z)
  (filter_dict : option pydict) : list Document :=
  match similarity_search_body self query k filter_dict with
  | Ok docs => docs
  | Raise _ => []
  end.

(** [get_retriever]: the retriever of the index, which stands here for the
    index it searches. *)
Definition get_retriever (self : t) : result FAISS :=
  match vector_store self with
  | None => Raise "Vector store not initialized"
  | Some store => Ok store
  end.

(** The search results that the post-filter of [similarity_search] sees:
    the top [2 * k] of the index, and nothing when there is no index or the
    index raises. *)
Definition unfiltered_results (self : t) (query : string) (k : Z)
  : list Document :=
  match vector_store self with
  | None => []
  | Some store =>
      match faiss_similarity_search store query (k * 2) with
      | Ok results => results
      | Raise _ => []
      end
  end.

End VectorStoreManager.

(** ** [src/ai_tutor/llm_manager.py] *)

Module LLMManager.

(** A language model wrapped by LangChain: called on a prompt, it returns
    the generated text or raises. *)
Definition LLM : Type := string -> result string.

(** The constructors of the third-party model wrappers; each one may raise
    (missing package, bad credentials, no network).  [HuggingFacePipeline]
    stands for the loading of the local model, the [pipeline] built on it and
    its LangChain wrapper; the tokenizer is named by the model it was loaded
    for. *)
Record backends : Type := mkBackends {
  HuggingFaceHub : string -> string -> result LLM;
  AutoTokenizer_from_pretrained : string -> result string;
  HuggingFacePipeline : string -> result LLM;
  ChatGoogleGenerativeAI : string -> string -> result LLM;
  FakeListLLM : list string -> result LLM
}.

Record t : Type := mk {
  model_name : string;
  gemini_api_key : string;
  huggingface_api_token : string;
  use_local : bool;
  llm : option LLM;
  tokenizer : option string;
  provider : string
}.

Definition set_llm (model : LLM) (name : string) (self : t) : t :=
  mk (model_name self) (gemini_api_key self) (huggingface_api_token self)
     (use_local self) (Some model) (tokenizer self) name.

Definition set_tokenizer (tok : string) (self : t) : t :=
  mk (model_name self) (gemini_api_key self) (huggingface_api_token self)
     (use_local self) (llm self) (Some tok) (provider self).

(** The truth value of a string: it is not empty. *)
Definition nonempty (s : string) : bool := negb (String.eqb s "").

Section Initializers.

Variable env : backends.

Open Scope py_scope.

Definition _initialize_huggingface_hub_model : M t unit :=
  try_catch
    (self <- get ;;
     model <- lift (HuggingFaceHub env (model_name self)
                                   (huggingface_api_token self)) ;;
     modify (set_llm model "huggingface_hub"))
    (fun e => raise e).

Definition _initialize_local_model : M t unit :=
  try_catch
    (self <- get ;;
     tok <- lift (AutoTokenizer_from_pretrained env (model_name self)) ;;
     modify (set_tokenizer tok) ;;;
     model <- lift (HuggingFacePipeline env (model_name self)) ;;
     modify (set_llm model "local_hf_pipeline"))
    (fun e => raise e).

Definition _initialize_gemini_model : M t unit :=
  try_catch
    (self <- get ;;
     model <- lift (ChatGoogleGenerativeAI env (model_name self)
                                           (gemini_api_key self)) ;;
     modify (set_llm model "gemini"))
    (fun e => raise e).

Definition fallback_responses : list string :=
  [ "I understand you're asking about that topic. Let me help you learn step by step.";
    "That's a great question! Let me break it down for you.";
    "I can see you're working on this concept. Here's how I'd explain it:";
    "Let's explore this together. What specific part would you like to focus on?";
    "That's an interesting point. Let me provide some guidance on this." ].

Definition _initialize_fallback_model : M t unit :=
  try_catch
    (model <- lift (FakeListLLM env fallback_responses) ;;
     modify (set_llm model "fallback_fake_llm"))
    (fun e => raise e).

Definition _initialize_model : M t unit :=
  try_catch
    (self <- get ;;
     if nonempty (huggingface_api_token self)
        && (str_in "/" (model_name self)
            || str_in "mistral" (lower (model_name self)))
     then _initialize_huggingface_hub_model
     else if use_local self
     then _initialize_local_model
     else if nonempty (gemini_api_key self)
             && str_in "gemini" (lower (model_name self))
     then _initialize_gemini_model
     else _initialize_fallback_model)
    (fun e => _initialize_fallback_model).

(** [LLMManager(model_name, gemini_api_key, huggingface_api_token,
    use_local)] *)
Definition __init__ (model_name gemini_api_key huggingface_api_token : string)
  (use_local : bool) : result unit * t :=
  _initialize_model
    (mk model_name gemini_api_key huggingface_api_token use_local
        None None "unknown").

End Initializers.

Definition _format_educational_prompt (user_input : string) : string :=
  "You are Riya Malhotra, a warm and empathetic AI tutor at EduSmart AI. You help students learn in an interactive, personalized way.

Your personality:
- Warm, empathetic, and student-centered
- Focused on long-term learning impact
- Encouraging and supportive
- Breaks down complex topics into manageable parts
- Adapts explanations to student's learning style

Guidelines:
- Always be encouraging and positive
- Use simple, clear language
- Provide examples when explaining concepts
- Ask follow-up questions to check understanding
- Relate learning to real-world applications
- Remember that you're talking to a student who wants to learn

Student question: " ++ user_input ++ "

Respond as Riya would, being helpful, encouraging, and educational:".

Definition clarification_message : string :=
  "I'd be happy to help you with that! Could you provide a bit more detail about what you'd like to learn?".

(** No statement of the [try] block raises on strings, so that the handler
    of [_clean_response] is left out. *)
Definition _clean_response (response original_prompt : string) : string :=
  let response :=
    if str_in original_prompt response
    then strip (replace original_prompt "" response)
    else response in
  let response := replace "<|endoftext|>" "" response in
  let response := replace "</s>" "" response in
  let response := replace "<s>" "" response in
  let response :=
    if String.eqb response "" then clarification_message else response in
  let sentences := split ". " response in
  let response :=
    if (4 <? List.length sentences)%nat
    then join ". " (take 4 sentences) ++ "."
    else response in
  strip response.

(** The separator of the sentences in [_clean_response]. *)
Definition sentence_end : string := ". ".

(** No occurrence of the separator starts within [cur] in [cur ++ s]. *)
Definition starts_clean (cur s : string) : Prop :=
  occurrences sentence_end (cur ++ s) = occurrences sentence_end s.

(** The response once the prompt and the artifacts are removed, before the
    test [if not response]. *)
Definition without_artifacts (response original_prompt : string) : string :=
  let response :=
    if str_in original_prompt response
    then strip (replace original_prompt "" response)
    else response in
  replace "<s>" "" (replace "</s>" "" (replace "<|endoftext|>" "" response)).

Definition generation_apology : string :=
  "I apologize, but I'm having trouble generating a response right now. Could you please rephrase your question?".

Definition generate_response (self : t) (prompt : string) : result string :=
  try_except
    (match llm self with
     | None => Raise "LLM not initialized"
     | Some model =>
         let formatted_prompt := _format_educational_prompt prompt in
         bind (model formatted_prompt) (fun response =>
         let cleaned_response := _clean_response response prompt in
         Ok cleaned_response)
     end)
    (fun e => Ok generation_apology).

(** *** The selection of the backend, as the specification words it *)

Inductive backend : Type :=
| HuggingFaceHubBackend
| LocalPipelineBackend
| GeminiBackend
| FallbackListBackend.

Definition selected_backend (self : t) : backend :=
  let name := model_name self in
  if nonempty (huggingface_api_token self)
     && (str_in "/" name || str_in "mistral" (lower name))
  then HuggingFaceHubBackend
  else if use_local self then LocalPipelineBackend
  else if nonempty (gemini_api_key self) && str_in "gemini" (lower name)
  then GeminiBackend
  else FallbackListBackend.

Definition provider_name (b : backend) : string :=
  match b with
  | HuggingFaceHubBackend => "huggingface_hub"
  | LocalPipelineBackend => "local_hf_pipeline"
  | GeminiBackend => "gemini"
  | FallbackListBackend => "fallback_fake_llm"
  end.

(** What the third-party constructors of a backend answer for a manager. *)
Definition construct (env : backends) (self : t) (b : backend) : result LLM :=
  match b with
  | HuggingFaceHubBackend =>
      HuggingFaceHub env (model_name self) (huggingface_api_token self)
  | LocalPipelineBackend =>
      bind (AutoTokenizer_from_pretrained env (model_name self))
           (fun _ => HuggingFacePipeline env (model_name self))
  | GeminiBackend =>
      ChatGoogleGenerativeAI env (model_name self) (gemini_api_key self)
  | FallbackListBackend => FakeListLLM env fallback_responses
  end.

End LLMManager.

(** ** [src/utils/conversation_memory.py] *)

Module ConversationMemoryManager.

Import LangChain.

(** The dictionary [student_profile]: its keys are fixed by [__init__]. *)
Record profile : Type := mkProfile {
  learning_style : string;
  difficulty_preference : string;
  subjects_of_interest : list string;
  common_mistakes : list string;
  strengths : list string;
  session_count : Z;
  last_session : option string
}.

(** One entry of [conversation_history]. *)
Record interaction : Type := mkInteraction {
  timestamp : string;
  human_input : string;
  ai_response : string;
  metadata : pydict
}.

Record t : Type := mk {
  max_history : Z;
  memory : ConversationBufferWindowMemory;
  student_profile : profile;
  conversation_history : list interaction
}.

(** The two values that [datetime.now().isoformat()] returns during one
    call of [add_interaction]: the timestamp of the interaction, and the one
    stored as [last_session]. *)
Record instants : Type := mkInstants {
  at_interaction : string;
  at_profile_update : string
}.

Definition __init__ (max_history : Z) : t :=
  mk max_history
     (mkMemory max_history [])
     (mkProfile "adaptive" "medium" [] [] [] 0 None)
     [].

(** [any(word in input_lower for word in words)] *)
Definition any_word_in (words : list string) (input_lower : string) : bool :=
  existsb (fun word => str_in word input_lower) words.

(** On the profile that [__init__] builds and on a string input, no
    statement of the [try] block raises: the handler is left out. *)
Definition _update_student_profile (now : string)
  (human_input ai_response : string) (metadata : option pydict)
  (p : profile) : profile :=
  (* if metadata and 'subject' in metadata: *)
  let subjects :=
    match metadata with
    | Some (item :: items) =>
        let metadata := item :: items in
        match dict_lookup metadata "subject" with
        | Some (PyStr subject) =>
            (* if subject and isinstance(subject, str): *)
            if negb (String.eqb subject "") then
              if negb (existsb (String.eqb subject) (subjects_of_interest p))
              then (subjects_of_interest p ++ [subject])%list
              else subjects_of_interest p
            else subjects_of_interest p
        | _ => subjects_of_interest p
        end
    | _ => subjects_of_interest p
    end in
  let input_lower := lower human_input in
  let difficulty :=
    if any_word_in ["easy"; "simple"; "basic"] input_lower then "easy"
    else if any_word_in ["hard"; "difficult"; "challenging"; "advanced"]
                        input_lower then "hard"
    else difficulty_preference p in
  let style :=
    if any_word_in ["example"; "show me"; "demonstrate"] input_lower
    then "visual"
    else if any_word_in ["explain"; "why"; "how"] input_lower
    then "analytical"
    else if any_word_in ["practice"; "try"; "do"] input_lower
    then "hands-on"
    else learning_style p in
  mkProfile style difficulty subjects (common_mistakes p) (strengths p)
            (session_count p + 1) (Some now).

(** [metadata or {}] *)
Definition or_empty (metadata : option pydict) : pydict :=
  match metadata with
  | Some d => d
  | None => []
  end.

Definition add_interaction (now : instants)
  (human_input ai_response : string) (metadata : option pydict)
  (self : t) : t :=
  let memory :=
    add_ai_message ai_response (add_user_message human_input (memory self)) in
  let interaction :=
    mkInteraction (at_interaction now) human_input ai_response
                  (or_empty metadata) in
  let history := (conversation_history self ++ [interaction])%list in
  let history :=
    if (max_history self * 2 <? Z.of_nat (List.length history))%Z
    then slice_from (- max_history self * 2) history
    else history in
  mk (max_history self) memory
     (_update_student_profile (at_profile_update now) human_input ai_response
                              metadata (student_profile self))
     history.

Definition newline : string := String (ascii_of_nat 10) EmptyString.

Definition get_conversation_context (self : t) : string :=
  match conversation_history self with
  | [] => "This is the beginning of our conversation."
  | _ =>
      let recent_interactions := slice_from (-3) (conversation_history self) in
      join newline
        (flat_map
           (fun i =>
              [ "Student: " ++ human_input i;
                "Tutor: " ++ str_take 200 (ai_response i) ++ "..." ])
           recent_interactions)
  end.

(** [_clean]: the items that are not empty. *)
Definition _clean (items : list string) : list string :=
  filter (fun x => negb (String.eqb x "")) items.

Definition labelled (label : string) (items : list string) : list string :=
  match items with
  | [] => []
  | _ => [label ++ join ", " items]
  end.

Definition get_student_profile_summary (self : t) : string :=
  let p := student_profile self in
  let summary_parts :=
    (labelled "Interested in: " (_clean (subjects_of_interest p))
     ++ labelled "Strengths: " (_clean (strengths p))
     ++ labelled "Areas for improvement: " (_clean (common_mistakes p))
     ++ [ ("Learning style: " ++ learning_style p)%string;
          ("Preferred difficulty: " ++ difficulty_preference p)%string;
          ("Sessions completed: " ++ str_of_Z (session_count p))%string ])%list in
  match summary_parts with
  | [] => "New student profile"
  | _ => join " | " summary_parts
  end.

Definition get_personalized_context (self : t) : string :=
  let p := student_profile self in
  let context_parts :=
    ([ "STUDENT CONTEXT:";
       ("Learning Style: " ++ learning_style p)%string;
       ("Difficulty Preference: " ++ difficulty_preference p)%string;
       ("Session Count: " ++ str_of_Z (session_count p))%string ]
     ++ labelled "Interested Subjects: " (subjects_of_interest p)
     ++ labelled "Strengths: " (strengths p)
     ++ labelled "Areas to Focus: " (common_mistakes p))%list in
  join newline context_parts.

Definition get_memory_variables (self : t) : list BaseMessage :=
  load_memory_variables (memory self).

Definition clear_memory (self : t) : t :=
  mk (max_history self) (clear (memory self)) (student_profile self) [].

(** *** Sessions *)

(** The Python dictionaries that the two records stand for. *)
Definition py_of_strings (l : list string) : pyval := PyList (map PyStr l).

Definition py_of_profile (p : profile) : pyval :=
  PyDict
    [ ("learning_style", PyStr (learning_style p));
      ("difficulty_preference", PyStr (difficulty_preference p));
      ("subjects_of_interest", py_of_strings (subjects_of_interest p));
      ("common_mistakes", py_of_strings (common_mistakes p));
      ("strengths", py_of_strings (strengths p));
      ("session_count", PyInt (session_count p));
      ("last_session",
        match last_session p with
        | Some s => PyStr s
        | None => PyNone
        end) ].

Definition py_of_interaction (i : interaction) : pyval :=
  PyDict
    [ ("timestamp", PyStr (timestamp i));
      ("human_input", PyStr (human_input i));
      ("ai_response", PyStr (ai_response i));
      ("metadata", PyDict (metadata i)) ].

(** Reading a loaded value back as one of the two records; [None] for a
    value of another shape. *)
Definition string_of_py (v : pyval) : option string :=
  match v with
  | PyStr s => Some s
  | _ => None
  end.

Fixpoint all_some {A} (l : list (option A)) : option (list A) :=
  match l with
  | [] => Some []
  | Some a :: r =>
      match all_some r with
      | Some r' => Some (a :: r')
      | None => None
      end
  | None :: _ => None
  end.

Definition strings_of_py (v : pyval) : option (list string) :=
  match v with
  | PyList l => all_some (map string_of_py l)
  | _ => None
  end.

Definition profile_of_py (v : pyval) : option profile :=
  match v with
  | PyDict d =>
      match dict_lookup d "learning_style",
            dict_lookup d "difficulty_preference",
            dict_lookup d "subjects_of_interest",
            dict_lookup d "common_mistakes",
            dict_lookup d "strengths",
            dict_lookup d "session_count",
            dict_lookup d "last_session" with
      | Some (PyStr style), Some (PyStr difficulty), Some subjects,
        Some mistakes, Some strong, Some (PyInt count), Some last =>
          match strings_of_py subjects, strings_of_py mistakes,
                strings_of_py strong,
                match last with
                | PyNone => Some None
                | PyStr s => Some (Some s)
                | _ => None
                end with
          | Some subjects, Some mistakes, Some strong, Some last =>
              Some (mkProfile style difficulty subjects mistakes strong
                              count last)
          | _, _, _, _ => None
          end
      | _, _, _, _, _, _, _ => None
      end
  | _ => None
  end.

Definition interaction_of_py (v : pyval) : option interaction :=
  match v with
  | PyDict d =>
      match dict_lookup d "timestamp", dict_lookup d "human_input",
            dict_lookup d "ai_response", dict_lookup d "metadata" with
      | Some (PyStr ts), Some (PyStr h), Some (PyStr a), Some (PyDict md) =>
          Some (mkInteraction ts h a md)
      | _, _, _, _ => None
      end
  | _ => None
  end.

Definition history_of_py (v : pyval) : option (list interaction) :=
  match v with
  | PyList l => all_some (map interaction_of_py l)
  | _ => None
  end.

(** The dictionary [session_data] that [save_session] builds; [now] is the
    value of [datetime.now().isoformat()]. *)
Definition session_data (now : string) (self : t) : pyval :=
  PyDict
    [ ("student_profile", py_of_profile (student_profile self));
      ("conversation_history",
        PyList (map py_of_interaction (conversation_history self)));
      ("timestamp", PyStr now) ].

(** [save_session].  When [open] raises, nothing is written; when
    [json.dump] raises, the file keeps the text written so far.  The handler
    logs the error in either case. *)
Definition save_session (fs : filesystem) (now : string) (filepath : string)
  (self : t) : filesystem :=
  let session_data := session_data now self in
  if writable fs filepath then
    match to_json session_data with
    | Ok doc => write_file fs filepath (FileJson doc)
    | Raise _ => write_file fs filepath FilePartial
    end
  else fs.

(** The loop that restores the LangChain memory. *)
Definition restore_memory (history : list interaction)
  (m : ConversationBufferWindowMemory) : ConversationBufferWindowMemory :=
  fold_left
    (fun m i => add_ai_message (ai_response i)
                  (add_user_message (human_input i) m))
    history m.

(** [load_session].  A missing file, a file that is not a JSON document and
    a document that is not an object raise inside the [try] block, and the
    handler leaves the manager as it was.  The result is [None] when the
    document holds a profile or a history that no [profile] or [interaction]
    record stands for: the manager is then outside this model. *)
Definition load_session (fs : filesystem) (filepath : string) (self : t)
  : option t :=
  match files fs filepath with
  | None => Some self
  | Some FilePartial => Some self
  | Some (FileJson doc) =>
      match of_json doc with
      | PyDict session_data =>
          let loaded_profile :=
            match dict_lookup session_data "student_profile" with
            | Some v => profile_of_py v
            | None => Some (student_profile self)
            end in
          let loaded_history :=
            match dict_lookup session_data "conversation_history" with
            | Some v => history_of_py v
            | None => Some []
            end in
          match loaded_profile, loaded_history with
          | Some p, Some history =>
              Some (mk (max_history self)
                       (restore_memory
                          (slice_from (- max_history self) history)
                          (clear (memory self)))
                       p history)
          | _, _ => None
          end
      | _ => Some self
      end
  end.

(** *** Vocabulary of the properties *)

(** The [n] most recent entries of a list, in their order. *)
Definition last_n {A} (n : nat) (l : list A) : list A :=
  skipn (List.length l - n) l.

(** The messages that a list of interactions stands for. *)
Definition messages_of (history : list interaction) : list BaseMessage :=
  flat_map (fun i => [HumanMessage (human_input i); AIMessage (ai_response i)])
           history.

(** The arguments of one call of [add_interaction], with the instants of
    its two clock readings. *)
Record call : Type := mkCall {
  call_now : instants;
  call_human_input : string;
  call_ai_response : string;
  call_metadata : option pydict
}.

Definition add_call (self : t) (c : call) : t :=
  add_interaction (call_now c) (call_human_input c) (call_ai_response c)
                  (call_metadata c) self.

(** A sequence of calls of [add_interaction]. *)
Definition add_all (calls : list call) (self : t) : t :=
  fold_left add_call calls self.

(** The record that a call appends to the history. *)
Definition record_of (c : call) : interaction :=
  mkInteraction (at_interaction (call_now c)) (call_human_input c)
                (call_ai_response c) (or_empty (call_metadata c)).

(** The subject that a call names in its metadata. *)
Definition names_subject (c : call) (subject : string) : Prop :=
  exists items,
    call_metadata c = Some items
    /\ dict_lookup items "subject" = Some (PyStr subject).


End ConversationMemoryManager.

(** ** [src/ai_tutor/rag_pipeline.py] *)

Module RAGPipeline.

Import LangChain.
Module CMM := ConversationMemoryManager.

(** The dictionary that the chain returns; either key may be absent. *)
Record chain_result : Type := mkChainResult {
  answer_key : option string;
  source_documents_key : option (list Document)
}.

(** The object held in [self.chain], told apart by
    [hasattr(self.chain, "invoke")].  A chain with [invoke] is called on the
    composed question and the chat history; it shares the LangChain memory of
    the memory manager, which it reads and may extend, also when it raises.
    A chain without it is called through [run(question, chat_history)]. *)
Inductive chain : Type :=
| ChainWithInvoke
    (invoke : string -> list BaseMessage -> list BaseMessage ->
              result chain_result * list BaseMessage)
| ChainWithRun (run : string -> string -> result string).

(** What [query] asks of [self.llm_manager]. *)
Record llm_manager_object : Type := mkLLMManagerObject {
  generate_response : string -> result string
}.

Definition of_LLMManager (m : LLMManager.t) : llm_manager_object :=
  mkLLMManagerObject (LLMManager.generate_response m).

Record t : Type := mk {
  vector_store_manager : VectorStoreManager.t;
  llm_manager : llm_manager_object;
  memory_manager : CMM.t;
  chain_object : chain
}.

Definition set_memory_manager (mm : CMM.t) (self : t) : t :=
  mk (vector_store_manager self) (llm_manager self) mm (chain_object self).

Record formatted_source : Type := mkSource {
  id : Z;
  content : string;
  source_metadata : pydict
}.

(** The dictionary that [query] returns. *)
Record response : Type := mkResponse {
  answer : string;
  sources : list formatted_source;
  student_profile : string;
  confidence : Q
}.

(** The loop of [_format_sources]; [i] is the index that [enumerate]
    gives to the first document of [source_docs]. *)
Fixpoint format_sources_from (i : Z) (source_docs : list Document)
  : list formatted_source :=
  match source_docs with
  | [] => []
  | doc :: rest =>
      let content := page_content doc in
      let preview :=
        if (200 <? len content)%nat
        then str_take 200 content ++ "..."
        else content in
      mkSource (i + 1) preview
        [ ("source_file",
            dict_get_default (metadata doc) "source_file" (PyStr "Unknown"));
          ("subject",
            dict_get_default (metadata doc) "subject" (PyStr "General"));
          ("topic", dict_get_default (metadata doc) "topic" (PyStr "N/A")) ]
      :: format_sources_from (i + 1) rest
  end.

Definition _format_sources (source_docs : list Document)
  : list formatted_source :=
  format_sources_from 0 source_docs.

(** The two tests of the loop of [_calculate_confidence]. *)
Definition is_pdf (doc : Document) : bool :=
  py_eq (dict_get (metadata doc) "file_type") (PyStr "pdf").

Definition has_specific_subject (doc : Document) : bool :=
  negb (py_eq (dict_get (metadata doc) "subject") (PyStr "general")).

(** One round of that loop. *)
Definition bonus_step (quality_bonus : Q) (doc : Document) : Q :=
  let quality_bonus :=
    if is_pdf doc then fadd quality_bonus (f64 (5 # 100))
    else quality_bonus in
  if has_specific_subject doc then fadd quality_bonus (f64 (5 # 100))
  else quality_bonus.

(** The loop of [_calculate_confidence] that accumulates the bonus, from
    [quality_bonus = 0.0]. *)
Definition quality_bonus (source_docs : list Document) : Q :=
  fold_left bonus_step source_docs (f64 0).

Definition _calculate_confidence (source_docs : list Document) : Q :=
  match source_docs with
  | [] => f64 (3 # 10)
  | _ =>
      let base_confidence :=
        fmin (f64 (9 # 10))
             (fadd (f64 (5 # 10))
                   (fmul (float_of_int (Z.of_nat (List.length source_docs)))
                         (f64 (1 # 10)))) in
      fmin (f64 1) (fadd base_confidence (quality_bonus source_docs))
  end.

(** The number of documents of a list that pass a test. *)
Definition count (test : Document -> bool) (docs : list Document) : nat :=
  List.length (filter test docs).

(** The float [0.05] added [times] times to [0.0], each sum rounded. *)
Definition repeated_bonus (times : nat) : Q :=
  Nat.iter times (fun bonus => fadd bonus (f64 (5 # 100))) (f64 0).

Definition apology : string :=
  "I apologize, but I'm having trouble processing your question right now. Could you please try rephrasing it?".

Definition no_answer : string :=
  "I'm sorry, I couldn't generate a response.".

Open Scope py_scope.

(** [self.chain.invoke(inputs)] on the shared memory. *)
Definition call_invoke
  (invoke : string -> list BaseMessage -> list BaseMessage ->
            result chain_result * list BaseMessage)
  (question : string) (chat_history : list BaseMessage) : M t chain_result :=
  fun self =>
    let mm := memory_manager self in
    let '(outcome, messages) :=
      invoke question chat_history (messages (CMM.memory mm)) in
    (outcome,
     set_memory_manager
       (CMM.mk (CMM.max_history mm) (mkMemory (k (CMM.memory mm)) messages)
               (CMM.student_profile mm) (CMM.conversation_history mm))
       self).

(** The call of the chain: the two branches of
    [if hasattr(self.chain, "invoke")]. *)
Definition call_chain (student_context question : string)
  : M t chain_result :=
  self <- get ;;
  match chain_object self with
  | ChainWithInvoke invoke =>
      let chat_history := CMM.get_memory_variables (memory_manager self) in
      let composed_question :=
        ("STUDENT CONTEXT: " ++ student_context ++ CMM.newline
         ++ CMM.newline ++ "QUESTION: " ++ question)%string in
      call_invoke invoke composed_question chat_history
  | ChainWithRun run =>
      let chat_history :=
        CMM.get_conversation_context (memory_manager self) in
      result_text <- lift (run question chat_history) ;;
      ret (mkChainResult (Some result_text) (Some []))
  end.

(** The [try] block of [query]. *)
Definition query_body (now : CMM.instants) (question : string)
  (subject_filter : option string) : M t response :=
  self <- get ;;
  let student_context := CMM.get_personalized_context (memory_manager self) in
  result <- call_chain student_context question ;;
  let answer :=
    match answer_key result with
    | Some a => a
    | None => no_answer
    end in
  let source_docs :=
    match source_documents_key result with
    | Some docs => docs
    | None => []
    end in
  let metadata : pydict :=
    [ ("subject",
        match subject_filter with
        | Some subject => PyStr subject
        | None => PyNone
        end);
      ("num_sources", PyInt (Z.of_nat (List.length source_docs)));
      ("sources",
        PyList
          (map (fun doc => dict_get_default (LangChain.metadata doc)
                             "source_file" (PyStr "unknown"))
               source_docs)) ] in
  modify (fun self =>
            set_memory_manager
              (CMM.add_interaction now question answer (Some metadata)
                                   (memory_manager self))
              self) ;;;
  self <- get ;;
  ret (mkResponse answer
         (_format_sources source_docs)
         (CMM.get_student_profile_summary (memory_manager self))
         (_calculate_confidence source_docs)).

Definition query (now : CMM.instants) (question : string)
  (subject_filter : option string) : M t response :=
  try_catch
    (query_body now question subject_filter)
    (fun e =>
       try_catch
         (self <- get ;;
          fallback_answer <-
            lift (generate_response (llm_manager self) question) ;;
          ret (mkResponse fallback_answer []
                 (CMM.get_student_profile_summary (memory_manager self))
                 (f64 (3 # 10))))
         (fun inner_e =>
            self <- get ;;
            ret (mkResponse apology []
                   (CMM.get_student_profile_summary (memory_manager self))
                   (f64 0)))).

(** The keyword table of [get_subject_suggestions], in the order of its
    dictionary literal. *)
Definition subject_keywords : list (string * list string) :=
  [ ("mathematics",
      ["math"; "algebra"; "geometry"; "calculus"; "equation"; "solve";
       "calculate"]);
    ("science",
      ["science"; "physics"; "chemistry"; "biology"; "experiment"; "theory"]);
    ("english",
      ["english"; "literature"; "writing"; "grammar"; "essay"; "reading"]);
    ("history",
      ["history"; "historical"; "past"; "ancient"; "war"; "civilization"]);
    ("computer",
      ["computer"; "programming"; "code"; "algorithm"; "software"]) ].

(** [any(keyword in query_lower for keyword in keywords)] *)
Definition any_keyword_in (keywords : list string) (query_lower : string)
  : bool :=
  existsb (fun keyword => str_in keyword query_lower) keywords.

(** The loop of [get_subject_suggestions]: the subjects appended to
    [subjects], in the order of the table. *)
Fixpoint matching_subjects (table : list (string * list string))
  (query_lower : string) : list string :=
  match table with
  | [] => []
  | (subject, keywords) :: rest =>
      if any_keyword_in keywords query_lower
      then subject :: matching_subjects rest query_lower
      else matching_subjects rest query_lower
  end.

(** No statement of the [try] block raises on a string. *)
Definition get_subject_suggestions (query : string) : list string :=
  let query_lower := lower query in
  match matching_subjects subject_keywords query_lower with
  | [] => ["general"]
  | subjects => subjects
  end.

(** The metadata that [query] hands to [add_interaction]. *)
Definition query_metadata (subject_filter : option string)
  (source_docs : list Document) : pydict :=
  [ ("subject",
      match subject_filter with
      | Some subject => PyStr subject
      | None => PyNone
      end);
    ("num_sources", PyInt (Z.of_nat (List.length source_docs)));
    ("sources",
      PyList
        (map (fun doc => dict_get_default (LangChain.metadata doc)
                           "source_file" (PyStr "unknown"))
             source_docs)) ].

(** The answer and the documents that [query] reads off the dictionary of
    the chain. *)
Definition answer_of (result : chain_result) : string :=
  match answer_key result with
  | Some a => a
  | None => no_answer
  end.

Definition documents_of (result : chain_result) : list Document :=
  match source_documents_key result with
  | Some docs => docs
  | None => []
  end.

(** What [_format_sources] makes of one document. *)
Definition preview_of (doc : Document) (source : formatted_source) : Prop :=
  (len (page_content doc) <= 200 ->
   content source = page_content doc)
  /\ (200 < len (page_content doc) ->
      content source = str_take 200 (page_content doc) ++ "..."
      /\ len (content source) = 203)
  /\ dict_lookup (source_metadata source) "source_file"
     = Some (dict_get_default (metadata doc) "source_file" (PyStr "Unknown"))
  /\ dict_lookup (source_metadata source) "subject"
     = Some (dict_get_default (metadata doc) "subject" (PyStr "General"))
  /\ dict_lookup (source_metadata source) "topic"
     = Some (dict_get_default (metadata doc) "topic" (PyStr "N/A")).

(** *** Construction of the pipeline *)

(** The two LangChain constructors of [_initialize_chain] and
    [_initialize_fallback_chain]: [ConversationalRetrievalChain.from_llm] on
    the retriever of an index, and [LLMChain]; each returns a chain or
    raises. *)
Record chain_constructors : Type := mkChainConstructors {
  from_llm : VectorStoreManager.FAISS -> result chain;
  LLMChain : result chain
}.

Definition _initialize_fallback_chain (env : chain_constructors)
  : result chain :=
  try_except (LLMChain env) (fun e => Raise e).

Definition _initialize_chain (env : chain_constructors)
  (vector_store_manager : VectorStoreManager.t) : result chain :=
  try_except
    (bind (VectorStoreManager.get_retriever vector_store_manager)
          (fun retriever => from_llm env retriever))
    (fun e => _initialize_fallback_chain env).

(** [RAGPipeline(vector_store_manager, llm_manager, memory_manager)] *)
Definition __init__ (env : chain_constructors)
  (vector_store_manager : VectorStoreManager.t)
  (llm_manager : llm_manager_object) (memory_manager : CMM.t) : result t :=
  bind (_initialize_chain env vector_store_manager)
       (fun chain =>
          Ok (mk vector_store_manager llm_manager memory_manager chain)).

(** What the chain answers when [query] calls it on a pipeline. *)
Definition chain_outcome (question : string) (self : t)
  : result chain_result :=
  fst (call_chain (CMM.get_personalized_context (memory_manager self))
                  question self).

End RAGPipeline.

(** ** [src/ai_tutor/tutor_system.py] *)

Module EduSmartAITutor.

Module CMM := ConversationMemoryManager.

Record stats : Type := mkStats {
  total_queries : Z;
  successful_responses : Z;
  failed_responses : Z;
  documents_loaded : Z
}.

(** The attributes of the tutor that [chat] reads and writes.  The
    pipeline holds the memory manager it was built with, which is the object
    that [self.memory_manager] names; [memory_manager] is the latter while no
    pipeline exists yet. *)
Record t : Type := mk {
  is_initialized : bool;
  memory_manager : option CMM.t;
  rag_pipeline : option RAGPipeline.t;
  current_session_id : option string;
  system_stats : stats
}.

Definition __init__ : t :=
  mk false None None None (mkStats 0 0 0 0).

Definition the_memory_manager (self : t) : option CMM.t :=
  match rag_pipeline self with
  | Some pipeline => Some (RAGPipeline.memory_manager pipeline)
  | None => memory_manager self
  end.

Definition set_stats (f : stats -> stats) (self : t) : t :=
  mk (is_initialized self) (memory_manager self) (rag_pipeline self)
     (current_session_id self) (f (system_stats self)).

Definition count_query (s : stats) : stats :=
  mkStats (total_queries s + 1) (successful_responses s)
          (failed_responses s) (documents_loaded s).

Definition count_success (s : stats) : stats :=
  mkStats (total_queries s) (successful_responses s + 1)
          (failed_responses s) (documents_loaded s).

Definition count_failure (s : stats) : stats :=
  mkStats (total_queries s) (successful_responses s)
          (failed_responses s + 1) (documents_loaded s).

(** The dictionary that [chat] returns; [error] is set on the two error
    paths, [session_id] and [query_count] on the regular one. *)
Record chat_response : Type := mkChatResponse {
  answer : string;
  sources : list RAGPipeline.formatted_source;
  student_profile : string;
  confidence : Q;
  error : option string;
  session_id : option (option string);
  query_count : option Z
}.

Definition not_initialized_message : string :=
  "I'm sorry, but the AI tutor system is not properly initialized. Please try again later.".

Definition error_message : string :=
  "I apologize, but I encountered an error while processing your question. Please try rephrasing it or ask something else.".

Open Scope py_scope.

(** [self.rag_pipeline.query(message, subject_filter)] *)
Definition call_query (now : CMM.instants) (message : string)
  (subject_filter : option string) : M t RAGPipeline.response :=
  fun self =>
    match rag_pipeline self with
    | None => (Raise "'NoneType' object has no attribute 'query'", self)
    | Some pipeline =>
        let '(outcome, pipeline) :=
          RAGPipeline.query now message subject_filter pipeline in
        (outcome,
         mk (is_initialized self) (memory_manager self) (Some pipeline)
            (current_session_id self) (system_stats self))
    end.

Definition chat (now : CMM.instants) (message : string)
  (subject_filter : option string) : M t chat_response :=
  try_catch
    (self <- get ;;
     if negb (is_initialized self) then
       ret (mkChatResponse not_initialized_message [] "" (f64 0)
              (Some "System not initialized") None None)
     else
       modify (set_stats count_query) ;;;
       response <- call_query now message subject_filter ;;
       (if negb (String.eqb (RAGPipeline.answer response) "")
        then modify (set_stats count_success)
        else modify (set_stats count_failure)) ;;;
       self <- get ;;
       ret (mkChatResponse
              (RAGPipeline.answer response)
              (RAGPipeline.sources response)
              (RAGPipeline.student_profile response)
              (RAGPipeline.confidence response)
              None
              (Some (current_session_id self))
              (Some (total_queries (system_stats self)))))
    (fun e =>
       modify (set_stats count_failure) ;;;
       self <- get ;;
       ret (mkChatResponse error_message []
              (match the_memory_manager self with
               | Some mm => CMM.get_student_profile_summary mm
               | None => ""
               end)
              (f64 0) (Some e) None None)).

(** The suggestions that the loop of [get_learning_suggestions] adds for
    one subject. *)
Definition suggestions_for (subject : string) : list string :=
  if String.eqb subject "mathematics" then
    [ "Would you like to practice solving equations?";
      "Let's explore some real-world math applications!";
      "How about we work through some step-by-step examples?" ]
  else if String.eqb subject "science" then
    [ "Want to learn about scientific experiments?";
      "Let's explore how science applies to everyday life!";
      "Would you like to understand the theory behind this concept?" ]
  else if String.eqb subject "english" then
    [ "Let's practice reading comprehension together!";
      "Would you like help with writing techniques?";
      "How about we analyze some interesting texts?" ]
  else
    [ "Let's break this topic down into smaller parts!";
      "Would you like to see some examples?";
      "How about we explore this concept step by step?" ].

(** No statement of the [try] block raises. *)
Definition get_learning_suggestions (self : t) (student_query : string)
  : list string :=
  match rag_pipeline self with
  | None => ["Let's start with the basics of your topic of interest!"]
  | Some _ =>
      let subjects := RAGPipeline.get_subject_suggestions student_query in
      let suggestions := flat_map suggestions_for subjects in
      take 3 suggestions
  end.

(** The memory manager is reached through the pipeline once there is one:
    an update of it goes where [the_memory_manager] reads it. *)
Definition update_memory_manager (f : CMM.t -> CMM.t) (self : t) : t :=
  match rag_pipeline self with
  | Some pipeline =>
      mk (is_initialized self) (memory_manager self)
         (Some (RAGPipeline.set_memory_manager
                  (f (RAGPipeline.memory_manager pipeline)) pipeline))
         (current_session_id self) (system_stats self)
  | None =>
      mk (is_initialized self) (option_map f (memory_manager self))
         (rag_pipeline self) (current_session_id self) (system_stats self)
  end.

Definition set_current_session_id (id : option string) (self : t) : t :=
  mk (is_initialized self) (memory_manager self) (rag_pipeline self)
     id (system_stats self).

(** [start_new_session]: [stamp] is the value of
    [datetime.now().strftime('%Y%m%d_%H%M%S')].  No statement of the [try]
    block raises; [clear_memory] on a missing manager is skipped by the test
    [if self.memory_manager]. *)
Definition start_new_session (stamp : string) (session_id : option string)
  (self : t) : string * t :=
  let session_id :=
    match session_id with
    | Some (String c r) => String c r
    | _ => "session_" ++ stamp
    end in
  (session_id,
   update_memory_manager CMM.clear_memory
     (set_current_session_id (Some session_id) self)).

(** The file that [end_session] writes for a session. *)
Definition session_file (session_id : string) : string :=
  "sessions/" ++ session_id ++ ".json".

(** [end_session]: [makedirs] is [os.makedirs] and [now] the clock reading
    of [save_session].  An exception of [os.makedirs] reaches the handler,
    which returns [False]; [save_session] handles its own exceptions, so
    that the session is closed whether or not its file was written. *)
Definition end_session (makedirs : makedirs_call) (fs : filesystem)
  (now : string) (save_session : bool) (self : t)
  : bool * filesystem * t :=
  match save_session, the_memory_manager self, current_session_id self with
  | true, Some mm, Some (String c r) =>
      let session_file := session_file (String c r) in
      match makedirs fs "sessions" with
      | Ok fs =>
          (true, CMM.save_session fs now session_file mm,
           set_current_session_id None self)
      | Raise e => (false, fs, self)
      end
  | _, _, _ => (true, fs, self)
  end.

(** The interactions that the profile has counted. *)
Definition sessions_counted (self : t) : Z :=
  match the_memory_manager self with
  | Some mm => CMM.session_count (CMM.student_profile mm)
  | None => 0%Z
  end.

(** The accounting equation of [system_stats]. *)
Definition consistent (s : stats) : Prop :=
  total_queries s = (successful_responses s + failed_responses s)%Z.

(** What [self.rag_pipeline.query] answers to [chat]. *)
Definition query_outcome (now : CMM.instants) (message : string)
  (subject_filter : option string) (self : t)
  : result RAGPipeline.response :=
  fst (call_query now message subject_filter self).

(** A sequence of calls of [chat], each with the instants of its clock
    readings, its message and its subject filter. *)
Definition chat_all (calls : list (CMM.instants * string * option string))
  (self : t) : t :=
  fold_left (fun self '(now, message, subject_filter) =>
               snd (chat now message subject_filter self))
            calls self.

End EduSmartAITutor.

(** ** Sample objects *)

Module Samples.

Import LangChain.

(** An index of four documents, two of them on mathematics. *)
Definition sample_index : VectorStoreManager.FAISS :=
  VectorStoreManager.mkFAISS (fun _ n =>
    Ok (firstn (Z.to_nat n)
          [ mkDocument "physics" [("subject", PyStr "science")];
            mkDocument "algebra" [("subject", PyStr "math")];
            mkDocument "grammar" [("subject", PyStr "english")];
            mkDocument "geometry" [("subject", PyStr "math")] ])).

(** A model that repeats its prompt. *)
Definition echo : LLMManager.LLM := fun prompt => Ok prompt.

(** An installation where only the fallback list model can be built. *)
Definition offline : LLMManager.backends :=
  LLMManager.mkBackends
    (fun _ _ => Raise "no network")
    (fun _ => Raise "no network")
    (fun _ => Raise "no network")
    (fun _ _ => Raise "no network")
    (fun _ => Ok echo).

(** An installation where every backend can be built. *)
Definition online : LLMManager.backends :=
  LLMManager.mkBackends
    (fun _ _ => Ok echo)
    (fun name => Ok name)
    (fun _ => Ok echo)
    (fun _ _ => Ok echo)
    (fun _ => Ok echo).

(** The manager that [initialize] configures by default, with a Gemini key. *)
Definition gemini_manager : LLMManager.t :=
  LLMManager.mk "gemini-1.5-flash" "key" "" false None None "unknown".

Definition noon : ConversationMemoryManager.instants :=
  ConversationMemoryManager.mkInstants "2024-01-01T12:00:00"
                                        "2024-01-01T12:00:01".

(** A chain that answers from one document. *)
Definition working_chain : RAGPipeline.chain :=
  RAGPipeline.ChainWithInvoke
    (fun question chat_history messages =>
       (Ok (RAGPipeline.mkChainResult
              (Some "Algebra uses letters for numbers.")
              (Some [mkDocument "algebra" [("subject", PyStr "math")]])),
        messages)).

(** A chain whose retriever is out of order. *)
Definition broken_chain : RAGPipeline.chain :=
  RAGPipeline.ChainWithInvoke
    (fun question chat_history messages =>
       (Raise "retriever unavailable", messages)).

(** A chain that answers with an empty text. *)
Definition silent_chain : RAGPipeline.chain :=
  RAGPipeline.ChainWithRun (fun question chat_history => Ok "").

(** A manager holding the model [echo], as [LLMManager] installs it. *)
Definition echo_manager : LLMManager.t :=
  LLMManager.mk "gemini-1.5-flash" "key" "" false (Some echo) None "gemini".

(** A stand-in for the manager whose [generate_response] raises. *)
Definition raising_manager : RAGPipeline.llm_manager_object :=
  RAGPipeline.mkLLMManagerObject (fun _ => Raise "out of memory").

Definition pipeline_with (manager : RAGPipeline.llm_manager_object)
  (chain : RAGPipeline.chain) : RAGPipeline.t :=
  RAGPipeline.mk (VectorStoreManager.mk "model" (Some sample_index))
                 manager (ConversationMemoryManager.__init__ 10) chain.

Definition tutor_with (chain : RAGPipeline.chain) : EduSmartAITutor.t :=
  EduSmartAITutor.mk true None
    (Some (pipeline_with (RAGPipeline.of_LLMManager echo_manager) chain))
    (Some "session_1") (EduSmartAITutor.mkStats 0 0 0 3).

(** A disk without files, on which every path but the empty one can be
    written. *)
Definition empty_disk : filesystem :=
  mkFilesystem (fun _ => None) (fun path => negb (String.eqb path "")).

(** A disk without files and without directories: only the files of the
    working directory can be written. *)
Definition bare_disk : filesystem :=
  mkFilesystem (fun _ => None)
               (fun path => negb (String.eqb path "") && negb (str_in "/" path)).

(** An operating system that creates the directory asked for, unless a
    file bears its name: the files directly in it can then be written. *)
Definition sample_makedirs : makedirs_call :=
  fun fs name =>
    match files fs name with
    | Some _ => Raise "File exists"
    | None =>
        Ok (mkFilesystem (files fs)
              (fun path =>
                 writable fs path
                 || (prefix (name ++ "/") path
                     && negb (String.eqb path (name ++ "/"))
                     && negb (str_in "/"
                                (substring (String.length name + 1)
                                           (String.length path) path)))))
    end.

Definition question_call (text : string) : ConversationMemoryManager.call :=
  ConversationMemoryManager.mkCall noon text "answer" None.


(** A manager whose one interaction carries an object that [json] cannot
    write. *)
Definition stamped_manager : ConversationMemoryManager.t :=
  ConversationMemoryManager.add_interaction noon "What is a set?" "A collection."
    (Some [("asked_at", PyObj 0)])
    (ConversationMemoryManager.__init__ 10).

(** The bytes [ED A0 80]: a string that holds the lone surrogate U+D800. *)
Definition surrogate : string :=
  String (ascii_of_nat 237)
    (String (ascii_of_nat 160) (String (ascii_of_nat 128) EmptyString)).

(** A manager after one interaction of the pipeline. *)
Definition plain_manager : ConversationMemoryManager.t :=
  ConversationMemoryManager.add_interaction noon "What is a set?" "A collection."
    (Some [("subject", PyStr "math"); ("num_sources", PyInt 0);
           ("sources", PyList [])])
    (ConversationMemoryManager.__init__ 10).

(** A PDF document on mathematics and a text document without a specific
    subject. *)
Definition two_documents : list Document :=
  [ mkDocument "algebra"
      [("file_type", PyStr "pdf"); ("subject", PyStr "math")];
    mkDocument "notes"
      [("file_type", PyStr ".txt"); ("subject", PyStr "general")] ].

(** A folder with a PDF file on algebra, a text file and a picture. *)
Definition sample_files : DocumentProcessor.files :=
  DocumentProcessor.mkFiles
    (fun path => negb (String.eqb path "missing.txt"))
    (fun path => Ok [mkDocument "page 1" [("page", PyInt 0)];
                     mkDocument "page 2" [("page", PyInt 1)]])
    (fun path => Ok [mkDocument "text" []]).

(** A tutor in the middle of a session. *)
Definition tutor_in_session : EduSmartAITutor.t :=
  EduSmartAITutor.mk true None
    (Some (RAGPipeline.mk (VectorStoreManager.mk "model" (Some sample_index))
             (RAGPipeline.of_LLMManager echo_manager) plain_manager
             working_chain))
    (Some "monday") (EduSmartAITutor.mkStats 1 1 0 3).

End Samples.

(* ===================================================================== *)
(** * Part II: properties                                                 *)
(* ===================================================================== *)

(** ** Subject tagging *)

Section SubjectTagging.

Import DocumentProcessor.

Lemma any_keyword_in_false keywords filename :
  any_keyword_in keywords filename = false <-> no_keyword_in keywords filename.
Proof.
  unfold any_keyword_in, no_keyword_in. split.
  - intros H keyword Hin.
    destruct (str_in keyword filename) eqn:E; [|reflexivity].
    assert (existsb (fun kw => str_in kw filename) keywords = true) as C
        by (apply existsb_exists; eauto).
    congruence.
  - intros H. apply not_true_is_false. intros C.
    apply existsb_exists in C as (kw & Hin & Hkw).
    rewrite (H kw Hin) in Hkw. discriminate.
Qed.

Lemma any_keyword_in_true keywords filename :
  any_keyword_in keywords filename = true <->
  exists keyword, In keyword keywords /\ str_in keyword filename = true.
Proof. apply existsb_exists. Qed.

Lemma first_matching_subject_none table filename :
  first_matching_subject table filename = None <->
  forall subject keywords,
    In (subject, keywords) table -> no_keyword_in keywords filename.
Proof.
  induction table as [|[s kws] rest IH]; simpl.
  - split; [intros _ ? ? []|reflexivity].
  - destruct (any_keyword_in kws filename) eqn:E.
    + split; [discriminate|]. intros H.
      assert (no_keyword_in kws filename) as C by (apply (H s); now left).
      apply any_keyword_in_false in C. congruence.
    + rewrite IH. split.
      * intros H s' kws' [Heq|Hin].
        -- inversion Heq; subst. now apply any_keyword_in_false.
        -- eauto.
      * intros H s' kws' Hin. apply (H s'). now right.
Qed.

(** The loop returns the first entry of the table one of whose keywords
    occurs in the file name. *)
Lemma first_matching_subject_some table filename subject :
  first_matching_subject table filename = Some subject <->
  exists before keywords after,
    table = (before ++ (subject, keywords) :: after)%list
    /\ any_keyword_in keywords filename = true
    /\ forall s kws, In (s, kws) before -> no_keyword_in kws filename.
Proof.
  induction table as [|[s kws] rest IH]; simpl.
  - split; [discriminate|]. intros (before & ? & ? & H & _).
    destruct before; discriminate.
  - destruct (any_keyword_in kws filename) eqn:E.
    + split.
      * intros [= <-]. exists [], kws, rest. simpl. intuition.
      * intros (before & kws' & after & Heq & Hany & Hno).
        destruct before as [|[s0 k0] before]; simpl in Heq.
        -- now inversion Heq.
        -- injection Heq as Hs Hk Hr. subst s0 k0.
           assert (no_keyword_in kws filename) as C
               by (apply (Hno s); now left).
           apply any_keyword_in_false in C. congruence.
    + rewrite IH. split.
      * intros (before & kws' & after & -> & Hany & Hno).
        exists ((s, kws) :: before), kws', after. simpl.
        split; [reflexivity|]. split; [assumption|].
        intros s' k' [Heq|Hin]; [|eauto].
        inversion Heq; subst. now apply any_keyword_in_false.
      * intros (before & kws' & after & Heq & Hany & Hno).
        destruct before as [|[s0 k0] before]; simpl in Heq.
        -- injection Heq as Hs Hk Hr. subst. congruence.
        -- injection Heq as Hs Hk Hr. subst s0 k0 rest.
           exists before, kws', after.
           split; [reflexivity|]. split; [assumption|].
           intros s' k' Hin. apply (Hno s'). now right.
Qed.

Lemma first_matching_subject_in table filename subject :
  first_matching_subject table filename = Some subject ->
  In subject (map fst table).
Proof.
  intros H. apply first_matching_subject_some in H
    as (before & kws & after & -> & _).
  rewrite map_app. apply in_or_app. right. now left.
Qed.

(** C8.  For every file path, [_extract_subject_from_filename] returns one
    of the labels math, science, history, english, computer and general; it
    returns general exactly when no keyword of the table occurs in the
    lowercased base name of the path; and when the keywords of some subjects
    occur, it returns the first of these subjects in the order of the table
    (math, science, history, english, computer). *)
Theorem extract_subject_from_filename_spec (file_path : string) :
  let filename := lower (basename file_path) in
  let subject := _extract_subject_from_filename file_path in
  In subject ["math"; "science"; "history"; "english"; "computer"; "general"]
  /\ map fst subjects = ["math"; "science"; "history"; "english"; "computer"]
  /\ (subject = "general" <->
      forall s keywords,
        In (s, keywords) subjects -> no_keyword_in keywords filename)
  /\ (forall before s keywords after,
        subjects = (before ++ (s, keywords) :: after)%list ->
        (exists keyword, In keyword keywords /\ str_in keyword filename = true) ->
        (forall s' keywords',
            In (s', keywords') before -> no_keyword_in keywords' filename) ->
        subject = s).
Proof.
  intros filename subject. subst subject.
  unfold _extract_subject_from_filename. fold filename.
  destruct (first_matching_subject subjects filename) as [s|] eqn:E.
  - pose proof (first_matching_subject_in _ _ _ E) as Hin.
    split; [|split; [reflexivity|split]].
    + simpl in Hin. simpl. intuition.
    + split.
      * intros ->. simpl in Hin.
        repeat (destruct Hin as [Hin|Hin]; [discriminate|]). destruct Hin.
      * intros H. apply first_matching_subject_none in H. congruence.
    + intros before s' kws after Heq Hex Hno.
      assert (first_matching_subject subjects filename = Some s') as E'.
      { apply first_matching_subject_some. exists before, kws, after.
        split; [assumption|]. split; [|assumption].
        now apply any_keyword_in_true. }
      congruence.
  - split; [|split; [reflexivity|split]].
    + simpl. intuition.
    + split; [|reflexivity]. intros _.
      now apply first_matching_subject_none.
    + intros before s' kws after Heq Hex Hno.
      assert (first_matching_subject subjects filename = Some s') as E'.
      { apply first_matching_subject_some. exists before, kws, after.
        split; [assumption|]. split; [|assumption].
        now apply any_keyword_in_true. }
      congruence.
Qed.

Example extract_subject_algebra :
  _extract_subject_from_filename "/data/Intro_Physics_and_Algebra.PDF" = "math".
Proof. reflexivity. Qed.

Example extract_subject_cs :
  _extract_subject_from_filename "curriculum/topics.txt" = "computer".
Proof. reflexivity. Qed.

Example extract_subject_general :
  _extract_subject_from_filename "math/notes.txt" = "general".
Proof. reflexivity. Qed.

End SubjectTagging.

(** ** Rounding to the nearest float *)

Section Rounding.

Open Scope Q_scope.

Lemma pow2_pos (e : Z) : 0 < pow2 e.
Proof. apply Qpower_0_lt. reflexivity. Qed.

Lemma pow2_plus (a b : Z) : pow2 (a + b) == pow2 a * pow2 b.
Proof. apply Qpower_plus. discriminate. Qed.

Lemma pow2_inject (n : Z) : (0 <= n)%Z -> pow2 n == inject_Z (2 ^ n).
Proof. intros Hn. unfold pow2. now rewrite Zpower_Qpower. Qed.

(** A positive rational lies between the powers of two that the logarithms
    of its numerator and of its denominator give. *)
Lemma log2_bounds (q : Q) :
  0 < q ->
  let e := (Z.log2 (Qnum q) - Z.log2 (Zpos (Qden q)))%Z in
  pow2 (e - 1) < q /\ q < pow2 (e + 1).
Proof.
  destruct q as [n d]. unfold Qlt at 1. cbn [Qnum Qden]. intros Hq.
  assert (0 < n)%Z as Hn by lia.
  set (a := Z.log2 n). set (b := Z.log2 (Z.pos d)).
  assert (0 <= a)%Z as Ha by apply Z.log2_nonneg.
  assert (0 <= b)%Z as Hb by apply Z.log2_nonneg.
  destruct (Z.log2_spec n Hn) as (Hnl & Hnu). fold a in Hnl, Hnu.
  destruct (Z.log2_spec (Z.pos d) eq_refl) as (Hdl & Hdu). fold b in Hdl, Hdu.
  assert (n # d == inject_Z n / inject_Z (Z.pos d)) as Hnd
    by (rewrite Qmake_Qdiv; reflexivity).
  assert (0 < inject_Z (Z.pos d)) as Hdpos by reflexivity.
  split.
  - rewrite Hnd. apply Qlt_shift_div_l; [assumption|].
    apply Qlt_le_trans with (pow2 (a - b - 1) * pow2 (b + 1)).
    + apply Qmult_lt_l; [apply pow2_pos|].
      rewrite pow2_inject by lia. rewrite <- Zlt_Qlt.
      now rewrite Z.add_1_r.
    + rewrite <- pow2_plus. replace (a - b - 1 + (b + 1))%Z with a by ring.
      rewrite pow2_inject by lia. now rewrite <- Zle_Qle.
  - rewrite Hnd. apply Qlt_shift_div_r; [assumption|].
    apply Qlt_le_trans with (pow2 (a + 1)).
    + rewrite pow2_inject by lia. now rewrite <- Zlt_Qlt, Z.add_1_r.
    + replace (a + 1)%Z with (a - b + 1 + b)%Z by ring.
      rewrite pow2_plus. apply Qmult_le_l; [apply pow2_pos|].
      rewrite pow2_inject by lia. now rewrite <- Zle_Qle.
Qed.

Lemma ilog2_spec (q : Q) :
  0 < q -> pow2 (ilog2 q) <= q /\ q < pow2 (ilog2 q + 1).
Proof.
  intros Hq. destruct (log2_bounds q Hq) as (Hl & Hu). unfold ilog2.
  set (e := (Z.log2 (Qnum q) - Z.log2 (Z.pos (Qden q)))%Z) in *.
  destruct (Qle_bool (pow2 e) q) eqn:Hle.
  - apply Qle_bool_iff in Hle. now split.
  - split; [now apply Qlt_le_weak|].
    replace (e - 1 + 1)%Z with e by ring.
    apply Qnot_le_lt. intros H. apply Qle_bool_iff in H. congruence.
Qed.

Lemma round_half_even_floor (q : Q) : (Qfloor q <= round_half_even q)%Z.
Proof.
  unfold round_half_even.
  destruct (q - inject_Z (Qfloor q) ?= 1 # 2); [destruct (Z.even _)| |]; lia.
Qed.

(** Rounding does not cross a power of two: a rational that is at least
    [2^k], for an exponent [k] of the normal range, is rounded to a float
    that is at least [2^k]. *)
Lemma round_positive_pow2 (k : Z) (q : Q) :
  (-1022 <= k)%Z -> pow2 k <= q -> pow2 k <= round_positive q.
Proof.
  intros Hk Hq.
  assert (0 < q) as Hpos by (eapply Qlt_le_trans; [apply pow2_pos|eassumption]).
  destruct (ilog2_spec q Hpos) as (Hl & Hu).
  assert (k <= ilog2 q)%Z as Hkl.
  { assert (k < ilog2 q + 1)%Z; [|lia].
    apply Qpower_lt_compat_l_inv with (q := 2); [|reflexivity].
    eapply Qle_lt_trans; eassumption. }
  unfold round_positive. rewrite Qred_correct.
  rewrite Z.max_l by lia.
  set (e := (ilog2 q - 52)%Z).
  apply Qle_trans with (pow2 (ilog2 q)).
  { apply Qpower_le_compat_l; [assumption|discriminate]. }
  replace (ilog2 q) with (52 + e)%Z at 1 by (unfold e; ring).
  rewrite pow2_plus. apply Qmult_le_compat_r; [|apply Qlt_le_weak, pow2_pos].
  rewrite pow2_inject by lia. rewrite <- Zle_Qle.
  etransitivity; [|apply round_half_even_floor].
  rewrite <- (Qfloor_Z (2 ^ 52)). apply Qfloor_resp_le.
  apply Qle_shift_div_l; [apply pow2_pos|].
  rewrite <- pow2_inject by lia. rewrite <- pow2_plus.
  now replace (52 + e)%Z with (ilog2 q) by (unfold e; ring).
Qed.

Lemma round_positive_nonneg (q : Q) : 0 < q -> 0 <= round_positive q.
Proof.
  intros Hq. unfold round_positive. rewrite Qred_correct.
  apply Qmult_le_0_compat; [|apply Qlt_le_weak, pow2_pos].
  change 0 with (inject_Z 0). rewrite <- Zle_Qle.
  etransitivity; [|apply round_half_even_floor].
  rewrite <- (Qfloor_Z 0). apply Qfloor_resp_le.
  apply Qle_shift_div_l; [apply pow2_pos|].
  rewrite Qmult_0_l. now apply Qlt_le_weak.
Qed.

Lemma f64_nonneg (q : Q) : 0 <= q -> 0 <= f64 q.
Proof.
  intros Hq. unfold f64. destruct (q ?= 0) eqn:Hc.
  - apply Qle_refl.
  - apply Qlt_alt in Hc. exfalso. eapply Qlt_not_le; eassumption.
  - apply round_positive_nonneg. now apply Qgt_alt in Hc.
Qed.

Lemma f64_pow2 (k : Z) (q : Q) :
  (-1022 <= k)%Z -> pow2 k <= q -> pow2 k <= f64 q.
Proof.
  intros Hk Hq.
  assert (0 < q) as Hpos by (eapply Qlt_le_trans; [apply pow2_pos|eassumption]).
  unfold f64. destruct (q ?= 0) eqn:Hc.
  - apply Qeq_alt in Hc. rewrite Hc in Hpos. discriminate.
  - apply Qlt_alt in Hc. exfalso. eapply Qlt_irrefl, Qlt_trans; eassumption.
  - now apply round_positive_pow2.
Qed.

(** A sum or a product that is at least 1/2 is rounded to a float that is
    at least 1/2. *)
Lemma f64_half (q : Q) : 1 # 2 <= q -> 1 # 2 <= f64 q.
Proof. apply (f64_pow2 (-1)). lia. Qed.

Lemma fmin_le_l (x y : Q) : fmin x y <= x.
Proof.
  unfold fmin. destruct (y ?= x) eqn:Hc; try apply Qle_refl.
  apply Qlt_le_weak. now apply Qlt_alt.
Qed.

Lemma fmin_glb (c x y : Q) : c <= x -> c <= y -> c <= fmin x y.
Proof. intros Hx Hy. unfold fmin. now destruct (y ?= x). Qed.

(** The floats of the literals of the sources, and two sums: they are the
    numbers that Python prints as 0.3, 0.05, 0.30000000000000004 and
    0.7999999999999999. *)
Example float_literals :
  f64 0 = 0 /\ f64 1 = 1 /\ f64 (5 # 10) = 1 # 2
  /\ f64 (3 # 10) = 5404319552844595 # 18014398509481984
  /\ f64 (5 # 100) = 3602879701896397 # 72057594037927936.
Proof. repeat split; vm_compute; reflexivity. Qed.

Example float_sums :
  fadd (f64 (1 # 10)) (f64 (2 # 10)) = 1351079888211149 # 4503599627370496
  /\ fadd (f64 (1 # 10)) (f64 (2 # 10)) <> f64 (3 # 10)
  /\ fadd (f64 (7 # 10)) (f64 (1 # 10)) = 7205759403792793 # 9007199254740992
  /\ fadd (f64 (7 # 10)) (f64 (1 # 10)) <> f64 (8 # 10)
  /\ float_of_int (2 ^ 53 + 1) = inject_Z (2 ^ 53).
Proof. repeat split; vm_compute; (reflexivity || discriminate). Qed.

End Rounding.

(** ** Confidence of an answer *)

Section Confidence.

Import LangChain RAGPipeline Samples.

Lemma count_cons test doc docs :
  count test (doc :: docs)
  = ((if test doc then 1 else 0) + count test docs)%nat.
Proof. unfold count. cbn [filter]. now destruct (test doc). Qed.

Lemma bonus_step_iter (bonus : Q) (doc : Document) :
  bonus_step bonus doc
  = Nat.iter ((if is_pdf doc then 1 else 0)
              + (if has_specific_subject doc then 1 else 0))
             (fun bonus => fadd bonus (f64 (5 # 100))) bonus.
Proof.
  unfold bonus_step. now destruct (is_pdf doc), (has_specific_subject doc).
Qed.

(** The loop adds the same float once for every test that is passed, so
    that its result depends on the number of these tests only. *)
Lemma bonus_loop docs : forall bonus,
  fold_left bonus_step docs bonus
  = Nat.iter (count is_pdf docs + count has_specific_subject docs)
             (fun bonus => fadd bonus (f64 (5 # 100))) bonus.
Proof.
  induction docs as [|doc docs IH]; intros bonus; [reflexivity|].
  cbn [fold_left]. rewrite IH, bonus_step_iter, <- Nat.iter_add.
  rewrite !count_cons. f_equal. lia.
Qed.

Lemma quality_bonus_count docs :
  quality_bonus docs
  = repeated_bonus (count is_pdf docs + count has_specific_subject docs).
Proof. unfold quality_bonus, repeated_bonus. apply bonus_loop. Qed.

Lemma repeated_bonus_nonneg (times : nat) : (0 <= repeated_bonus times)%Q.
Proof.
  unfold repeated_bonus.
  induction times as [|times IH]; cbn [Nat.iter].
  - discriminate.
  - unfold fadd. apply f64_nonneg.
    apply Qle_trans with (0 + 0)%Q; [discriminate|].
    apply Qplus_le_compat; [exact IH|]. apply f64_nonneg. discriminate.
Qed.

(** The base confidence of a list is at least 1/2. *)
Lemma base_confidence_half (n : nat) :
  (1 # 2 <= fmin (f64 (9 # 10))
                 (fadd (f64 (5 # 10))
                       (fmul (float_of_int (Z.of_nat n)) (f64 (1 # 10)))))%Q.
Proof.
  apply fmin_glb; [vm_compute; discriminate|].
  unfold fadd. apply f64_half.
  replace (f64 (5 # 10)) with (1 # 2)%Q by (vm_compute; reflexivity).
  apply Qle_trans with ((1 # 2) + 0)%Q; [discriminate|].
  apply Qplus_le_r. unfold fmul. apply f64_nonneg.
  apply Qmult_le_0_compat.
  - unfold float_of_int. apply f64_nonneg.
    change 0%Q with (inject_Z 0). rewrite <- Zle_Qle. lia.
  - apply f64_nonneg. discriminate.
Qed.

Lemma confidence_range (source_docs : list Document) :
  (f64 (3 # 10) <= _calculate_confidence source_docs <= 1)%Q
  /\ (source_docs <> [] -> (1 # 2 <= _calculate_confidence source_docs)%Q).
Proof.
  destruct source_docs as [|doc docs].
  - split; [|congruence]. cbn [_calculate_confidence].
    split; [apply Qle_refl|vm_compute; discriminate].
  - unfold _calculate_confidence. set (l := doc :: docs).
    assert (1 # 2 <= fmin (f64 1)
                       (fadd (fmin (f64 (9 # 10))
                                (fadd (f64 (5 # 10))
                                   (fmul (float_of_int
                                            (Z.of_nat (List.length l)))
                                         (f64 (1 # 10)))))
                             (quality_bonus l)))%Q as Hhalf.
    { apply fmin_glb; [vm_compute; discriminate|].
      unfold fadd at 1. apply f64_half.
      apply Qle_trans with ((1 # 2) + 0)%Q; [discriminate|].
      apply Qplus_le_compat; [apply base_confidence_half|].
      rewrite quality_bonus_count. apply repeated_bonus_nonneg. }
    split; [split|intros _; exact Hhalf].
    + apply Qle_trans with (1 # 2)%Q; [vm_compute; discriminate|exact Hhalf].
    + apply (fmin_le_l (f64 1)).
Qed.

(** C3, as amended.  For every list of retrieved documents,
    [_calculate_confidence] returns the float 0.3 when the list is empty and
    otherwise min(1.0, min(0.9, 0.5 + n * 0.1) + b) computed on floats, where
    n is the number of documents and b the float that adding 0.05 once for
    each of the p documents whose [file_type] is ['pdf'] and once for each of
    the g documents whose [subject] differs from ['general'] gives; every
    sum and product is rounded to the nearest float.  The result always lies
    between the floats 0.3 and 1.0, and is at least 0.5 when the list is not
    empty. *)
Theorem calculate_confidence_spec (source_docs : list Document) :
  let n := float_of_int (Z.of_nat (List.length source_docs)) in
  let p := count is_pdf source_docs in
  let g := count has_specific_subject source_docs in
  (source_docs = [] -> _calculate_confidence source_docs = f64 (3 # 10))
  /\ (source_docs <> [] ->
      _calculate_confidence source_docs
      = fmin (f64 1)
             (fadd (fmin (f64 (9 # 10))
                         (fadd (f64 (5 # 10)) (fmul n (f64 (1 # 10)))))
                   (repeated_bonus (p + g))))
  /\ (f64 (3 # 10) <= _calculate_confidence source_docs <= f64 1)%Q
  /\ (source_docs <> [] ->
      (f64 (5 # 10) <= _calculate_confidence source_docs)%Q).
Proof.
  intros n p g.
  destruct (confidence_range source_docs) as (Hrange & Hhalf).
  split; [intros ->; reflexivity|]. split; [|split].
  - intros Hne. destruct source_docs as [|doc docs]; [congruence|].
    unfold _calculate_confidence. now rewrite quality_bonus_count.
  - exact Hrange.
  - exact Hhalf.
Qed.

(** C3, as stated, fails on a PDF document on mathematics followed by a
    text document without a specific subject: with n = 2, p = 1 and g = 1
    the claim gives 4/5, while the code computes 0.7 + 0.1 on floats, which
    is 0.7999999999999999: neither 4/5 nor the float nearest to it. *)
Lemma confidence_is_rounded :
  count is_pdf two_documents = 1
  /\ count has_specific_subject two_documents = 1
  /\ (Qmin 1 (Qmin (9 # 10) ((1 # 2) + 2 / 10) + 1 / 20 + 1 / 20) == 4 # 5)%Q
  /\ _calculate_confidence two_documents
     = (7205759403792793 # 9007199254740992)%Q
  /\ ~ (_calculate_confidence two_documents == 4 # 5)%Q
  /\ _calculate_confidence two_documents <> f64 (4 # 5).
Proof.
  split; [reflexivity|]. split; [reflexivity|]. split; [reflexivity|].
  split; [vm_compute; reflexivity|].
  split; [vm_compute; discriminate|vm_compute; discriminate].
Qed.

(** A document without a [subject] counts as one with a specific subject:
    [None != "general"]. *)
Example confidence_without_subject :
  _calculate_confidence [mkDocument "text" []] = f64 (65 # 100).
Proof. vm_compute. reflexivity. Qed.

End Confidence.

(** ** Filtered similarity search *)

Section FilteredSearch.

Import LangChain VectorStoreManager Samples.

Lemma matches_filter_spec filter_dict doc :
  matches_filter filter_dict doc = true <->
  forall key value,
    In (key, value) filter_dict ->
    py_eq (dict_get (metadata doc) key) value = true.
Proof.
  unfold matches_filter. rewrite forallb_forall. split.
  - intros H key value Hin. apply (H (key, value) Hin).
  - intros H [key value] Hin. now apply H.
Qed.

Lemma slice_to_all {A} (k : Z) (l : list A) :
  (Z.of_nat (List.length l) <= k)%Z -> slice_to k l = l.
Proof.
  intros H. unfold slice_to.
  destruct (Z.ltb_spec k 0); [lia|].
  rewrite Z.min_r by lia. rewrite Nat2Z.id. apply firstn_all.
Qed.

(** While fewer than [k] documents are kept, the loop followed by the final
    slice adds the first matching documents that are still missing. *)
Lemma filter_loop_spec k filter_dict results : forall kept,
  (Z.of_nat (List.length kept) < k)%Z ->
  slice_to k (filter_loop k filter_dict results kept) =
  (kept ++ firstn (Z.to_nat k - List.length kept)
                  (filter (matches_filter filter_dict) results))%list.
Proof.
  induction results as [|doc rest IH]; intros kept Hlt; simpl.
  - rewrite firstn_nil, app_nil_r. apply slice_to_all. lia.
  - destruct (matches_filter filter_dict doc) eqn:Hm.
    + rewrite length_app. simpl List.length.
      destruct (Z.leb_spec k (Z.of_nat (List.length kept + 1))) as [Hk|Hk].
      * rewrite slice_to_all by (rewrite length_app; simpl; lia).
        replace (Z.to_nat k - List.length kept)%nat with 1%nat by lia.
        reflexivity.
      * rewrite IH by (rewrite length_app; simpl; lia).
        rewrite length_app. simpl List.length.
        replace (Z.to_nat k - List.length kept)%nat
          with (S (Z.to_nat k - (List.length kept + 1)))%nat by lia.
        simpl. now rewrite <- app_assoc.
    + now apply IH.
Qed.

(** C4.  For every query, every [k >= 1] and every non-empty [filter_dict],
    every document that [similarity_search] returns satisfies every pair of
    [filter_dict], at most [k] documents are returned, and they are the first
    matching documents, in the order of the index, among its top [2 * k]
    results. *)
Theorem similarity_search_filtered
  (self : VectorStoreManager.t) (query : string) (k : Z)
  (filter_dict : pydict) :
  (1 <= k)%Z ->
  filter_dict <> [] ->
  let found := similarity_search self query k (Some filter_dict) in
  Forall (fun doc =>
            forall key value,
              In (key, value) filter_dict ->
              py_eq (dict_get (metadata doc) key) value = true) found
  /\ (Z.of_nat (List.length found) <= k)%Z
  /\ found = firstn (Z.to_nat k)
               (filter (matches_filter filter_dict)
                       (unfiltered_results self query k)).
Proof.
  intros Hk Hne found.
  assert (found = firstn (Z.to_nat k)
                    (filter (matches_filter filter_dict)
                            (unfiltered_results self query k))) as Hfound.
  { subst found. unfold similarity_search, similarity_search_body,
      unfiltered_results.
    destruct (vector_store self) as [store|].
    - destruct filter_dict as [|item items]; [congruence|].
      destruct (faiss_similarity_search store query (k * 2)) as [results|e];
        simpl.
      + rewrite filter_loop_spec by (simpl; lia).
        simpl. now rewrite Nat.sub_0_r.
      + now rewrite firstn_nil.
    - simpl. now rewrite firstn_nil. }
  split; [|split; [|assumption]].
  - rewrite Hfound. apply Forall_forall. intros doc Hin.
    apply matches_filter_spec.
    assert (In doc (filter (matches_filter filter_dict)
                           (unfiltered_results self query k))) as Hin'.
    { revert Hin. generalize (Z.to_nat k).
      generalize (filter (matches_filter filter_dict)
                         (unfiltered_results self query k)).
      intros l n. revert l.
      induction n as [|n IHn]; intros [|x l]; simpl; try tauto.
      intros [->|Hin]; [now left|right; now apply IHn]. }
    apply filter_In in Hin'. tauto.
  - rewrite Hfound. pose proof (firstn_le_length (Z.to_nat k)
      (filter (matches_filter filter_dict) (unfiltered_results self query k))).
    lia.
Qed.

Lemma similarity_search_filtered_witness :
  let found :=
    similarity_search (VectorStoreManager.mk "model" (Some sample_index))
                      "triangles" 1 (Some [("subject", PyStr "math")]) in
  (1 <= 1)%Z
  /\ [("subject", PyStr "math")] <> []
  /\ found = [mkDocument "algebra" [("subject", PyStr "math")]]
  /\ (Z.of_nat (List.length found) <= 1)%Z.
Proof.
  assert (1 <= 1)%Z as Hk by lia.
  assert ([("subject", PyStr "math")] <> []) as Hne by discriminate.
  pose proof (similarity_search_filtered
                (VectorStoreManager.mk "model" (Some sample_index))
                "triangles" 1 [("subject", PyStr "math")] Hk Hne)
    as (_ & Hlen & Heq).
  split; [exact Hk|]. split; [exact Hne|]. split; [exact Heq | exact Hlen].
Defined.

(** With [k = 2] the second matching document lies within the top four. *)
Example similarity_search_two :
  similarity_search (VectorStoreManager.mk "model" (Some sample_index))
                    "triangles" 2 (Some [("subject", PyStr "math")])
  = [ mkDocument "algebra" [("subject", PyStr "math")];
      mkDocument "geometry" [("subject", PyStr "math")] ].
Proof. reflexivity. Qed.

End FilteredSearch.

(** ** Selection of the language model *)

Section BackendSelection.

Import LLMManager Samples.

Variable env : backends.

Ltac run_initializer :=
  unfold _initialize_model, _initialize_huggingface_hub_model,
    _initialize_local_model, _initialize_gemini_model,
    _initialize_fallback_model, try_catch, mbind, get, modify, lift, raise;
  simpl.

(** When the constructors of the selected backend answer, its model is
    installed under its provider name. *)
Lemma initialize_model_selected (self : t) (model : LLM) :
  construct env self (selected_backend self) = Ok model ->
  exists self',
    _initialize_model env self = (Ok tt, self')
    /\ provider self' = provider_name (selected_backend self)
    /\ llm self' = Some model.
Proof.
  unfold selected_backend, construct. run_initializer.
  destruct (nonempty (huggingface_api_token self)
            && (str_in "/" (model_name self)
                || str_in "mistral" (lower (model_name self)))).
  - intros ->. eauto.
  - destruct (use_local self).
    + destruct (AutoTokenizer_from_pretrained env (model_name self)); simpl;
        [|discriminate].
      intros ->. eauto.
    + destruct (nonempty (gemini_api_key self)
                && str_in "gemini" (lower (model_name self))).
      * intros ->. eauto.
      * intros ->. eauto.
Qed.

(** When they raise, the fallback list model is installed instead. *)
Lemma initialize_model_fallback (self : t) (e : string) (model : LLM) :
  construct env self (selected_backend self) = Raise e ->
  FakeListLLM env fallback_responses = Ok model ->
  exists self',
    _initialize_model env self = (Ok tt, self')
    /\ provider self' = "fallback_fake_llm"
    /\ llm self' = Some model.
Proof.
  unfold selected_backend, construct. run_initializer.
  destruct (nonempty (huggingface_api_token self)
            && (str_in "/" (model_name self)
                || str_in "mistral" (lower (model_name self)))).
  - intros -> ->. eauto.
  - destruct (use_local self).
    + destruct (AutoTokenizer_from_pretrained env (model_name self)); simpl.
      * intros -> ->. eauto.
      * intros _ ->. eauto.
    + destruct (nonempty (gemini_api_key self)
                && str_in "gemini" (lower (model_name self))).
      * intros -> ->. eauto.
      * intros -> ?. discriminate.
Qed.

(** C5.  [_initialize_model] selects the Hugging Face Hub when a token is
    present and the model name contains a slash or, whatever its case,
    mistral; otherwise the local pipeline when [use_local] is set; otherwise
    Gemini when a key is present and the name contains gemini; otherwise the
    fallback list model.  The selected provider is the one installed when its
    initializer returns, and the fallback list model is installed when that
    initializer raises. *)
Theorem initialize_model_selection (self : t) :
  let token := nonempty (huggingface_api_token self) in
  let key := nonempty (gemini_api_key self) in
  let name := model_name self in
  selected_backend self =
    (if token && (str_in "/" name || str_in "mistral" (lower name))
     then HuggingFaceHubBackend
     else if use_local self then LocalPipelineBackend
     else if key && str_in "gemini" (lower name) then GeminiBackend
     else FallbackListBackend)
  /\ (forall model,
        construct env self (selected_backend self) = Ok model ->
        exists self',
          _initialize_model env self = (Ok tt, self')
          /\ provider self' = provider_name (selected_backend self)
          /\ llm self' = Some model)
  /\ (forall e model,
        construct env self (selected_backend self) = Raise e ->
        FakeListLLM env fallback_responses = Ok model ->
        exists self',
          _initialize_model env self = (Ok tt, self')
          /\ provider self' = "fallback_fake_llm"
          /\ llm self' = Some model).
Proof.
  intros token key name. split; [reflexivity|]. split.
  - apply initialize_model_selected.
  - apply initialize_model_fallback.
Qed.

End BackendSelection.

Section BackendSelectionExamples.

Import LLMManager Samples.

Example gemini_selected_online :
  selected_backend gemini_manager = GeminiBackend
  /\ provider (snd (_initialize_model online gemini_manager)) = "gemini".
Proof. split; reflexivity. Qed.

Example gemini_falls_back_offline :
  provider (snd (_initialize_model offline gemini_manager))
  = "fallback_fake_llm".
Proof. reflexivity. Qed.

(** A token and a repository id go to the Hugging Face Hub, whatever the
    other settings say. *)
Example hub_has_priority :
  provider (snd (__init__ online "mistralai/Mistral-7B" "key" "token" true))
  = "huggingface_hub".
Proof. reflexivity. Qed.

(** A token alone does not: the model name decides. *)
Example token_alone_is_not_enough :
  provider (snd (__init__ online "gemini-1.5-flash" "" "token" false))
  = "fallback_fake_llm".
Proof. reflexivity. Qed.

End BackendSelectionExamples.

(** ** The query pipeline and its fallbacks *)

Section QueryFallback.

Import RAGPipeline Samples.

Variables (now : CMM.instants) (question : string)
          (subject_filter : option string).

Ltac run_query :=
  unfold query, query_body, chain_outcome, try_catch, mbind, get, modify,
    lift, ret; simpl.

(** The call of the chain leaves the language-model manager in place. *)
Lemma call_chain_llm_manager context (self : t) :
  llm_manager (snd (call_chain context question self)) = llm_manager self.
Proof.
  unfold call_chain, call_invoke, mbind, get, lift, ret. simpl.
  destruct (chain_object self) as [invoke|run].
  - destruct (invoke _ _ _). reflexivity.
  - destruct (run _ _); reflexivity.
Qed.

(** When the chain answers, [query] returns from its [try] block. *)
Lemma query_regular (self : t) result :
  chain_outcome question self = Ok result ->
  exists response,
    fst (query now question subject_filter self) = Ok response
    /\ answer response =
       match answer_key result with
       | Some a => a
       | None => no_answer
       end.
Proof.
  run_query.
  destruct (call_chain _ question self) as [[result'|e] self1]; simpl;
    [|discriminate].
  intros [= ->]. eauto.
Qed.

(** When it raises, the manager of the language model is asked. *)
Lemma query_after_failure (self : t) e :
  chain_outcome question self = Raise e ->
  fst (query now question subject_filter self) =
  match generate_response (llm_manager self) question with
  | Ok fallback_answer =>
      Ok (mkResponse fallback_answer []
            (CMM.get_student_profile_summary
               (memory_manager
                  (snd (call_chain
                          (CMM.get_personalized_context (memory_manager self))
                          question self))))
            (f64 (3 # 10)))
  | Raise _ =>
      Ok (mkResponse apology []
            (CMM.get_student_profile_summary
               (memory_manager
                  (snd (call_chain
                          (CMM.get_personalized_context (memory_manager self))
                          question self))))
            (f64 0))
  end.
Proof.
  run_query.
  pose proof (call_chain_llm_manager
                (CMM.get_personalized_context (memory_manager self)) self)
    as Hllm.
  destruct (call_chain _ question self) as [[result|e'] self1]; simpl in *;
    [discriminate|].
  intros _. rewrite Hllm.
  destruct (generate_response (llm_manager self) question); reflexivity.
Qed.

(** C1.  For every question, [query] returns a response and propagates no
    exception.  When the chain raises, the answer is the one that
    [llm_manager.generate_response] gives for the bare question, with no
    sources and confidence 0.3; when that call raises too, the answer is the
    fixed apology, with no sources and confidence 0.0.  ([f64] gives the
    float of a literal; the float 0.0 is the rational 0.) *)
Theorem query_total_with_fallback (self : t) :
  let outcome := fst (query now question subject_filter self) in
  (exists response, outcome = Ok response)
  /\ (forall e,
        chain_outcome question self = Raise e ->
        (forall fallback_answer,
            generate_response (llm_manager self) question = Ok fallback_answer ->
            exists response,
              outcome = Ok response
              /\ answer response = fallback_answer
              /\ sources response = []
              /\ confidence response = f64 (3 # 10))
        /\ (forall inner_e,
              generate_response (llm_manager self) question = Raise inner_e ->
              exists response,
                outcome = Ok response
                /\ answer response = apology
                /\ sources response = []
                /\ confidence response = 0%Q)).
Proof.
  intros outcome. subst outcome. split.
  - destruct (chain_outcome question self) as [result|e] eqn:E.
    + destruct (query_regular self result E) as (response & H & _). eauto.
    + rewrite (query_after_failure self e E).
      destruct (generate_response (llm_manager self) question); eauto.
  - intros e E. rewrite (query_after_failure self e E). split.
    + intros fallback_answer ->. eexists. repeat split.
    + intros inner_e ->. eexists. repeat split.
Qed.

(** The manager that the tutor installs answers every question, so that
    with it the last stage is never reached. *)
Lemma generate_response_returns (m : LLMManager.t) (prompt : string) :
  exists text, generate_response (of_LLMManager m) prompt = Ok text.
Proof.
  unfold of_LLMManager, LLMManager.generate_response, try_except. simpl.
  destruct (LLMManager.llm m) as [model|]; simpl; [|eauto].
  destruct (model _); simpl; eauto.
Qed.

End QueryFallback.

Section QueryExamples.

Import RAGPipeline Samples.

Example query_regular_stage :
  let response :=
    fst (query noon "What is algebra?" (Some "math")
           (pipeline_with (of_LLMManager echo_manager) working_chain)) in
  match response with
  | Ok r => answer r = "Algebra uses letters for numbers."
            /\ List.length (sources r) = 1
            /\ confidence r = f64 (65 # 100)
  | Raise _ => False
  end.
Proof. cbv zeta. vm_compute. repeat split. Qed.

Example query_fallback_stage :
  match fst (query noon "What is algebra?" None
               (pipeline_with (of_LLMManager echo_manager) broken_chain)) with
  | Ok r => sources r = [] /\ confidence r = f64 (3 # 10)
  | Raise _ => False
  end.
Proof. vm_compute. repeat split. Qed.

Example query_apology_stage :
  match fst (query noon "What is algebra?" None
               (pipeline_with raising_manager broken_chain)) with
  | Ok r => answer r = apology /\ sources r = [] /\ confidence r = 0%Q
  | Raise _ => False
  end.
Proof. vm_compute. repeat split. Qed.

End QueryExamples.

(** ** Usage statistics *)

Section UsageStatistics.

Import EduSmartAITutor Samples.

Open Scope Z_scope.

(** What one call of [chat] does to the counters. *)
Lemma chat_counters now message subject_filter (self : t) :
  let s := system_stats self in
  let s' := system_stats (snd (chat now message subject_filter self)) in
  if is_initialized self then
    total_queries s' = total_queries s + 1
    /\ match query_outcome now message subject_filter self with
       | Ok response =>
           if negb (String.eqb (RAGPipeline.answer response) "")
           then successful_responses s' = successful_responses s + 1
                /\ failed_responses s' = failed_responses s
           else successful_responses s' = successful_responses s
                /\ failed_responses s' = failed_responses s + 1
       | Raise _ =>
           successful_responses s' = successful_responses s
           /\ failed_responses s' = failed_responses s + 1
       end
  else s' = s.
Proof.
  unfold chat, query_outcome, call_query, try_catch, mbind, get, modify, ret.
  simpl.
  destruct (is_initialized self); simpl; [|reflexivity].
  destruct (rag_pipeline self) as [pipeline|]; simpl; [|auto].
  destruct (RAGPipeline.query now message subject_filter pipeline)
    as [[response|e] pipeline']; simpl; [|auto].
  destruct (String.eqb (RAGPipeline.answer response) ""); simpl; auto.
Qed.

Lemma chat_consistent now message subject_filter (self : t) :
  consistent (system_stats self) ->
  consistent (system_stats (snd (chat now message subject_filter self))).
Proof.
  pose proof (chat_counters now message subject_filter self) as H.
  cbv zeta in H. unfold consistent. intros Hc.
  destruct (is_initialized self).
  - destruct H as (Ht & H).
    destruct (query_outcome now message subject_filter self) as [response|e].
    + destruct (negb (String.eqb (RAGPipeline.answer response) ""));
        destruct H as (Hs & Hf); lia.
    + destruct H as (Hs & Hf). lia.
  - now rewrite H.
Qed.

Lemma chat_all_consistent calls : forall self : t,
  consistent (system_stats self) ->
  consistent (system_stats (chat_all calls self)).
Proof.
  induction calls as [|[[now message] subject_filter] calls IH]; intros self Hc.
  - exact Hc.
  - apply IH. now apply chat_consistent.
Qed.

(** C9.  The counters of [system_stats] satisfy
    total_queries = successful_responses + failed_responses when the tutor is
    built and after every call of every sequence of calls of [chat].  A call
    on a tutor that is not initialized changes no counter; a call on an
    initialized tutor adds one to [total_queries] and one to exactly one of
    the two others: to [successful_responses] when the pipeline returns a
    non-empty answer, to [failed_responses] when the answer is empty or an
    exception was raised. *)
Theorem chat_accounting :
  consistent (system_stats __init__)
  /\ (forall calls self,
        consistent (system_stats self) ->
        consistent (system_stats (chat_all calls self)))
  /\ (forall now message subject_filter self,
        let s := system_stats self in
        let s' := system_stats (snd (chat now message subject_filter self)) in
        if is_initialized self then
          total_queries s' = total_queries s + 1
          /\ match query_outcome now message subject_filter self with
             | Ok response =>
                 if negb (String.eqb (RAGPipeline.answer response) "")
                 then successful_responses s' = successful_responses s + 1
                      /\ failed_responses s' = failed_responses s
                 else successful_responses s' = successful_responses s
                      /\ failed_responses s' = failed_responses s + 1
             | Raise _ =>
                 successful_responses s' = successful_responses s
                 /\ failed_responses s' = failed_responses s + 1
             end
        else s' = s).
Proof.
  split; [reflexivity|]. split.
  - intros calls self. apply chat_all_consistent.
  - apply chat_counters.
Qed.

(** Three calls on an initialized tutor: an answer, an empty answer, and a
    failure of the chain that the fallback of the pipeline absorbs. *)
Example chat_counts_answers :
  system_stats
    (chat_all [(noon, "What is algebra?", Some "math");
               (noon, "And geometry?", None)]
              (tutor_with working_chain))
  = mkStats 2 2 0 3.
Proof. vm_compute. reflexivity. Qed.

Example chat_counts_empty_answer :
  system_stats (snd (chat noon "What is algebra?" None (tutor_with silent_chain)))
  = mkStats 1 0 1 3.
Proof. vm_compute. reflexivity. Qed.

Example chat_not_initialized :
  system_stats (snd (chat noon "What is algebra?" None EduSmartAITutor.__init__))
  = mkStats 0 0 0 0.
Proof. reflexivity. Qed.

(** A tutor marked initialized without a pipeline: the exception is
    caught and counted as a failure. *)
Example chat_without_pipeline :
  system_stats
    (snd (chat noon "What is algebra?" None
            (EduSmartAITutor.mk true None None None (mkStats 0 0 0 0))))
  = mkStats 1 0 1 0.
Proof. reflexivity. Qed.

End UsageStatistics.

(** ** The conversation history *)

Section ConversationHistory.

Import LangChain ConversationMemoryManager Samples.

Lemma slice_from_last_n {A} (n : Z) (l : list A) :
  (1 <= n)%Z -> slice_from (- n) l = last_n (Z.to_nat n) l.
Proof.
  intros Hn. unfold slice_from, last_n.
  destruct (Z.ltb_spec (- n) 0); [|lia].
  f_equal. lia.
Qed.

Lemma slice_from_zero {A} (l : list A) : slice_from 0 l = l.
Proof.
  unfold slice_from. simpl. rewrite Z.min_l by lia. reflexivity.
Qed.

Lemma last_n_all {A} (n : nat) (l : list A) :
  List.length l <= n -> last_n n l = l.
Proof.
  intros H. unfold last_n.
  replace (List.length l - n) with 0 by lia. reflexivity.
Qed.

Lemma last_n_length {A} (n : nat) (l : list A) :
  List.length (last_n n l) = Nat.min n (List.length l).
Proof. unfold last_n. rewrite length_skipn. lia. Qed.

Lemma add_call_max_history (self : t) (c : call) :
  max_history (add_call self c) = max_history self.
Proof. reflexivity. Qed.

Lemma add_all_max_history calls : forall self : t,
  max_history (add_all calls self) = max_history self.
Proof.
  induction calls as [|c calls IH]; intros self; simpl; [reflexivity|].
  now rewrite IH.
Qed.

(** The history after one call, as the code computes it. *)
Lemma add_call_history (self : t) (c : call) :
  conversation_history (add_call self c) =
  let history := (conversation_history self ++ [record_of c])%list in
  if (max_history self * 2 <? Z.of_nat (List.length history))%Z
  then slice_from (- max_history self * 2) history
  else history.
Proof. reflexivity. Qed.

(** With a window of at least one exchange, a call appends its record and
    keeps the [2 * max_history] most recent records. *)
Lemma add_call_window (self : t) (c : call) :
  (1 <= max_history self)%Z ->
  conversation_history (add_call self c) =
    last_n (Z.to_nat (2 * max_history self))
           (conversation_history self ++ [record_of c])
  /\ (Z.of_nat (List.length (conversation_history (add_call self c)))
      <= 2 * max_history self)%Z.
Proof.
  intros Hh. rewrite add_call_history. cbv zeta.
  set (history := (conversation_history self ++ [record_of c])%list).
  assert (conversation_history_eq :
    (if (max_history self * 2 <? Z.of_nat (List.length history))%Z
     then slice_from (- max_history self * 2) history
     else history) = last_n (Z.to_nat (2 * max_history self)) history).
  { destruct (Z.ltb_spec (max_history self * 2)
                         (Z.of_nat (List.length history))).
    - replace (- max_history self * 2)%Z with (- (2 * max_history self))%Z
        by lia.
      apply slice_from_last_n. lia.
    - symmetry. apply last_n_all. lia. }
  rewrite conversation_history_eq. split; [reflexivity|].
  rewrite last_n_length. lia.
Qed.

Lemma add_all_bounded (h : Z) calls :
  (1 <= h)%Z ->
  (Z.of_nat (List.length (conversation_history (add_all calls (__init__ h))))
   <= 2 * h)%Z.
Proof.
  intros Hh.
  assert (forall self : t,
    max_history self = h ->
    (Z.of_nat (List.length (conversation_history self)) <= 2 * h)%Z ->
    (Z.of_nat (List.length (conversation_history (add_all calls self)))
     <= 2 * h)%Z) as Hgen.
  { induction calls as [|c calls IH]; intros self Hmax Hlen; simpl.
    - exact Hlen.
    - apply IH; [now rewrite add_call_max_history|].
      rewrite <- Hmax. apply add_call_window. lia. }
  apply Hgen; [reflexivity|].
  unfold __init__. cbn [conversation_history List.length Z.of_nat]. lia.
Qed.

(** With [max_history = 0] the slice [history[-0:]] is the whole list:
    a call appends its record and evicts nothing. *)
Lemma add_call_at_zero (self : t) (c : call) :
  max_history self = 0%Z ->
  conversation_history (add_call self c) =
  (conversation_history self ++ [record_of c])%list.
Proof.
  intros H0. rewrite add_call_history. cbv zeta. rewrite H0. simpl.
  rewrite slice_from_zero. now destruct (_ <? _)%Z.
Qed.

Lemma add_all_at_zero calls : forall self : t,
  max_history self = 0%Z ->
  conversation_history (add_all calls self) =
  (conversation_history self ++ map record_of calls)%list.
Proof.
  induction calls as [|c calls IH]; intros self H0; simpl.
  - now rewrite app_nil_r.
  - rewrite IH by (now rewrite add_call_max_history).
    rewrite add_call_at_zero by assumption.
    now rewrite <- app_assoc.
Qed.

(** C2, at [max_history = 0].  The claim bounds the history by
    [2 * max_history = 0] entries; the code keeps every record of every
    sequence of calls, so that the history grows by one with each call. *)
Theorem history_unbounded_at_zero (calls : list call) :
  conversation_history (add_all calls (__init__ 0)) = map record_of calls
  /\ List.length (conversation_history (add_all calls (__init__ 0)))
     = List.length calls.
Proof.
  rewrite add_all_at_zero by reflexivity. simpl.
  split; [reflexivity|apply length_map].
Qed.

Example history_after_three_calls_at_zero :
  List.length
    (conversation_history
       (add_all [question_call "one"; question_call "two";
                 question_call "three"] (__init__ 0))) = 3.
Proof. reflexivity. Qed.

(** The bounded history for windows of at least one exchange: after every
    call the history holds at most [2 * max_history] records, the new record
    comes last, and the records kept are the most recent ones in their
    order. *)
Theorem add_interaction_window (self : t) (c : call) :
  (1 <= max_history self)%Z ->
  conversation_history (add_call self c) =
    last_n (Z.to_nat (2 * max_history self))
           (conversation_history self ++ [record_of c])
  /\ (Z.of_nat (List.length (conversation_history (add_call self c)))
      <= 2 * max_history self)%Z
  /\ (forall calls,
        (Z.of_nat (List.length
                     (conversation_history
                        (add_all calls (__init__ (max_history self)))))
         <= 2 * max_history self)%Z).
Proof.
  intros Hh. destruct (add_call_window self c Hh) as (Heq & Hlen).
  split; [assumption|]. split; [assumption|].
  intros calls. now apply add_all_bounded.
Qed.

Lemma add_interaction_window_witness :
  (1 <= max_history (__init__ 1))%Z
  /\ conversation_history
       (add_all [question_call "one"; question_call "two";
                 question_call "three"] (__init__ 1))
     = [record_of (question_call "two"); record_of (question_call "three")].
Proof.
  assert (1 <= max_history (__init__ 1))%Z as Hh by (cbn; lia).
  split; [exact Hh|].
  pose proof (add_interaction_window
                (add_all [question_call "one"; question_call "two"]
                         (__init__ 1))
                (question_call "three") Hh) as (Heq & _).
  exact Heq.
Defined.

End ConversationHistory.

(** ** The student profile *)

Section StudentProfile.

Import ConversationMemoryManager Samples.

Lemma existsb_eqb_in (s : string) (l : list string) :
  existsb (String.eqb s) l = true <-> In s l.
Proof.
  rewrite existsb_exists. split.
  - intros (x & Hin & Heq). apply String.eqb_eq in Heq. now subst.
  - intros Hin. exists s. split; [assumption|apply String.eqb_refl].
Qed.

(** The subjects after an update: the same list, or the same list with one
    subject at its end that was not a member. *)
Lemma update_subjects now human_input ai_response metadata (p : profile) :
  let p' := _update_student_profile now human_input ai_response metadata p in
  subjects_of_interest p' = subjects_of_interest p
  \/ exists subject,
       ~ In subject (subjects_of_interest p)
       /\ (exists items, metadata = Some items
                         /\ dict_lookup items "subject" = Some (PyStr subject))
       /\ subjects_of_interest p' = (subjects_of_interest p ++ [subject])%list.
Proof.
  unfold _update_student_profile. cbn [subjects_of_interest].
  destruct metadata as [[|item items]|]; auto.
  destruct (dict_lookup (item :: items) "subject")
    as [[ | b | z | x | s | l | l | d | i ]|] eqn:E; auto.
  destruct (negb (String.eqb s "")); auto.
  destruct (existsb (String.eqb s) (subjects_of_interest p)) eqn:Hmem;
    cbn [negb]; auto.
  right. exists s. split; [|split].
  - intros Hin. apply existsb_eqb_in in Hin. congruence.
  - exists (item :: items). auto.
  - reflexivity.
Qed.

Lemma update_keeps_nodup now human_input ai_response metadata (p : profile) :
  NoDup (subjects_of_interest p) ->
  NoDup (subjects_of_interest
           (_update_student_profile now human_input ai_response metadata p)).
Proof.
  intros Hnd.
  destruct (update_subjects now human_input ai_response metadata p)
    as [->|(subject & Hnotin & _ & ->)]; [assumption|].
  apply NoDup_app; [assumption|repeat constructor; intros []|].
  intros x Hin [<-|[]]. contradiction.
Qed.

Lemma add_all_nodup calls : forall self : t,
  NoDup (subjects_of_interest (student_profile self)) ->
  NoDup (subjects_of_interest (student_profile (add_all calls self))).
Proof.
  induction calls as [|c calls IH]; intros self Hnd; simpl; [assumption|].
  apply IH. now apply update_keeps_nodup.
Qed.

(** C6.  Along every sequence of interactions the list
    [subjects_of_interest] holds no duplicate: a subject of the metadata is
    appended only when it is not a member.  No list of the profile loses an
    element in an interaction, and [session_count] grows by exactly one with
    every call of [add_interaction]. *)
Theorem profile_accumulates :
  (forall h calls,
      NoDup (subjects_of_interest
               (student_profile (add_all calls (__init__ h)))))
  /\ (forall now human_input ai_response metadata (self : t),
        let p := student_profile self in
        let p' :=
          student_profile
            (add_interaction now human_input ai_response metadata self) in
        (NoDup (subjects_of_interest p) -> NoDup (subjects_of_interest p'))
        /\ (subjects_of_interest p' = subjects_of_interest p
            \/ exists subject,
                 ~ In subject (subjects_of_interest p)
                 /\ subjects_of_interest p' =
                    (subjects_of_interest p ++ [subject])%list)
        /\ common_mistakes p' = common_mistakes p
        /\ strengths p' = strengths p
        /\ session_count p' = (session_count p + 1)%Z).
Proof.
  split.
  - intros h calls. apply add_all_nodup. constructor.
  - intros now human_input ai_response metadata self p p'. subst p p'.
    split; [apply update_keeps_nodup|]. split; [|repeat split].
    destruct (update_subjects (at_profile_update now) human_input ai_response
                              metadata (student_profile self))
      as [H|(subject & Hnotin & _ & H)]; [now left|].
    right. exists subject. now split.
Qed.

Example profile_after_two_questions_on_math :
  let self :=
    add_all [ mkCall noon "Show me an easy example" "Here is one."
                     (Some [("subject", PyStr "math")]);
              mkCall noon "Why does it work?" "Because."
                     (Some [("subject", PyStr "math")]) ]
            (__init__ 10) in
  student_profile self
  = mkProfile "analytical" "easy" ["math"] [] [] 2
              (Some "2024-01-01T12:00:01").
Proof. reflexivity. Qed.

(** A subject that is [None], as [query] passes it without a filter, is
    not recorded. *)
Example profile_without_subject :
  subjects_of_interest
    (student_profile
       (add_interaction noon "What is this?" "A set."
          (Some [("subject", PyNone); ("num_sources", PyInt 0)])
          (__init__ 10)))
  = [].
Proof. reflexivity. Qed.

End StudentProfile.

(** ** Sessions *)

Section Sessions.

Import LangChain ConversationMemoryManager Samples.

Lemma map_result_cons {A B} (f : A -> result B) (x : A) (r : list A) :
  map_result f (x :: r) =
  bind (f x) (fun y => bind (map_result f r) (fun ys => Ok (y :: ys))).
Proof. reflexivity. Qed.













(** Metadata that [json] cannot write leaves an unfinished file, from
    which nothing is restored. *)
Example session_not_saved :
  files (save_session empty_disk "2024-01-02" "sessions/s1.json"
                      stamped_manager)
        "sessions/s1.json" = Some FilePartial
  /\ load_session (save_session empty_disk "2024-01-02" "sessions/s1.json"
                                stamped_manager)
                  "sessions/s1.json" (__init__ 10)
     = Some (__init__ 10).
Proof. split; vm_compute; reflexivity. Qed.

(** On a disk without the directory [sessions], and for the empty path,
    [open] raises: no file is written and nothing is restored. *)
Example session_not_written :
  files (save_session bare_disk "2024-01-02" "sessions/s1.json"
                      plain_manager)
        "sessions/s1.json" = None
  /\ load_session (save_session bare_disk "2024-01-02" "sessions/s1.json"
                                plain_manager)
                  "sessions/s1.json" (__init__ 10)
     = Some (__init__ 10)
  /\ load_session (save_session empty_disk "2024-01-02" "" plain_manager)
                  "" (__init__ 10)
     = Some (__init__ 10).
Proof. repeat split; vm_compute; reflexivity. Qed.

(** A question that holds a lone surrogate (here U+D800), and a count of
    more digits than [str] converts, cannot be written either. *)
Example session_not_encoded :
  encodable surrogate = false
  /\ (exists e, to_json (PyStr surrogate) = Raise e)
  /\ (exists e, to_json (PyInt (10 ^ 4300)) = Raise e)
  /\ load_session
       (save_session empty_disk "2024-01-02" "sessions/s1.json"
          (add_interaction noon surrogate "A collection." None (__init__ 10)))
       "sessions/s1.json" (__init__ 10)
     = Some (__init__ 10).
Proof.
  split; [reflexivity|]. split; [eexists; reflexivity|].
  split; [eexists; vm_compute; reflexivity|]. vm_compute. reflexivity.
Qed.

(** Floats are written and read back; NaN comes back as NaN, which no
    comparison finds equal to the NaN that was saved. *)
Example floats_are_saved :
  (exists doc,
     to_json (PyList [PyFloat (Finite (f64 (3 # 10))); PyFloat NaN]) = Ok doc
     /\ of_json doc = PyList [PyFloat (Finite (f64 (3 # 10))); PyFloat NaN])
  /\ json_faithful (PyFloat (Finite (f64 (3 # 10)))) = true
  /\ py_eq (PyFloat NaN) (PyFloat NaN) = false.
Proof. split; [eexists; split; reflexivity|]. split; reflexivity. Qed.

(** With [max_history = 0] the slice [history[-0:]] is the whole history:
    the LangChain memory receives every interaction. *)
Example session_memory_at_zero :
  option_map (fun restored => messages (memory restored))
    (load_session (save_session empty_disk "2024-01-02" "sessions/s1.json"
                                plain_manager)
                  "sessions/s1.json" (__init__ 0))
  = Some [HumanMessage "What is a set?"; AIMessage "A collection."].
Proof. vm_compute. reflexivity. Qed.

End Sessions.

(** ** Cleaning of the responses *)

Section ResponseCleanup.

Import LLMManager.

Lemma prefix_sentence_end_intro r :
  prefix sentence_end (String "." (String " " r)) = true.
Proof. destruct r; reflexivity. Qed.

Lemma prefix_sentence_end s :
  prefix sentence_end s = true -> exists r, s = String "." (String " " r).
Proof.
  unfold sentence_end. destruct s as [|c [|c' r]]; cbn [prefix].
  - discriminate.
  - destruct (ascii_dec "." c); discriminate.
  - destruct (ascii_dec "." c) as [<-|Hc]; [|discriminate].
    destruct (ascii_dec " " c') as [<-|Hc']; [|discriminate].
    eauto.
Qed.

Lemma prefix_sentence_end_space r : prefix sentence_end (String " " r) = false.
Proof. reflexivity. Qed.

Lemma string_append_assoc (a b c : string) : (a ++ b) ++ c = a ++ (b ++ c).
Proof. induction a as [|x a IH]; simpl; [reflexivity|now rewrite IH]. Qed.

Lemma prefix_append sep a t : prefix sep a = true -> prefix sep (a ++ t) = true.
Proof.
  revert a. induction sep as [|x sep IH]; intros a;
    [intros _; destruct (a ++ t); reflexivity|].
  destruct a as [|y a]; cbn [prefix append]; [discriminate|].
  destruct (ascii_dec x y); [apply IH|discriminate].
Qed.

Lemma occurrences_append_le sep a t :
  occurrences sep a <= occurrences sep (a ++ t).
Proof.
  induction a as [|y a IH].
  - destruct sep; [destruct t|]; simpl; lia.
  - cbn [occurrences append].
    destruct (prefix sep (String y a)) eqn:E.
    + change (String y (a ++ t)) with (String y a ++ t).
      rewrite (prefix_append _ _ t E). lia.
    + destruct (prefix sep (String y (a ++ t))); lia.
Qed.

Lemma occurrences_lstrip sep s : occurrences sep (lstrip s) <= occurrences sep s.
Proof.
  induction s as [|c r IH]; [reflexivity|].
  cbn [lstrip]. destruct (is_space c); [|reflexivity].
  cbn [occurrences]. lia.
Qed.

Lemma rstrip_prefix s : exists t, s = rstrip s ++ t.
Proof.
  induction s as [|c r (t & IH)]; [exists ""; reflexivity|].
  cbn [rstrip]. destruct (rstrip r) as [|c' r'] eqn:E.
  - destruct (is_space c).
    + exists (String c r). reflexivity.
    + exists r. reflexivity.
  - exists t. change (String c r = String c (String c' r' ++ t)).
    now rewrite <- IH.
Qed.

Lemma occurrences_strip sep s : occurrences sep (strip s) <= occurrences sep s.
Proof.
  unfold strip.
  destruct (rstrip_prefix (lstrip s)) as (t & Ht).
  pose proof (occurrences_append_le sep (rstrip (lstrip s)) t) as H1.
  rewrite <- Ht in H1.
  pose proof (occurrences_lstrip sep s). lia.
Qed.

(** The number of pieces does not depend on the piece under construction. *)
Lemma split_from_length_cur s : forall skip cur cur',
  List.length (split_from sentence_end skip cur s)
  = List.length (split_from sentence_end skip cur' s).
Proof.
  induction s as [|c r IH]; intros skip cur cur'; [reflexivity|].
  cbn [split_from]. destruct skip as [|k].
  - destruct (prefix sentence_end (String c r)).
    + reflexivity.
    + apply IH.
  - apply IH.
Qed.

Lemma split_from_length s : forall cur,
  List.length (split_from sentence_end 0 cur s) = S (occurrences sentence_end s).
Proof.
  induction s as [|c r IH]; intros cur; [reflexivity|].
  cbn [split_from occurrences].
  destruct (prefix sentence_end (String c r)) eqn:E.
  - apply prefix_sentence_end in E as (r' & [= -> ->]).
    change (split_from sentence_end (String.length sentence_end - 1) ""
                       (String " " r'))
      with (split_from sentence_end 0 "" r').
    specialize (IH (cur ++ " ")).
    change (split_from sentence_end 0 (cur ++ " ") (String " " r'))
      with (split_from sentence_end 0 ((cur ++ " ") ++ " ") r') in IH.
    cbn [List.length].
    rewrite (split_from_length_cur r' 0 "" ((cur ++ " ") ++ " ")), IH.
    reflexivity.
  - rewrite IH. reflexivity.
Qed.

Lemma occurrences_nil : occurrences sentence_end "" = 0.
Proof. reflexivity. Qed.

Lemma occurrences_app_ge a s :
  occurrences sentence_end a + occurrences sentence_end s
  <= occurrences sentence_end (a ++ s).
Proof.
  induction a as [|c a IH]; [simpl; lia|].
  cbn [occurrences append].
  destruct (prefix sentence_end (String c a)) eqn:E.
  - change (String c (a ++ s)) with (String c a ++ s).
    rewrite (prefix_append _ _ s E). lia.
  - destruct (prefix sentence_end (String c (a ++ s))); lia.
Qed.

Lemma starts_clean_nil s : starts_clean "" s.
Proof. reflexivity. Qed.

Lemma starts_clean_piece cur s :
  starts_clean cur s -> occurrences sentence_end cur = 0.
Proof.
  unfold starts_clean. intros H.
  pose proof (occurrences_app_ge cur s). lia.
Qed.

Lemma starts_clean_step cur c r :
  starts_clean cur (String c r) ->
  prefix sentence_end (String c r) = false ->
  starts_clean (cur ++ String c "") r.
Proof.
  unfold starts_clean. intros H E.
  rewrite string_append_assoc. cbn [append]. rewrite H.
  cbn [occurrences]. now rewrite E.
Qed.

Lemma split_from_pieces s : forall skip cur,
  match skip with
  | 0 => starts_clean cur s
  | S _ => cur = ""
  end ->
  Forall (fun piece => occurrences sentence_end piece = 0)
         (split_from sentence_end skip cur s).
Proof.
  induction s as [|c r IH]; intros skip cur H.
  - cbn [split_from]. constructor; [|constructor].
    destruct skip; [|now subst].
    apply (starts_clean_piece cur ""). exact H.
  - cbn [split_from]. destruct skip as [|k].
    + destruct (prefix sentence_end (String c r)) eqn:E.
      * constructor; [now apply (starts_clean_piece cur (String c r))|].
        apply IH. reflexivity.
      * apply IH. now apply starts_clean_step.
    + subst cur. apply IH. destruct k; [apply starts_clean_nil|reflexivity].
Qed.

Lemma split_pieces s :
  Forall (fun piece => occurrences sentence_end piece = 0)
         (split sentence_end s).
Proof. apply split_from_pieces. apply starts_clean_nil. Qed.

Lemma split_length s :
  List.length (split sentence_end s) = S (occurrences sentence_end s).
Proof. apply split_from_length. Qed.

(** A piece followed by a full stop brings no occurrence. *)
Lemma occurrences_piece_stop piece r :
  occurrences sentence_end piece = 0 ->
  occurrences sentence_end (piece ++ String "." r)
  = occurrences sentence_end (String "." r).
Proof.
  induction piece as [|c p IH]; [reflexivity|].
  intros H. cbn [occurrences] in H.
  destruct (prefix sentence_end (String c p)) eqn:E; [discriminate|].
  cbn [Nat.add] in H. cbn [append]. 
  change (occurrences sentence_end (String c (p ++ String "." r)))
    with ((if prefix sentence_end (String c (p ++ String "." r)) then 1 else 0)
          + occurrences sentence_end (p ++ String "." r)).
  rewrite (IH H).
  destruct (prefix sentence_end (String c (p ++ String "." r))) eqn:E';
    [|reflexivity].
  apply prefix_sentence_end in E' as (r' & Hr').
  injection Hr' as -> Hp.
  destruct p as [|c' p'].
  - cbn [append] in Hp. discriminate.
  - cbn [append] in Hp. injection Hp as -> _.
    rewrite prefix_sentence_end_intro in E. discriminate.
Qed.

Lemma occurrences_join pieces :
  Forall (fun piece => occurrences sentence_end piece = 0) pieces ->
  occurrences sentence_end (join sentence_end pieces ++ ".")
  = List.length pieces - 1.
Proof.
  unfold join.
  induction 1 as [|p ps Hp Hps IH]; [reflexivity|].
  destruct ps as [|q ps].
  - cbn [concat List.length]. change "."%string with (String "." "").
    rewrite (occurrences_piece_stop p "" Hp). reflexivity.
  - change (concat sentence_end (p :: q :: ps))
      with (p ++ sentence_end ++ concat sentence_end (q :: ps)).
    rewrite !string_append_assoc.
    change (sentence_end ++ concat sentence_end (q :: ps) ++ ".")
      with (String "." (String " " (concat sentence_end (q :: ps) ++ "."))).
    rewrite (occurrences_piece_stop p _ Hp).
    cbn [occurrences]. rewrite prefix_sentence_end_intro.
    rewrite prefix_sentence_end_space. rewrite IH.
    cbn [List.length]. lia.
Qed.

Lemma Forall_firstn_pieces {A} (P : A -> Prop) n (l : list A) :
  Forall P l -> Forall P (firstn n l).
Proof.
  intros H. revert n. induction H as [|x l Hx _ IH]; intros [|n]; simpl;
    constructor; auto.
Qed.

(** The last step of [_clean_response] leaves at most three separators in
    any text. *)
Lemma truncation_bound (text : string) :
  occurrences sentence_end
    (strip (if (4 <? List.length (split sentence_end text))%nat
            then join sentence_end (take 4 (split sentence_end text)) ++ "."
            else text)) <= 3.
Proof.
  eapply Nat.le_trans; [apply occurrences_strip|].
  destruct (Nat.ltb_spec 4 (List.length (split sentence_end text))) as [H|H].
  - unfold take. rewrite occurrences_join
      by (apply Forall_firstn_pieces, split_pieces).
    rewrite length_firstn. lia.
  - rewrite split_length in H. lia.
Qed.

(** Whatever the response and the prompt, the result of [_clean_response]
    holds at most three sentence separators, that is at most four
    sentences. *)
Theorem clean_response_sentences (response original_prompt : string) :
  occurrences sentence_end
    (_clean_response response original_prompt) <= 3.
Proof.
  unfold _clean_response.
  set (text := if String.eqb _ "" then _ else _).
  change ". " with sentence_end.
  apply truncation_bound.
Qed.

(** C10, at a response of one space.  The claim promises a non-empty
    string without tokens; the test [if not response] lets the space through
    and the final [strip] returns the empty string, and a token written
    around another one survives the three passes of [replace].  The bound on
    the sentences ([clean_response_sentences]) and the clarification message
    for an empty remainder ([clean_response_of_nothing]) hold as claimed. *)
Theorem clean_response_of_blank :
  without_artifacts " " "hello" = " "
  /\ _clean_response " " "hello" = ""
  /\ _clean_response "<<s>s>" "hello" = "<s>".
Proof. repeat split. Qed.

(** When the prompt occurs in the response, the response is stripped before
    the test, and the clarification message is returned. *)
Example clean_response_of_prompt_and_blank :
  _clean_response "hello " "hello" = clarification_message.
Proof. reflexivity. Qed.

(** When nothing is left of the response, the clarification message is
    returned. *)
Lemma clean_response_of_nothing (response original_prompt : string) :
  without_artifacts response original_prompt = "" ->
  _clean_response response original_prompt = clarification_message.
Proof.
  unfold _clean_response, without_artifacts. intros ->. reflexivity.
Qed.

Example clean_response_keeps_four_sentences :
  _clean_response "One. Two. Three. Four. Five. Six" "hello"
  = "One. Two. Three. Four.".
Proof. reflexivity. Qed.

End ResponseCleanup.

(** ** The memory manager over sequences of calls *)

Section MemoryOverSequences.

Import LangChain ConversationMemoryManager Samples.

Lemma add_all_snoc calls c (self : t) :
  add_all (calls ++ [c]) self = add_call (add_all calls self) c.
Proof. unfold add_all. now rewrite fold_left_app. Qed.

Lemma last_n_app_last_n {A} (n : nat) (l r : list A) :
  last_n n (last_n n l ++ r) = last_n n (l ++ r).
Proof.
  destruct (Nat.le_gt_cases (List.length l) n) as [Hle|Hgt].
  - now rewrite (last_n_all n l Hle).
  - unfold last_n. rewrite !length_app, length_skipn.
    replace (List.length l - (List.length l - n) + List.length r - n)
      with (List.length r) by lia.
    replace (List.length l + List.length r - n)
      with (List.length r + (List.length l - n)) by lia.
    rewrite <- skipn_skipn. f_equal.
    rewrite skipn_app.
    replace (List.length l - n - List.length l) with 0 by lia.
    reflexivity.
Qed.

(** The history of a fresh manager after a sequence of calls. *)
Theorem add_all_history (h : Z) (calls : list call) :
  (1 <= h)%Z ->
  conversation_history (add_all calls (__init__ h))
  = last_n (Z.to_nat (2 * h)) (map record_of calls).
Proof.
  intros Hh. induction calls as [|c calls IH] using rev_ind; [reflexivity|].
  rewrite add_all_snoc, map_app. cbn [map].
  destruct (add_call_window (add_all calls (__init__ h)) c) as (-> & _).
  { rewrite add_all_max_history. exact Hh. }
  rewrite add_all_max_history, IH. cbn [max_history __init__].
  apply last_n_app_last_n.
Qed.

Lemma add_all_history_witness :
  (1 <= 1)%Z
  /\ conversation_history
       (add_all [question_call "one"; question_call "two";
                 question_call "three"; question_call "four"] (__init__ 1))
     = [record_of (question_call "three"); record_of (question_call "four")].
Proof.
  assert (1 <= 1)%Z as Hh by lia. split; [exact Hh|].
  exact (add_all_history 1 [question_call "one"; question_call "two";
                            question_call "three"; question_call "four"] Hh).
Defined.

Lemma add_call_messages (self : t) (c : call) :
  messages (memory (add_call self c))
  = (messages (memory self) ++ messages_of [record_of c])%list
  /\ k (memory (add_call self c)) = k (memory self).
Proof.
  unfold add_call, add_interaction. cbn. split; [|reflexivity].
  now rewrite <- app_assoc.
Qed.

Lemma messages_of_app l l' :
  messages_of (l ++ l') = (messages_of l ++ messages_of l')%list.
Proof. unfold messages_of. apply flat_map_app. Qed.

Lemma messages_of_length l : List.length (messages_of l) = 2 * List.length l.
Proof.
  unfold messages_of. induction l as [|i l IH]; [reflexivity|].
  cbn [flat_map List.length app]. rewrite IH. lia.
Qed.

Lemma add_all_messages calls : forall self : t,
  messages (memory (add_all calls self))
  = (messages (memory self) ++ messages_of (map record_of calls))%list
  /\ k (memory (add_all calls self)) = k (memory self).
Proof.
  induction calls as [|c calls IH]; intros self.
  - cbn. now rewrite app_nil_r.
  - cbn [add_all fold_left map]. fold (add_all calls (add_call self c)).
    destruct (IH (add_call self c)) as (-> & ->).
    destruct (add_call_messages self c) as (-> & ->).
    split; [|reflexivity].
    change (record_of c :: map record_of calls)
      with ([record_of c] ++ map record_of calls)%list.
    now rewrite messages_of_app, app_assoc.
Qed.

Lemma slice_from_length_le {A} (n : Z) (l : list A) :
  (1 <= n)%Z -> (Z.of_nat (List.length (slice_from (- n) l)) <= n)%Z.
Proof.
  intros Hn. unfold slice_from. rewrite length_skipn.
  destruct (Z.ltb_spec (- n) 0); lia.
Qed.

(** [add_interaction] never trims the LangChain memory: it holds two
    messages for every call, whatever the window, and the window only
    limits what [get_memory_variables] hands out. *)
Theorem chat_memory_never_trimmed (h : Z) (calls : list call) :
  let self := add_all calls (__init__ h) in
  messages (memory self) = messages_of (map record_of calls)
  /\ List.length (messages (memory self)) = 2 * List.length calls
  /\ (Z.of_nat (List.length (get_memory_variables self)) <= Z.max 0 (2 * h))%Z.
Proof.
  intros self. subst self.
  destruct (add_all_messages calls (__init__ h)) as (Hm & Hk).
  cbn [__init__ memory messages k app] in Hm, Hk.
  split; [exact Hm|]. split.
  - now rewrite Hm, messages_of_length, length_map.
  - unfold get_memory_variables, load_memory_variables. rewrite Hk.
    destruct (Z.ltb_spec 0 h) as [Hpos|Hneg].
    + replace (- h * 2)%Z with (- (2 * h))%Z by lia.
      pose proof (slice_from_length_le (2 * h)
                    (messages (memory (add_all calls (__init__ h))))
                    ltac:(lia)). lia.
    + cbn [List.length]. lia.
Qed.


Lemma update_profile_labels now human_input ai_response metadata (p : profile) :
  let p' := _update_student_profile now human_input ai_response metadata p in
  In (difficulty_preference p') [difficulty_preference p; "easy"; "hard"]
  /\ In (learning_style p')
        [learning_style p; "visual"; "analytical"; "hands-on"]
  /\ last_session p' = Some now.
Proof.
  unfold _update_student_profile. cbn [difficulty_preference learning_style
                                       last_session].
  split; [|split; [|reflexivity]].
  - destruct (any_word_in ["easy"; "simple"; "basic"] (lower human_input));
      [cbn; auto|].
    destruct (any_word_in ["hard"; "difficult"; "challenging"; "advanced"]
                          (lower human_input)); cbn; auto.
  - destruct (any_word_in ["example"; "show me"; "demonstrate"]
                          (lower human_input)); [cbn; auto|].
    destruct (any_word_in ["explain"; "why"; "how"] (lower human_input));
      [cbn; auto|].
    destruct (any_word_in ["practice"; "try"; "do"] (lower human_input));
      cbn; auto.
Qed.

Lemma add_all_profile calls : forall self : t,
  let p := student_profile self in
  let p' := student_profile (add_all calls self) in
  session_count p' = (session_count p + Z.of_nat (List.length calls))%Z
  /\ In (difficulty_preference p') [difficulty_preference p; "easy"; "hard"]
  /\ In (learning_style p')
        [learning_style p; "visual"; "analytical"; "hands-on"]
  /\ common_mistakes p' = common_mistakes p
  /\ strengths p' = strengths p
  /\ (forall subject,
        In subject (subjects_of_interest p') ->
        In subject (subjects_of_interest p)
        \/ exists c, In c calls /\ names_subject c subject).
Proof.
  induction calls as [|c calls IH]; intros self p p'; subst p p'.
  - cbn [add_all fold_left List.length Z.of_nat]. rewrite Z.add_0_r.
    repeat split; cbn; auto.
  - cbn [add_all fold_left]. fold (add_all calls (add_call self c)).
    destruct (IH (add_call self c)) as (Hcount & Hdiff & Hstyle & Hm & Hs & Hsub).
    destruct (update_profile_labels (at_profile_update (call_now c))
                (call_human_input c) (call_ai_response c) (call_metadata c)
                (student_profile self)) as (Hd1 & Hs1 & _).
    change (student_profile (add_call self c))
      with (_update_student_profile (at_profile_update (call_now c))
              (call_human_input c) (call_ai_response c) (call_metadata c)
              (student_profile self)) in *.
    split; [|split; [|split; [|split; [|split]]]].
    + rewrite Hcount. cbn [session_count _update_student_profile List.length].
      lia.
    + cbn [In] in *. intuition congruence.
    + cbn [In] in *. intuition congruence.
    + rewrite Hm. reflexivity.
    + rewrite Hs. reflexivity.
    + intros subject Hin. destruct (Hsub subject Hin) as [Hold|(c' & Hc' & Hn)].
      * destruct (update_subjects (at_profile_update (call_now c))
                    (call_human_input c) (call_ai_response c) (call_metadata c)
                    (student_profile self))
          as [Heq|(s & _ & (items & Hmeta & Hlook) & Heq)];
          rewrite Heq in Hold.
        -- now left.
        -- apply in_app_or in Hold as [Hold|[<-|[]]]; [now left|].
           right. exists c. split; [now left|]. exists items. now split.
      * right. exists c'. split; [now right|assumption].
Qed.

(** From a fresh manager: [session_count] counts the calls, the two
    preferences stay within their labels, the lists of strengths and of
    mistakes stay empty, and every subject of interest was named by a call. *)
Theorem profile_over_sequences (h : Z) (calls : list call) :
  let p := student_profile (add_all calls (__init__ h)) in
  session_count p = Z.of_nat (List.length calls)
  /\ In (difficulty_preference p) ["medium"; "easy"; "hard"]
  /\ In (learning_style p) ["adaptive"; "visual"; "analytical"; "hands-on"]
  /\ common_mistakes p = []
  /\ strengths p = []
  /\ (forall subject,
        In subject (subjects_of_interest p) ->
        exists c, In c calls /\ names_subject c subject).
Proof.
  intros p. subst p.
  destruct (add_all_profile calls (__init__ h))
    as (Hcount & Hdiff & Hstyle & Hm & Hs & Hsub).
  cbn [__init__ student_profile session_count difficulty_preference
       learning_style common_mistakes strengths subjects_of_interest] in *.
  repeat split; try assumption.
  intros subject Hin. destruct (Hsub subject Hin) as [[]|H]. exact H.
Qed.

Lemma last_n_nil {A} (n : nat) (l : list A) :
  last_n (S n) l = [] -> l = [].
Proof.
  intros H. apply (f_equal (@List.length A)) in H.
  rewrite last_n_length in H. destruct l; [reflexivity|]. simpl in H. lia.
Qed.

(** The context handed to the fallback chain depends on the three most
    recent interactions only. *)
Theorem conversation_context_last_three (self self' : t) :
  last_n 3 (conversation_history self) = last_n 3 (conversation_history self') ->
  get_conversation_context self = get_conversation_context self'.
Proof.
  intros H. unfold get_conversation_context.
  change (-3)%Z with (- 3)%Z.
  rewrite !(slice_from_last_n 3) by lia. change (Z.to_nat 3) with 3.
  destruct (conversation_history self) as [|i l] eqn:E;
    destruct (conversation_history self') as [|i' l'] eqn:E'.
  - reflexivity.
  - symmetry in H. apply last_n_nil in H. discriminate.
  - apply last_n_nil in H. discriminate.
  - now rewrite H.
Qed.

Lemma conversation_context_last_three_witness :
  last_n 3 (conversation_history
              (add_all (map question_call ["a"; "b"; "c"; "d"]) (__init__ 10)))
  = last_n 3 (conversation_history
                (add_all (map question_call ["b"; "c"; "d"]) (__init__ 10)))
  /\ get_conversation_context
       (add_all (map question_call ["a"; "b"; "c"; "d"]) (__init__ 10))
     = get_conversation_context
         (add_all (map question_call ["b"; "c"; "d"]) (__init__ 10)).
Proof.
  assert (last_n 3 (conversation_history
              (add_all (map question_call ["a"; "b"; "c"; "d"]) (__init__ 10)))
  = last_n 3 (conversation_history
                (add_all (map question_call ["b"; "c"; "d"]) (__init__ 10))))
    as H by reflexivity.
  split; [exact H|].
  exact (conversation_context_last_three _ _ H).
Defined.

End MemoryOverSequences.

(** ** The summary of the profile, and saves that fail *)

Section ProfileSummary.

Import LangChain ConversationMemoryManager Samples.

Lemma join_app_cons sep (front : list string) x rest :
  exists text,
    join sep (front ++ x :: rest) = text ++ join sep (x :: rest)
    /\ (front = [] -> text = "").
Proof.
  unfold join. induction front as [|y front (text & IH & _)].
  - exists "". split; reflexivity.
  - exists (y ++ sep ++ text). split; [|discriminate].
    change ((y :: front) ++ x :: rest)%list
      with (y :: (front ++ x :: rest))%list.
    destruct (front ++ x :: rest)%list as [|z l] eqn:E.
    + destruct front; discriminate.
    + change (concat sep (y :: z :: l))
        with (y ++ sep ++ concat sep (z :: l)).
      rewrite IH. now rewrite !string_append_assoc.
Qed.

(** The summary always ends with the learning style, the difficulty and
    the number of sessions, so that the text for a new student is never
    returned; nothing precedes them while no list of the profile holds a
    non-empty entry. *)
Theorem profile_summary_shape (self : t) :
  let p := student_profile self in
  exists front,
    get_student_profile_summary self
    = front ++ "Learning style: " ++ learning_style p
        ++ " | " ++ "Preferred difficulty: " ++ difficulty_preference p
        ++ " | " ++ "Sessions completed: " ++ str_of_Z (session_count p)
    /\ (_clean (subjects_of_interest p) = [] ->
        _clean (strengths p) = [] ->
        _clean (common_mistakes p) = [] -> front = "").
Proof.
  intros p. unfold get_student_profile_summary. fold p.
  set (front := (labelled "Interested in: " (_clean (subjects_of_interest p))
                 ++ labelled "Strengths: " (_clean (strengths p))
                 ++ labelled "Areas for improvement: "
                             (_clean (common_mistakes p)))%list).
  set (tail := [ "Learning style: " ++ learning_style p;
                 "Preferred difficulty: " ++ difficulty_preference p;
                 "Sessions completed: " ++ str_of_Z (session_count p) ]).
  assert ((labelled "Interested in: " (_clean (subjects_of_interest p))
           ++ labelled "Strengths: " (_clean (strengths p))
           ++ labelled "Areas for improvement: " (_clean (common_mistakes p))
           ++ tail)%list = (front ++ tail)%list) as ->
      by (subst front; now rewrite <- !app_assoc).
  destruct (join_app_cons " | " front
              ("Learning style: " ++ learning_style p)
              [ "Preferred difficulty: " ++ difficulty_preference p;
                "Sessions completed: " ++ str_of_Z (session_count p) ])
    as (text & Htext & Hfront).
  fold tail in Htext.
  exists text. split.
  - destruct (front ++ tail)%list as [|z l] eqn:E.
    + destruct front; discriminate.
    + rewrite Htext. unfold join, tail. cbn [concat].
      now rewrite !string_append_assoc.
  - intros H1 H2 H3. apply Hfront. subst front. now rewrite H1, H2, H3.
Qed.

End ProfileSummary.

Section FailedSave.

Import LangChain ConversationMemoryManager Samples.

Lemma map_result_raises {A B} (f : A -> result B) (l : list A) :
  Exists (fun x => exists e, f x = Raise e) l ->
  exists e, map_result f l = Raise e.
Proof.
  induction 1 as [x r (e & Hx)|x r _ (e & IH)]; rewrite map_result_cons.
  - rewrite Hx. cbn. eauto.
  - destruct (f x) as [y|e']; cbn; [|eauto]. rewrite IH. cbn. eauto.
Qed.

Lemma forallb_false_exists {A} (test : A -> bool) (l : list A) :
  forallb test l = false -> Exists (fun x => test x = false) l.
Proof.
  induction l as [|x l IH]; cbn; [discriminate|].
  destruct (test x) eqn:E; cbn; intros H.
  - right. now apply IH.
  - now left.
Qed.

(** A value that is not serializable cannot be written. *)
Lemma to_json_raises (v : pyval) :
  serializable v = false -> exists e, to_json v = Raise e.
Proof.
  induction v as [ | b | z | x | s | l IH | l IH | d IH | i ]
    using pyval_induction; cbn [serializable to_json]; try discriminate.
  - intros ->. eauto.
  - intros Hs. unfold dump_str. rewrite Hs. cbn. eauto.
  - intros H. apply forallb_false_exists in H.
    destruct (map_result_raises to_json l) as (e & ->); [|cbn; eauto].
    rewrite Forall_forall in IH. apply Exists_exists in H as (x & Hin & Hx).
    apply Exists_exists. exists x. split; [assumption|]. now apply IH.
  - intros H. apply forallb_false_exists in H.
    destruct (map_result_raises to_json l) as (e & ->); [|cbn; eauto].
    rewrite Forall_forall in IH. apply Exists_exists in H as (x & Hin & Hx).
    apply Exists_exists. exists x. split; [assumption|]. now apply IH.
  - intros H. apply forallb_false_exists in H.
    destruct (map_result_raises
                (fun '(key, x) =>
                   bind (dump_str key) (fun key =>
                   bind (to_json x) (fun j => Ok (key, j)))) d)
      as (e & ->); [|cbn; eauto].
    rewrite Forall_forall in IH.
    apply Exists_exists in H as ([key x] & Hin & Hx).
    apply Exists_exists. exists (key, x). split; [assumption|].
    unfold dump_str. destruct (encodable key); cbn [andb bind] in *; [|eauto].
    destruct (IH (key, x) Hin Hx) as (e & He). cbn in He. rewrite He.
    cbn. eauto.
  - intros _. cbn. eauto.
Qed.

Lemma unserializable_session (now : string) (self : t) :
  Exists (fun i => serializable (PyDict (metadata i)) = false)
         (conversation_history self) ->
  exists e, to_json (session_data now self) = Raise e.
Proof.
  intros Hbad. apply to_json_raises. unfold session_data.
  cbn [serializable forallb].
  assert (forallb serializable
            (map py_of_interaction (conversation_history self)) = false)
    as ->; [|now rewrite !andb_false_r].
  induction Hbad as [i l Hi|i l _ IH]; cbn [map forallb].
  - unfold py_of_interaction at 1. cbn [serializable forallb] in *.
    rewrite Hi. now rewrite !andb_false_r.
  - rewrite IH. apply andb_false_r.
Qed.

(** When the metadata of an interaction holds a value that [json] cannot
    write, [save_session] on a path that [open] can write overwrites the
    file with an unfinished text, whatever the file held, and
    [load_session] from that file leaves every manager as it was.  On a path
    that [open] cannot write, [save_session] leaves the file system as it
    was, with the file that the path may hold. *)
Theorem failed_save_restores_nothing (fs : filesystem) (now filepath : string)
  (self : t) :
  Exists (fun i => serializable (PyDict (metadata i)) = false)
         (conversation_history self) ->
  (writable fs filepath = true ->
   files (save_session fs now filepath self) filepath = Some FilePartial
   /\ forall loader,
        load_session (save_session fs now filepath self) filepath loader
        = Some loader)
  /\ (writable fs filepath = false ->
      save_session fs now filepath self = fs).
Proof.
  intros Hbad. unfold save_session. split; intros ->; [|reflexivity].
  destruct (unserializable_session now self Hbad) as (e & ->).
  unfold load_session, write_file. cbn [files].
  rewrite String.eqb_refl. auto.
Qed.

Lemma failed_save_restores_nothing_witness :
  Exists (fun i => serializable (PyDict (metadata i)) = false)
         (conversation_history stamped_manager)
  /\ load_session
       (save_session
          (save_session empty_disk "2024-01-02" "sessions/s1.json"
                        plain_manager)
          "2024-01-03" "sessions/s1.json" stamped_manager)
       "sessions/s1.json" (__init__ 5)
     = Some (__init__ 5).
Proof.
  assert (Exists (fun i => serializable (PyDict (metadata i)) = false)
                 (conversation_history stamped_manager)) as Hbad
      by (left; reflexivity).
  split; [exact Hbad|].
  apply (failed_save_restores_nothing _ "2024-01-03" "sessions/s1.json"
           stamped_manager Hbad).
  vm_compute. reflexivity.
Defined.

(** An older session stays on a path that cannot be opened any more, and
    is what [load_session] restores after the save that failed. *)
Example older_session_restored :
  let disk :=
    save_session empty_disk "2024-01-02" "sessions/s1.json" plain_manager in
  let locked := mkFilesystem (files disk) (fun _ => false) in
  option_map conversation_history
    (load_session
       (save_session locked "2024-01-03" "sessions/s1.json" stamped_manager)
       "sessions/s1.json" (__init__ 5))
  = Some (conversation_history plain_manager).
Proof. vm_compute. reflexivity. Qed.

End FailedSave.

(** ** The language-model manager *)

Section LanguageModel.

Import LLMManager Samples.

(** [generate_response] never raises: without a model and when the model
    raises it returns the fixed apology, and what it returns holds at most
    three sentence separators. *)
Theorem generate_response_bounded (self : LLMManager.t) (prompt : string) :
  exists text,
    generate_response self prompt = Ok text
    /\ occurrences sentence_end text <= 3
    /\ (llm self = None -> text = generation_apology)
    /\ (forall model e,
          llm self = Some model ->
          model (_format_educational_prompt prompt) = Raise e ->
          text = generation_apology)
    /\ (forall model response,
          llm self = Some model ->
          model (_format_educational_prompt prompt) = Ok response ->
          text = _clean_response response prompt).
Proof.
  assert (occurrences sentence_end generation_apology <= 3) as Hapology
      by (vm_compute; lia).
  unfold generate_response, try_except.
  destruct (llm self) as [model|]; cbn [bind].
  - destruct (model (_format_educational_prompt prompt)) as [response|e] eqn:E;
      cbn [bind].
    + exists (_clean_response response prompt).
      split; [reflexivity|]. split.
      { unfold _clean_response.
        set (text := if String.eqb _ "" then _ else _).
        change ". " with sentence_end. apply truncation_bound. }
      split; [discriminate|]. split.
      * intros model' e [= <-]. congruence.
      * intros model' response' [= <-]. congruence.
    + exists generation_apology. split; [reflexivity|].
      split; [assumption|]. split; [reflexivity|]. split; [reflexivity|].
      intros model' response' [= <-]. congruence.
  - exists generation_apology. split; [reflexivity|].
    split; [assumption|]. split; [reflexivity|].
    split; intros; discriminate.
Qed.

Variable env : backends.

Ltac run_initializer' :=
  unfold _initialize_model, _initialize_huggingface_hub_model,
    _initialize_local_model, _initialize_gemini_model,
    _initialize_fallback_model, try_catch, mbind, get, modify, lift, raise;
  cbn.

(** [_initialize_model] raises only the exception of the constructor of the
    fallback list model, and then installs nothing; when it returns, a model
    is installed under one of the four provider names, and the settings of
    the manager are as they were. *)
Theorem initialize_model_outcome (self : LLMManager.t) :
  match _initialize_model env self with
  | (Ok _, self') =>
      (exists model, llm self' = Some model)
      /\ In (provider self')
            ["huggingface_hub"; "local_hf_pipeline"; "gemini";
             "fallback_fake_llm"]
      /\ model_name self' = model_name self
      /\ gemini_api_key self' = gemini_api_key self
      /\ huggingface_api_token self' = huggingface_api_token self
      /\ use_local self' = use_local self
  | (Raise e, self') =>
      FakeListLLM env fallback_responses = Raise e
      /\ llm self' = llm self
      /\ provider self' = provider self
  end.
Proof.
  run_initializer'.
  destruct (nonempty (huggingface_api_token self)
            && (str_in "/" (model_name self)
                || str_in "mistral" (lower (model_name self)))).
  - destruct (HuggingFaceHub env _ _); cbn; [intuition eauto|].
    destruct (FakeListLLM env fallback_responses); cbn; intuition eauto.
  - destruct (use_local self) eqn:Elocal.
    + destruct (AutoTokenizer_from_pretrained env _); cbn.
      * destruct (HuggingFacePipeline env _); cbn; [intuition eauto|].
        destruct (FakeListLLM env fallback_responses); cbn; intuition eauto.
      * destruct (FakeListLLM env fallback_responses); cbn; intuition eauto.
    + destruct (nonempty (gemini_api_key self)
                && str_in "gemini" (lower (model_name self))).
      * destruct (ChatGoogleGenerativeAI env _ _); cbn; [intuition eauto|].
        destruct (FakeListLLM env fallback_responses); cbn; intuition eauto.
      * destruct (FakeListLLM env fallback_responses); cbn; intuition eauto.
Qed.

End LanguageModel.

(** ** The sources and the suggestions of the pipeline *)

Section SourcesAndSuggestions.

Import LangChain RAGPipeline Samples.

Lemma len_append (a b : string) : len (a ++ b) = len a + len b.
Proof.
  induction a as [|c a IH]; cbn [len append]; [reflexivity|].
  rewrite IH. lia.
Qed.

(** [s[:n]] holds [n] code points, or all of them when [s] has fewer. *)
Lemma str_take_len (s : string) : forall n,
  len (str_take n s) = Nat.min n (len s).
Proof.
  induction s as [|c s IH]; intros n; cbn [str_take len].
  - now rewrite Nat.min_0_r.
  - destruct (is_continuation c) eqn:E; cbn [len].
    + rewrite E, (IH n). reflexivity.
    + destruct n as [|n]; [reflexivity|]. cbn [len].
      rewrite E, (IH n). lia.
Qed.

(** [s[:n]] is a prefix of [s], and what follows it begins a code point. *)
Lemma str_take_prefix (s : string) : forall n,
  exists rest,
    s = str_take n s ++ rest
    /\ match rest with
       | EmptyString => True
       | String c _ => is_continuation c = false
       end.
Proof.
  induction s as [|c s IH]; intros n; cbn [str_take].
  - exists "". auto.
  - destruct (is_continuation c) eqn:E.
    + destruct (IH n) as (rest & Hs & Hrest). exists rest.
      cbn [append]. now rewrite <- Hs.
    + destruct n as [|n].
      * exists (String c s). auto.
      * destruct (IH n) as (rest & Hs & Hrest). exists rest.
        cbn [append]. now rewrite <- Hs.
Qed.

Lemma format_sources_from_spec source_docs : forall i,
  map id (format_sources_from i source_docs)
  = map (fun n => (i + Z.of_nat n)%Z) (seq 1 (List.length source_docs))
  /\ Forall2 preview_of source_docs (format_sources_from i source_docs).
Proof.
  induction source_docs as [|doc rest IH]; intros i.
  - split; [reflexivity|constructor].
  - cbn [format_sources_from List.length seq map id].
    destruct (IH (i + 1)%Z) as (Hids & Hall). split.
    + change (Z.of_nat 1) with 1%Z. f_equal.
      rewrite Hids, <- (seq_shift (List.length rest) 1), map_map.
      apply map_ext. intros n. lia.
    + constructor; [|exact Hall].
      unfold preview_of. cbn [content source_metadata].
      destruct (Nat.ltb_spec 200 (len (page_content doc))).
      * split; [lia|]. split; [|repeat split].
        intros _. split; [reflexivity|].
        rewrite len_append, str_take_len.
        change (len "...") with 3. lia.
      * split; [reflexivity|]. split; [lia|repeat split].
Qed.

(** [_format_sources] keeps one entry per document, in order, numbered
    from 1; the content is the text of the document when it has at most 200
    characters (code points) and its first 200 characters followed by three
    dots otherwise, 203 characters in all; the three metadata keys are
    always present, with their defaults for the keys that the document
    lacks. *)
Theorem format_sources_spec (source_docs : list Document) :
  List.length (_format_sources source_docs) = List.length source_docs
  /\ map id (_format_sources source_docs)
     = map Z.of_nat (seq 1 (List.length source_docs))
  /\ Forall2 preview_of source_docs (_format_sources source_docs).
Proof.
  unfold _format_sources.
  destruct (format_sources_from_spec source_docs 0) as (Hids & Hall).
  split; [|split; [exact Hids|exact Hall]].
  symmetry. eapply Forall2_length. exact Hall.
Qed.

Lemma matching_subjects_in table query_lower subject :
  In subject (matching_subjects table query_lower) <->
  exists keywords,
    In (subject, keywords) table
    /\ any_keyword_in keywords query_lower = true.
Proof.
  induction table as [|[s kws] rest IH]; cbn [matching_subjects].
  - split; [intros []|intros (? & [] & _)].
  - destruct (any_keyword_in kws query_lower) eqn:E.
    + cbn [In]. rewrite IH. split.
      * intros [<-|(k & Hin & Hk)]; [exists kws|exists k]; cbn; auto.
      * intros (k & [[= <- <-]|Hin] & Hk); [now left|right; eauto].
    + rewrite IH. split.
      * intros (k & Hin & Hk). exists k. cbn. auto.
      * intros (k & [[= <- <-]|Hin] & Hk); [congruence|eauto].
Qed.

Lemma matching_subjects_nodup table query_lower :
  NoDup (map fst table) -> NoDup (matching_subjects table query_lower).
Proof.
  induction table as [|[s kws] rest IH]; cbn [matching_subjects map fst];
    intros Hnd; [constructor|].
  inversion Hnd as [|? ? Hnotin Hrest]; subst.
  destruct (any_keyword_in kws query_lower); [|auto].
  constructor; [|auto].
  intros Hin. apply matching_subjects_in in Hin as (k & Hin & _).
  apply Hnotin. apply in_map_iff. exists (s, k). auto.
Qed.

(** [get_subject_suggestions] never returns an empty list and never
    repeats a subject; a subject of the table is suggested exactly when one
    of its keywords occurs in the lowercased query, and ['general'] is the
    answer exactly when no keyword of the table occurs. *)
Theorem subject_suggestions_spec (query : string) :
  let suggested := get_subject_suggestions query in
  suggested <> []
  /\ NoDup suggested
  /\ (forall subject keywords,
        In (subject, keywords) subject_keywords ->
        (In subject suggested <->
         any_keyword_in keywords (lower query) = true))
  /\ (suggested = ["general"] <->
      forall subject keywords,
        In (subject, keywords) subject_keywords ->
        any_keyword_in keywords (lower query) = false).
Proof.
  intros suggested. subst suggested. unfold get_subject_suggestions.
  pose proof (matching_subjects_nodup subject_keywords (lower query)) as Hnd.
  pose proof (fun s => matching_subjects_in subject_keywords (lower query) s)
    as Hin.
  destruct (matching_subjects subject_keywords (lower query))
    as [|first others] eqn:E.
  - split; [discriminate|]. split; [repeat constructor; intros []|].
    assert (forall subject keywords,
              In (subject, keywords) subject_keywords ->
              any_keyword_in keywords (lower query) = false) as Hnone.
    { intros s kws Hs. destruct (any_keyword_in kws (lower query)) eqn:Ek;
        [|reflexivity].
      exfalso. apply (proj2 (Hin s)). eauto. }
    split; [|tauto].
    intros s kws Hs. rewrite (Hnone s kws Hs). split; [|discriminate].
    intros [<-|[]]. cbn in Hs.
    repeat (destruct Hs as [Hs|Hs]; [discriminate|]). destruct Hs.
  - split; [discriminate|]. split; [apply Hnd; repeat constructor; cbn;
                                    intuition discriminate|].
    split.
    + intros s kws Hs. rewrite Hin. split.
      * intros (kws' & Hs' & Hk).
        assert (kws' = kws) as <-; [|assumption].
        cbn in Hs, Hs'.
        repeat (destruct Hs as [Hs|Hs];
                [injection Hs as <- <-;
                 repeat (destruct Hs' as [Hs'|Hs'];
                         [first [now injection Hs' as <-|discriminate]|]);
                 destruct Hs'|]).
        destruct Hs.
      * eauto.
    + split.
      * intros Hgen s kws Hs.
        destruct (any_keyword_in kws (lower query)) eqn:Ek; [|reflexivity].
        exfalso.
        assert (In s (first :: others)) as Hmem by (apply Hin; eauto).
        rewrite Hgen in Hmem. destruct Hmem as [<-|[]].
        cbn in Hs.
        repeat (destruct Hs as [Hs|Hs]; [discriminate|]). destruct Hs.
      * intros Hnone. exfalso.
        assert (In first (first :: others)) as Hmem by now left.
        apply Hin in Hmem as (kws & Hs & Hk).
        rewrite (Hnone _ _ Hs) in Hk. discriminate.
Qed.

End SourcesAndSuggestions.

(** ** What a query leaves in the memory *)

Section QueryEffects.

Import LangChain RAGPipeline Samples.

Variables (now : CMM.instants) (question : string)
          (subject_filter : option string).

(** The call of the chain touches the LangChain memory only. *)
Lemma call_chain_memory context (self : t) :
  let self' := snd (call_chain context question self) in
  CMM.conversation_history (memory_manager self')
  = CMM.conversation_history (memory_manager self)
  /\ CMM.student_profile (memory_manager self')
     = CMM.student_profile (memory_manager self)
  /\ CMM.max_history (memory_manager self')
     = CMM.max_history (memory_manager self).
Proof.
  unfold call_chain, call_invoke, mbind, get, lift, ret. cbn.
  destruct (chain_object self) as [invoke|run].
  - destruct (invoke _ _ _). cbn. auto.
  - destruct (run _ _); cbn; auto.
Qed.

(** The state and the response of [query] when the chain answers. *)
Lemma query_regular_state (self : t) (result : chain_result) :
  chain_outcome question self = Ok result ->
  let self1 :=
    snd (call_chain (CMM.get_personalized_context (memory_manager self))
                    question self) in
  let mm' :=
    CMM.add_interaction now question (answer_of result)
      (Some (query_metadata subject_filter (documents_of result)))
      (memory_manager self1) in
  query now question subject_filter self
  = (Ok (mkResponse (answer_of result)
           (_format_sources (documents_of result))
           (CMM.get_student_profile_summary mm')
           (_calculate_confidence (documents_of result))),
     set_memory_manager mm' self1).
Proof.
  unfold chain_outcome, query, query_body, try_catch, mbind, get, modify,
    lift, ret. simpl.
  destruct (call_chain _ question self) as [[result'|e] self1]; cbn;
    [|discriminate].
  intros [= ->]. reflexivity.
Qed.

Lemma query_failed_state (self : t) (e : string) :
  chain_outcome question self = Raise e ->
  snd (query now question subject_filter self)
  = snd (call_chain (CMM.get_personalized_context (memory_manager self))
                    question self).
Proof.
  unfold chain_outcome, query, query_body, try_catch, mbind, get, modify,
    lift, ret. simpl.
  destruct (call_chain _ question self) as [[result|e'] self1]; cbn;
    [discriminate|].
  intros _. destruct (generate_response (llm_manager self1) question);
    reflexivity.
Qed.

(** The history and the profile after a query. *)
Lemma query_memory_after (self : t) :
  let mm := memory_manager self in
  let mm' := memory_manager (snd (query now question subject_filter self)) in
  match chain_outcome question self with
  | Ok result =>
      let recorded :=
        CMM.add_interaction now question (answer_of result)
          (Some (query_metadata subject_filter (documents_of result))) mm in
      CMM.conversation_history mm' = CMM.conversation_history recorded
      /\ CMM.student_profile mm' = CMM.student_profile recorded
  | Raise _ =>
      CMM.conversation_history mm' = CMM.conversation_history mm
      /\ CMM.student_profile mm' = CMM.student_profile mm
  end.
Proof.
  intros mm mm'. subst mm mm'.
  pose proof (call_chain_memory
                (CMM.get_personalized_context (memory_manager self)) self)
    as (Hh & Hp & Hm). cbv zeta in Hh, Hp, Hm.
  destruct (chain_outcome question self) as [result|e] eqn:E.
  - rewrite (query_regular_state self result E). cbn [snd].
    cbn [memory_manager set_memory_manager].
    unfold CMM.add_interaction.
    cbn [CMM.conversation_history CMM.student_profile CMM.max_history].
    rewrite Hh, Hp, Hm. split; reflexivity.
  - rewrite (query_failed_state self e E). auto.
Qed.

(** A query whose chain answers is recorded as one interaction, with the
    answer of the chain and the subject filter in its metadata, and the
    profile in the response is the updated one; a query whose chain raises
    leaves the history and the profile as they were: a fallback answer is
    not remembered. *)
Theorem query_memory_effects (self : t) :
  let after := snd (query now question subject_filter self) in
  let mm := memory_manager self in
  let mm' := memory_manager after in
  match chain_outcome question self with
  | Ok result =>
      let recorded :=
        CMM.add_interaction now question (answer_of result)
          (Some (query_metadata subject_filter (documents_of result))) mm in
      CMM.conversation_history mm' = CMM.conversation_history recorded
      /\ CMM.student_profile mm' = CMM.student_profile recorded
      /\ CMM.session_count (CMM.student_profile mm')
         = (CMM.session_count (CMM.student_profile mm) + 1)%Z
      /\ (exists response,
            fst (query now question subject_filter self) = Ok response
            /\ student_profile response = CMM.get_student_profile_summary mm'
            /\ List.length (sources response)
               = List.length (documents_of result))
  | Raise _ =>
      CMM.conversation_history mm' = CMM.conversation_history mm
      /\ CMM.student_profile mm' = CMM.student_profile mm
  end.
Proof.
  intros after mm mm'. subst after mm mm'.
  pose proof (call_chain_memory
                (CMM.get_personalized_context (memory_manager self)) self)
    as (Hh & Hp & Hm). cbv zeta in Hh, Hp, Hm.
  destruct (chain_outcome question self) as [result|e] eqn:E.
  - rewrite (query_regular_state self result E). cbn [snd fst].
    cbn [memory_manager set_memory_manager].
    unfold CMM.add_interaction.
    cbn [CMM.conversation_history CMM.student_profile CMM.max_history].
    rewrite Hh, Hp, Hm. repeat split.
    eexists. split; [reflexivity|]. split; [reflexivity|].
    cbn [sources]. unfold _format_sources.
    generalize 0%Z. induction (documents_of result) as [|d l IH]; intros i;
      cbn [format_sources_from List.length]; [reflexivity|].
    now rewrite IH.
  - rewrite (query_failed_state self e E). auto.
Qed.

(** The subject filter of a query becomes a subject of interest, and a
    query without filter adds none. *)
Theorem query_subject_of_interest (self : t) (result : chain_result) :
  chain_outcome question self = Ok result ->
  let interests s :=
    CMM.subjects_of_interest (CMM.student_profile (memory_manager s)) in
  match subject_filter with
  | Some (String c r) =>
      In (String c r)
         (interests (snd (query now question subject_filter self)))
  | _ =>
      interests (snd (query now question subject_filter self))
      = interests self
  end.
Proof.
  intros E interests. subst interests. cbv beta.
  pose proof (call_chain_memory
                (CMM.get_personalized_context (memory_manager self)) self)
    as (_ & Hp & _). cbv zeta in Hp.
  rewrite (query_regular_state self result E). cbn [snd].
  cbn [memory_manager set_memory_manager].
  unfold CMM.add_interaction. cbn [CMM.student_profile].
  rewrite Hp. unfold CMM._update_student_profile, query_metadata.
  cbn [CMM.subjects_of_interest dict_lookup String.eqb Ascii.eqb Bool.eqb
       andb].
  destruct subject_filter as [[|c r]|]; cbn [String.eqb negb];
    try reflexivity.
  destruct (existsb _ _) eqn:Hmem; cbn [negb].
  - apply existsb_eqb_in. exact Hmem.
  - apply in_or_app. right. now left.
Qed.

End QueryEffects.

Section QueryEffectsWitness.

Import LangChain RAGPipeline Samples.

Lemma query_subject_of_interest_witness :
  chain_outcome "What is algebra?"
    (pipeline_with (of_LLMManager echo_manager) working_chain)
  = Ok (mkChainResult
          (Some "Algebra uses letters for numbers.")
          (Some [mkDocument "algebra" [("subject", PyStr "math")]]))
  /\ In "math"
       (CMM.subjects_of_interest
          (CMM.student_profile
             (memory_manager
                (snd (query noon "What is algebra?" (Some "math")
                        (pipeline_with (of_LLMManager echo_manager)
                                       working_chain)))))).
Proof.
  assert (chain_outcome "What is algebra?"
            (pipeline_with (of_LLMManager echo_manager) working_chain)
          = Ok (mkChainResult
                  (Some "Algebra uses letters for numbers.")
                  (Some [mkDocument "algebra" [("subject", PyStr "math")]])))
    as E by reflexivity.
  split; [exact E|].
  exact (query_subject_of_interest noon "What is algebra?" (Some "math")
           _ _ E).
Defined.

End QueryEffectsWitness.

(** ** The confidence of a response and the construction of the pipeline *)

Section ConfidenceOfResponses.

Import LangChain RAGPipeline Samples.

(** [query] returns a response whose confidence lies between 0 and 1. *)
Lemma query_returns (now : CMM.instants) (question : string)
  (subject_filter : option string) (self : t) :
  exists response,
    fst (query now question subject_filter self) = Ok response
    /\ (0 <= confidence response <= 1)%Q.
Proof.
  destruct (chain_outcome question self) as [result|e] eqn:E.
  - rewrite (query_regular_state now question subject_filter self result E).
    eexists. split; [reflexivity|]. cbn [confidence].
    destruct (confidence_range (documents_of result))
      as ((Hlow & Hhigh) & _).
    split; [|assumption].
    apply Qle_trans with (f64 (3 # 10)); [vm_compute; discriminate|assumption].
  - rewrite (query_after_failure now question subject_filter self e E).
    destruct (generate_response (llm_manager self) question);
      eexists; (split; [reflexivity|]); cbn [confidence];
      split; vm_compute; discriminate.
Qed.

(** Every response of [query] carries a confidence between 0 and 1: at
    least 0.3 when the chain answered, and exactly 0.3 when it answered
    without documents; 0.3 or 0.0, without sources, when it raised. *)
Theorem query_confidence_range (now : CMM.instants) (question : string)
  (subject_filter : option string) (self : t) :
  exists response,
    fst (query now question subject_filter self) = Ok response
    /\ (0 <= confidence response <= 1)%Q
    /\ match chain_outcome question self with
       | Ok result =>
           (f64 (3 # 10) <= confidence response)%Q
           /\ (documents_of result = [] ->
               confidence response = f64 (3 # 10))
       | Raise _ =>
           sources response = []
           /\ (confidence response = f64 (3 # 10)
               \/ confidence response = 0%Q)
       end.
Proof.
  destruct (chain_outcome question self) as [result|e] eqn:E.
  - rewrite (query_regular_state now question subject_filter self result E).
    eexists. split; [reflexivity|]. cbn [confidence].
    destruct (confidence_range (documents_of result))
      as ((Hlow & Hhigh) & _).
    split; [split; [|assumption]|split; [assumption|]].
    + apply Qle_trans with (f64 (3 # 10));
        [vm_compute; discriminate|assumption].
    + intros ->. reflexivity.
  - rewrite (query_after_failure now question subject_filter self e E).
    destruct (generate_response (llm_manager self) question);
      eexists; (split; [reflexivity|]); cbn [confidence sources];
      (split; [split; vm_compute; discriminate|]); auto.
Qed.

(** The pipeline is built on the retrieval chain when the manager holds an
    index and LangChain accepts it, and on the plain chain otherwise;
    without an index the retrieval chain is not even tried.  The
    construction raises only the exception of the plain chain. *)
Theorem pipeline_construction (env : chain_constructors)
  (vsm : VectorStoreManager.t) (llm : llm_manager_object) (mm : CMM.t) :
  match VectorStoreManager.vector_store vsm with
  | Some store =>
      match from_llm env store with
      | Ok chain => __init__ env vsm llm mm = Ok (mk vsm llm mm chain)
      | Raise _ =>
          __init__ env vsm llm mm
          = bind (LLMChain env) (fun chain => Ok (mk vsm llm mm chain))
      end
  | None =>
      __init__ env vsm llm mm
      = bind (LLMChain env) (fun chain => Ok (mk vsm llm mm chain))
  end
  /\ (forall e, __init__ env vsm llm mm = Raise e -> LLMChain env = Raise e).
Proof.
  unfold __init__, _initialize_chain, _initialize_fallback_chain,
    VectorStoreManager.get_retriever, try_except.
  destruct (VectorStoreManager.vector_store vsm) as [store|]; cbn [bind].
  - destruct (from_llm env store) as [chain|e0]; cbn [bind].
    + split; [reflexivity|discriminate].
    + destruct (LLMChain env); cbn [bind]; split; try reflexivity;
        try discriminate. intros e' [= ->]. reflexivity.
  - destruct (LLMChain env); cbn [bind]; split; try reflexivity;
      try discriminate. intros e' [= ->]. reflexivity.
Qed.

End ConfidenceOfResponses.

(** ** The documents that are loaded *)

Section LoadedDocuments.

Import LangChain DocumentProcessor Samples.

Lemma dict_set_same (d : pydict) key value :
  dict_lookup (dict_set d key value) key = Some value.
Proof.
  induction d as [|[k v] r IH]; cbn [dict_set dict_lookup].
  - now rewrite String.eqb_refl.
  - destruct (String.eqb k key) eqn:E; cbn [dict_lookup]; rewrite E; auto.
Qed.

Lemma dict_set_other (d : pydict) key value key' :
  key <> key' ->
  dict_lookup (dict_set d key value) key' = dict_lookup d key'.
Proof.
  intros Hne. induction d as [|[k v] r IH]; cbn [dict_set dict_lookup].
  - destruct (String.eqb_spec key key'); [contradiction|reflexivity].
  - destruct (String.eqb_spec k key) as [->|Hk]; cbn [dict_lookup].
    + destruct (String.eqb_spec key key'); [contradiction|reflexivity].
    + now rewrite IH.
Qed.

(** The three keys that [load_documents] sets, whatever the loader had put
    in the metadata. *)
Lemma add_metadata_keys file_path file_extension (doc : Document) :
  let tagged := add_metadata file_path file_extension doc in
  page_content tagged = page_content doc
  /\ dict_get (metadata tagged) "source_file" = PyStr (basename file_path)
  /\ dict_get (metadata tagged) "file_type" = PyStr file_extension
  /\ dict_get (metadata tagged) "subject"
     = PyStr (_extract_subject_from_filename file_path).
Proof.
  unfold add_metadata, dict_update, dict_get, dict_get_default.
  cbn [page_content metadata fold_left].
  split; [reflexivity|]. split; [|split].
  - rewrite !dict_set_other by discriminate. now rewrite dict_set_same.
  - rewrite dict_set_other by discriminate. now rewrite dict_set_same.
  - now rewrite dict_set_same.
Qed.

Lemma load_file_spec (env : files) (file_path : string) doc :
  In doc (load_file env file_path) <-> loaded_from env file_path doc.
Proof.
  unfold load_file, loaded_from, loader_load.
  set (ext := lower (splitext_extension file_path)).
  destruct (path_exists env file_path) eqn:Hexists; cbn [negb].
  2:{ split; [intros []|intros (H & _); discriminate]. }
  destruct (String.eqb_spec ext ".pdf") as [Hpdf|Hpdf].
  - destruct (PyPDFLoader_load env file_path) as [docs|e] eqn:Hload.
    + rewrite in_map_iff. split.
      * intros (original & <- & Hin). split; [reflexivity|].
        exists docs, original. auto.
      * intros (_ & docs' & original & [(_ & [= <-])|(Htxt & _)] & Hin & ->).
        -- exists original. auto.
        -- rewrite Hpdf in Htxt. discriminate.
    + split; [intros []|].
      intros (_ & docs' & original & [(_ & [=])|(Htxt & _)] & _).
      rewrite Hpdf in Htxt. discriminate.
  - destruct (String.eqb_spec ext ".txt") as [Htxt|Htxt].
    + destruct (TextLoader_load env file_path) as [docs|e] eqn:Hload.
      * rewrite in_map_iff. split.
        -- intros (original & <- & Hin). split; [reflexivity|].
           exists docs, original. auto.
        -- intros (_ & docs' & original & [(Hp & _)|(_ & [= <-])] & Hin & ->).
           ++ contradiction.
           ++ exists original. auto.
      * split; [intros []|].
        intros (_ & docs' & original & [(Hp & _)|(_ & [=])] & _).
        contradiction.
    + split; [intros []|].
      intros (_ & docs' & original & [(Hp & _)|(Ht & _)] & _); contradiction.
Qed.

Lemma load_documents_from (env : files) (file_paths : list string) doc :
  In doc (load_documents env file_paths) <->
  exists file_path,
    In file_path file_paths /\ loaded_from env file_path doc.
Proof.
  unfold load_documents. rewrite in_flat_map.
  split; intros (file_path & Hpath & Hdoc); exists file_path;
    (split; [assumption|]); now apply load_file_spec.
Qed.

Lemma load_file_skipped (env : files) (file_path : string) :
  skipped env file_path -> load_file env file_path = [].
Proof.
  unfold skipped, load_file, loader_load.
  set (ext := lower (splitext_extension file_path)).
  intros [->|Hskip]; [reflexivity|].
  destruct (path_exists env file_path); cbn [negb]; [|reflexivity].
  destruct Hskip as [(Hp & Ht)|[(-> & e & ->)|(-> & e & ->)]];
    try reflexivity.
  destruct (String.eqb_spec ext ".pdf"); [contradiction|].
  destruct (String.eqb_spec ext ".txt"); [contradiction|reflexivity].
Qed.

Lemma loaded_from_keys env file_path doc :
  loaded_from env file_path doc ->
  (lower (splitext_extension file_path) = ".pdf"
   \/ lower (splitext_extension file_path) = ".txt")
  /\ dict_get (metadata doc) "source_file" = PyStr (basename file_path)
  /\ dict_get (metadata doc) "file_type"
     = PyStr (lower (splitext_extension file_path))
  /\ dict_get (metadata doc) "subject"
     = PyStr (_extract_subject_from_filename file_path).
Proof.
  intros (_ & docs & original & Hload & _ & ->).
  destruct (add_metadata_keys file_path
              (lower (splitext_extension file_path)) original)
    as (_ & H1 & H2 & H3).
  split; [|auto]. destruct Hload as [(H & _)|(H & _)]; auto.
Qed.

(** The documents that [load_documents] returns are those that the loaders
    of the listed files return, each with the metadata of its file: a
    document is returned exactly when it comes from a path of the list that
    exists and ends in [.pdf] or [.txt], whatever its case, and whose loader
    has returned it; its metadata then names the base name of the file, the
    lowercased extension with its dot, and the subject of the file name,
    whatever the loader had put under these keys.  A file that is missing,
    of another extension, or whose loader raises adds nothing, and the other
    files are loaded all the same. *)
Theorem load_documents_metadata (env : files) (file_paths : list string) :
  (forall doc,
     In doc (load_documents env file_paths) <->
     exists file_path,
       In file_path file_paths /\ loaded_from env file_path doc)
  /\ (forall doc file_path,
        loaded_from env file_path doc ->
        dict_get (metadata doc) "source_file" = PyStr (basename file_path)
        /\ dict_get (metadata doc) "file_type"
           = PyStr (lower (splitext_extension file_path))
        /\ dict_get (metadata doc) "subject"
           = PyStr (_extract_subject_from_filename file_path))
  /\ (forall before file_path after,
        file_paths = (before ++ file_path :: after)%list ->
        skipped env file_path ->
        load_documents env file_paths
        = load_documents env (before ++ after)%list).
Proof.
  split; [|split].
  - intros doc. apply load_documents_from.
  - intros doc file_path Hfrom.
    now destruct (loaded_from_keys env file_path doc Hfrom) as (_ & H).
  - intros before file_path after -> Hskip. unfold load_documents.
    rewrite !flat_map_app. cbn [flat_map].
    now rewrite (load_file_skipped env file_path Hskip).
Qed.

Lemma loaded_from_not_pdf env file_path doc :
  loaded_from env file_path doc -> RAGPipeline.is_pdf doc = false.
Proof.
  intros Hfrom.
  destruct (loaded_from_keys env file_path doc Hfrom)
    as (Hext & _ & Htype & _).
  unfold RAGPipeline.is_pdf.
  rewrite Htype. destruct Hext as [-> | ->]; reflexivity.
Qed.

Lemma count_none test (docs : list Document) :
  Forall (fun doc => test doc = false) docs ->
  filter test docs = [].
Proof.
  induction 1 as [|doc docs Hdoc _ IH]; cbn [filter]; [reflexivity|].
  now rewrite Hdoc.
Qed.

(** The file type that [load_documents] records keeps its dot, so that no
    document it returns passes the test [file_type == "pdf"] of
    [_calculate_confidence]: for these documents the confidence is
    min(1.0, min(0.9, 0.5 + n * 0.1) + b) on floats, where b is 0.05 added
    once for each of the g documents with a specific subject, without a
    bonus for PDF files. *)
Theorem loaded_documents_earn_no_pdf_bonus (env : files)
  (file_paths : list string) :
  let docs := load_documents env file_paths in
  let n := float_of_int (Z.of_nat (List.length docs)) in
  let g := RAGPipeline.count RAGPipeline.has_specific_subject docs in
  filter RAGPipeline.is_pdf docs = []
  /\ (docs = [] \/
      RAGPipeline._calculate_confidence docs
      = fmin (f64 1)
             (fadd (fmin (f64 (9 # 10))
                         (fadd (f64 (5 # 10)) (fmul n (f64 (1 # 10)))))
                   (RAGPipeline.repeated_bonus g))).
Proof.
  intros docs n g.
  assert (filter RAGPipeline.is_pdf docs = []) as Hnone.
  { apply count_none. subst docs.
    rewrite Forall_forall. intros doc Hin.
    apply load_documents_from in Hin as (file_path & _ & Hfrom).
    exact (loaded_from_not_pdf env file_path doc Hfrom). }
  split; [exact Hnone|].
  destruct docs as [|doc rest] eqn:E; [now left|right].
  unfold RAGPipeline._calculate_confidence.
  rewrite quality_bonus_count. unfold RAGPipeline.count at 1.
  rewrite Hnone. reflexivity.
Qed.

(** A PDF file on algebra whose page mentions no subject: the confidence
    of its two pages is 0.7999999999999999 (0.7 + 0.1 on floats), where a
    bonus for PDF files would have made it 0.8999999999999999. *)
Example confidence_of_loaded_pdf :
  RAGPipeline._calculate_confidence
    (load_documents sample_files ["data/Algebra.PDF"])
  = (7205759403792793 # 9007199254740992)%Q.
Proof. vm_compute. reflexivity. Qed.

End LoadedDocuments.

Section LoadedDocumentsExamples.

Import LangChain DocumentProcessor Samples.

Example load_documents_sample :
  load_documents sample_files
    ["data/Algebra.PDF"; "notes.txt"; "photo.png"; "missing.txt"]
  = [ mkDocument "page 1"
        [("page", PyInt 0); ("source_file", PyStr "Algebra.PDF");
         ("file_type", PyStr ".pdf"); ("subject", PyStr "math")];
      mkDocument "page 2"
        [("page", PyInt 1); ("source_file", PyStr "Algebra.PDF");
         ("file_type", PyStr ".pdf"); ("subject", PyStr "math")];
      mkDocument "text"
        [("source_file", PyStr "notes.txt"); ("file_type", PyStr ".txt");
         ("subject", PyStr "general")] ].
Proof. reflexivity. Qed.

End LoadedDocumentsExamples.

(** ** Suggestions and sessions of the tutor *)

Section TutorSessions.

Import LangChain EduSmartAITutor Samples.

Lemma suggestions_for_three subject :
  List.length (suggestions_for subject) = 3.
Proof.
  unfold suggestions_for.
  destruct (String.eqb subject "mathematics"); [reflexivity|].
  destruct (String.eqb subject "science"); [reflexivity|].
  destruct (String.eqb subject "english"); reflexivity.
Qed.

(** With a pipeline, [get_learning_suggestions] returns exactly three
    suggestions, those of the first subject that
    [get_subject_suggestions] names: the other subjects of the query add
    nothing, and history, computer and general share one list.  Without a
    pipeline it returns its one opening line. *)
Theorem learning_suggestions_spec (self : EduSmartAITutor.t)
  (student_query : string) :
  match rag_pipeline self with
  | Some _ =>
      exists first others,
        RAGPipeline.get_subject_suggestions student_query = first :: others
        /\ get_learning_suggestions self student_query = suggestions_for first
        /\ List.length (get_learning_suggestions self student_query) = 3
  | None =>
      get_learning_suggestions self student_query
      = ["Let's start with the basics of your topic of interest!"]
  end.
Proof.
  unfold get_learning_suggestions.
  destruct (rag_pipeline self) as [pipeline|]; [|reflexivity].
  destruct (RAGPipeline.get_subject_suggestions student_query)
    as [|first others] eqn:E.
  - unfold RAGPipeline.get_subject_suggestions in E.
    destruct (RAGPipeline.matching_subjects _ _); discriminate.
  - exists first, others. split; [reflexivity|].
    cbn [flat_map]. unfold take.
    pose proof (suggestions_for_three first) as H3.
    assert (firstn 3 (suggestions_for first
                      ++ flat_map suggestions_for others)%list
            = suggestions_for first) as ->.
    { rewrite firstn_app, H3, Nat.sub_diag, firstn_O, app_nil_r.
      apply firstn_all2. lia. }
    auto.
Qed.

Example suggestions_for_history_of_physics :
  get_learning_suggestions (tutor_with working_chain)
    "The history of physics"
  = [ "Want to learn about scientific experiments?";
      "Let's explore how science applies to everyday life!";
      "Would you like to understand the theory behind this concept?" ].
Proof. reflexivity. Qed.


(** Without saving, or without a session, [end_session] changes nothing:
    the session stays open. *)
Theorem end_session_without_saving (makedirs : makedirs_call)
  (fs : filesystem) (now : string) (self : EduSmartAITutor.t) :
  end_session makedirs fs now false self = (true, fs, self)
  /\ (current_session_id self = None ->
      end_session makedirs fs now true self = (true, fs, self))
  /\ (current_session_id self = Some "" ->
      end_session makedirs fs now true self = (true, fs, self)).
Proof.
  unfold end_session. split; [reflexivity|]. split; intros ->.
  - destruct (the_memory_manager self); reflexivity.
  - destruct (the_memory_manager self); reflexivity.
Qed.

(** [start_new_session] opens the session under the given name, or under
    the name [session_] followed by the clock reading when none or an empty
    one is given, and returns that name; it empties the history and the
    LangChain memory, and keeps the student profile, the window, the
    statistics and the initialization flag. *)
Theorem start_new_session_keeps_profile (stamp : string)
  (session_id : option string) (self : EduSmartAITutor.t) :
  let '(id, self') := start_new_session stamp session_id self in
  current_session_id self' = Some id
  /\ id <> ""
  /\ (forall given, session_id = Some given -> given <> "" -> id = given)
  /\ (session_id = None \/ session_id = Some "" -> id = "session_" ++ stamp)
  /\ system_stats self' = system_stats self
  /\ is_initialized self' = is_initialized self
  /\ match the_memory_manager self with
     | Some mm =>
         exists mm',
           the_memory_manager self' = Some mm'
           /\ CMM.conversation_history mm' = []
           /\ messages (CMM.memory mm') = []
           /\ CMM.student_profile mm' = CMM.student_profile mm
           /\ CMM.max_history mm' = CMM.max_history mm
     | None => the_memory_manager self' = None
     end.
Proof.
  unfold start_new_session.
  set (id := match session_id with
             | Some (String c r) => String c r
             | _ => "session_" ++ stamp
             end).
  split.
  { unfold update_memory_manager, set_current_session_id. cbn.
    destruct (rag_pipeline self); reflexivity. }
  split.
  { subst id. destruct session_id as [[|c r]|]; discriminate. }
  split.
  { intros given -> Hne. subst id. destruct given; [congruence|reflexivity]. }
  split.
  { subst id. intros [-> | ->]; reflexivity. }
  split.
  { unfold update_memory_manager, set_current_session_id. cbn.
    destruct (rag_pipeline self); reflexivity. }
  split.
  { unfold update_memory_manager, set_current_session_id. cbn.
    destruct (rag_pipeline self); reflexivity. }
  unfold the_memory_manager, update_memory_manager, set_current_session_id.
  cbn. destruct (rag_pipeline self) as [pipeline|]; cbn.
  - eexists. split; [reflexivity|]. cbn. auto.
  - destruct (memory_manager self) as [mm|]; cbn; [|reflexivity].
    eexists. split; [reflexivity|]. cbn. auto.
Qed.

Example start_new_session_names :
  fst (start_new_session "20240102_093000" None tutor_in_session)
  = "session_20240102_093000"
  /\ fst (start_new_session "20240102_093000" (Some "") tutor_in_session)
     = "session_20240102_093000"
  /\ fst (start_new_session "20240102_093000" (Some "tuesday")
                            tutor_in_session)
     = "tuesday".
Proof. repeat split. Qed.

End TutorSessions.

Section TutorSessionsWitness.

Import LangChain EduSmartAITutor Samples.


(** A session named [a/b] on a disk without the directory [sessions/a]:
    [end_session] returns [True] and closes the session, and no file is
    written.  When a file bears the name [sessions], [os.makedirs] raises:
    [end_session] returns [False] and the session stays open. *)
Example end_session_loses_session :
  let tutor :=
    set_current_session_id (Some "a/b") tutor_in_session in
  let '(ok, fs', self') :=
    end_session sample_makedirs bare_disk "2024-01-02" true tutor in
  ok = true
  /\ current_session_id self' = None
  /\ files fs' "sessions/a/b.json" = None
  /\ CMM.load_session fs' "sessions/a/b.json" (CMM.__init__ 10)
     = Some (CMM.__init__ 10).
Proof. vm_compute. repeat split. Qed.

Example end_session_without_directory :
  let disk := write_file empty_disk "sessions" FilePartial in
  let '(ok, fs', self') :=
    end_session sample_makedirs disk "2024-01-02" true tutor_in_session in
  ok = false
  /\ current_session_id self' = Some "monday"
  /\ files fs' "sessions/monday.json" = None.
Proof. vm_compute. repeat split. Qed.

End TutorSessionsWitness.

(** ** The tutor and its pipeline together *)

Section TutorAndPipeline.

Import LangChain EduSmartAITutor Samples.

Open Scope Z_scope.

Lemma chat_state now message subject_filter (self : EduSmartAITutor.t) :
  is_initialized self = true ->
  forall pipeline,
    rag_pipeline self = Some pipeline ->
    rag_pipeline (snd (chat now message subject_filter self))
    = Some (snd (RAGPipeline.query now message subject_filter pipeline))
    /\ fst (call_query now message subject_filter self)
       = fst (RAGPipeline.query now message subject_filter pipeline).
Proof.
  intros Hinit pipeline Hp.
  unfold chat, call_query, try_catch, mbind, get, modify, ret. simpl.
  rewrite Hinit. simpl. revert Hp.
  destruct (rag_pipeline self) as [p|]; [|discriminate].
  intros [= ->]. simpl.
  destruct (RAGPipeline.query now message subject_filter pipeline)
    as [[response|e] pipeline']; simpl.
  - destruct (String.eqb (RAGPipeline.answer response) ""); simpl;
      split; reflexivity.
  - split; reflexivity.
Qed.

(** One call of [chat] adds one to the interactions counted by the profile
    when the chain of the pipeline answered, and nothing otherwise, while
    [total_queries] grows with every call on an initialized tutor: the
    profile never counts more interactions than queries were made. *)
Theorem chat_counts_sessions now message subject_filter
  (self : EduSmartAITutor.t) :
  let after := snd (chat now message subject_filter self) in
  match is_initialized self, rag_pipeline self with
  | true, Some pipeline =>
      match RAGPipeline.chain_outcome message pipeline with
      | Ok _ => sessions_counted after = sessions_counted self + 1
      | Raise _ => sessions_counted after = sessions_counted self
      end
  | _, _ => sessions_counted after = sessions_counted self
  end
  /\ (sessions_counted self <= total_queries (system_stats self) ->
      sessions_counted after <= total_queries (system_stats after)).
Proof.
  intros after. subst after.
  pose proof (chat_counters now message subject_filter self) as Hc.
  cbv zeta in Hc.
  destruct (is_initialized self) eqn:Hinit.
  - destruct Hc as (Htotal & _).
    destruct (rag_pipeline self) as [pipeline|] eqn:Hp.
    + destruct (chat_state now message subject_filter self Hinit pipeline Hp)
        as (Hafter & _).
      pose proof (query_memory_after now message subject_filter pipeline)
        as Hq. cbv zeta in Hq.
      unfold sessions_counted, the_memory_manager. rewrite Hafter, Hp.
      destruct (RAGPipeline.chain_outcome message pipeline) as [result|e].
      * destruct Hq as (_ & Hprofile). rewrite Hprofile.
        cbn [CMM.add_interaction CMM.student_profile CMM.session_count
             CMM._update_student_profile].
        split; [reflexivity|lia].
      * destruct Hq as (_ & Hprofile). rewrite Hprofile.
        split; [reflexivity|lia].
    + assert (sessions_counted (snd (chat now message subject_filter self))
              = sessions_counted self) as Hsame.
      { unfold sessions_counted, the_memory_manager, chat, call_query,
          try_catch, mbind, get, modify, ret. simpl.
        rewrite Hinit. simpl. rewrite Hp. simpl. now rewrite Hp. }
      split; [exact Hsame|]. rewrite Hsame. lia.
  - assert (snd (chat now message subject_filter self) = self) as ->.
    { unfold chat, try_catch, mbind, get, modify, ret. simpl.
      rewrite Hinit. reflexivity. }
    split; [reflexivity|auto].
Qed.

Close Scope Z_scope.

(** [chat] always returns a response.  On an initialized tutor with a
    pipeline it carries no error, the session of the tutor, the new value
    of [total_queries] and a confidence between 0 and 1; otherwise it
    carries an error, no source and confidence 0. *)
Theorem chat_response_shape now message subject_filter
  (self : EduSmartAITutor.t) :
  exists response,
    fst (chat now message subject_filter self) = Ok response
    /\ match is_initialized self, rag_pipeline self with
       | true, Some pipeline =>
           error response = None
           /\ session_id response = Some (current_session_id self)
           /\ query_count response
              = Some (total_queries (system_stats self) + 1)%Z
           /\ (0 <= confidence response <= 1)%Q
           /\ fst (RAGPipeline.query now message subject_filter pipeline)
              = Ok (RAGPipeline.mkResponse (answer response)
                      (sources response) (student_profile response)
                      (confidence response))
       | true, None =>
           error response <> None
           /\ answer response = error_message
           /\ sources response = []
           /\ confidence response = 0%Q
       | false, _ =>
           error response = Some "System not initialized"
           /\ answer response = not_initialized_message
           /\ sources response = []
           /\ confidence response = 0%Q
       end.
Proof.
  unfold chat, call_query, try_catch, mbind, get, modify, ret. simpl.
  destruct (is_initialized self); simpl.
  - destruct (rag_pipeline self) as [pipeline|]; simpl.
    + destruct (query_returns now message subject_filter pipeline)
        as (r & Hr & Hrange).
      destruct (RAGPipeline.query now message subject_filter pipeline)
        as [[response|e] pipeline']; simpl in *; [|discriminate].
      injection Hr as ->.
      destruct (String.eqb (RAGPipeline.answer r) ""); simpl;
        (eexists; split; [reflexivity|]); simpl;
        repeat split; try apply Hrange; now destruct r.
    + eexists. split; [reflexivity|]. simpl. repeat split. discriminate.
  - destruct (rag_pipeline self); (eexists; split; [reflexivity|]); simpl;
      auto.
Qed.

End TutorAndPipeline.

Section TutorAndPipelineWitness.

Import LangChain EduSmartAITutor Samples.

Example chat_counts_sessions_after_failure :
  let after := snd (chat noon "What is algebra?" None (tutor_with broken_chain)) in
  sessions_counted after = 0%Z
  /\ total_queries (system_stats after) = 1%Z
  /\ successful_responses (system_stats after) = 1%Z.
Proof. cbv zeta. vm_compute. auto. Qed.

End TutorAndPipelineWitness.

(** ** Files of other shapes, and the texts built from the profile *)

Section LoadingDefaults.

Import LangChain ConversationMemoryManager Samples.

Lemma dict_lookup_of_json (items : list (string * json)) (key : string) :
  dict_lookup (map (fun '(k, x) => (k, of_json x)) items) key
  = option_map of_json (dict_lookup items key).
Proof.
  induction items as [|[k x] r IH]; cbn [map dict_lookup]; [reflexivity|].
  destruct (String.eqb k key); [reflexivity|exact IH].
Qed.

(** [load_session] reads the two keys with different defaults: from a JSON
    object that holds neither, the manager keeps its profile and loses its
    history and its LangChain memory; a file that holds another JSON value,
    an unfinished text or nothing at all leaves the manager untouched. *)
Theorem load_session_defaults (fs : filesystem) (filepath : string)
  (self : t) :
  (forall items,
      files fs filepath = Some (FileJson (JObj items)) ->
      dict_lookup items "student_profile" = None ->
      dict_lookup items "conversation_history" = None ->
      load_session fs filepath self
      = Some (mk (max_history self) (clear (memory self))
                 (student_profile self) []))
  /\ (forall doc,
        files fs filepath = Some (FileJson doc) ->
        (forall items, doc <> JObj items) ->
        load_session fs filepath self = Some self)
  /\ (files fs filepath = Some FilePartial ->
      load_session fs filepath self = Some self)
  /\ (files fs filepath = None -> load_session fs filepath self = Some self).
Proof.
  unfold load_session. split; [|split; [|split]].
  - intros items -> Hp Hh. cbn [of_json].
    rewrite !dict_lookup_of_json, Hp, Hh. cbn [option_map].
    unfold slice_from. cbn [List.length]. rewrite skipn_nil. reflexivity.
  - intros doc -> Hnot. destruct doc; try reflexivity.
    exfalso. eapply Hnot. reflexivity.
  - intros ->. reflexivity.
  - intros ->. reflexivity.
Qed.

Lemma load_session_defaults_witness :
  files (write_file empty_disk "empty.json" (FileJson (JObj [])))
        "empty.json"
  = Some (FileJson (JObj []))
  /\ load_session (write_file empty_disk "empty.json" (FileJson (JObj [])))
                  "empty.json" plain_manager
     = Some (mk 10 (mkMemory 10 []) (student_profile plain_manager) []).
Proof.
  assert (files (write_file empty_disk "empty.json" (FileJson (JObj [])))
                "empty.json"
          = Some (FileJson (JObj []))) as Hfile by reflexivity.
  split; [exact Hfile|].
  destruct (load_session_defaults
              (write_file empty_disk "empty.json" (FileJson (JObj [])))
              "empty.json" plain_manager) as (H & _).
  exact (H [] Hfile eq_refl eq_refl).
Defined.

(** For a manager that only [add_interaction] has fed, the lines on
    strengths and on areas to improve never appear: the personalized
    context is its four fixed lines and, once a subject was named, the line
    of the subjects; the summary is the subjects, when there are some, and
    its three fixed parts. *)
Theorem texts_of_fed_manager (h : Z) (calls : list call) :
  let self := add_all calls (__init__ h) in
  let p := student_profile self in
  get_personalized_context self
  = join newline
      ([ "STUDENT CONTEXT:";
         "Learning Style: " ++ learning_style p;
         "Difficulty Preference: " ++ difficulty_preference p;
         "Session Count: " ++ str_of_Z (Z.of_nat (List.length calls)) ]
       ++ labelled "Interested Subjects: " (subjects_of_interest p))
  /\ get_student_profile_summary self
     = join " | "
         (labelled "Interested in: " (_clean (subjects_of_interest p))
          ++ [ "Learning style: " ++ learning_style p;
               "Preferred difficulty: " ++ difficulty_preference p;
               "Sessions completed: "
                 ++ str_of_Z (Z.of_nat (List.length calls)) ]).
Proof.
  intros self p. subst p self.
  destruct (add_all_profile calls (__init__ h))
    as (Hcount & _ & _ & Hm & Hs & _).
  cbn [__init__ student_profile session_count common_mistakes strengths]
    in Hcount, Hm, Hs.
  rewrite Z.add_0_l in Hcount.
  unfold get_personalized_context, get_student_profile_summary.
  rewrite Hcount, Hm, Hs. cbn [_clean filter labelled].
  rewrite app_nil_r. split; [reflexivity|].
  cbn [app].
  destruct (labelled "Interested in: " _ ++ _)%list eqn:E; [|reflexivity].
  destruct (labelled "Interested in: "
              (_clean (subjects_of_interest
                         (student_profile (add_all calls (__init__ h))))));
    discriminate.
Qed.

End LoadingDefaults.
